(** * Gl JNI glue: a model of [src/edu/mines/jves/opengl/Gl.cpp]

    The file is one C++ translation unit of [extern "C"] functions, each
    written with the macros [JNI_GL_DECLARE*], [JNI_GL_BEGIN*] and
    [JNI_GL_END].  Every function body is a short statement list: optional
    declarations of array or buffer views, then one call of an OpenGL
    function, possibly inside a [return].

    The development has four layers:
    - the syntax of an entry point, exactly as the source spells it, and the
      table [Gl_cpp] with one row per function of the source, in file order;
    - the values the functions receive and hand on, with the widths of the
      JNI types written out;
    - an executable semantics ([exec], [run]) over an arbitrary native
      library, which records every native invocation in a trace;
    - a summary of each body ([summarize]) with its soundness lemma, which
      turns statements about all rows into checks that compute.

    The macros [JNI_TRY], [JNI_CATCH], the view classes ([JuintArray], ...)
    and [toPointer] come from [../util/jniglue.h], which is outside this
    file; they are modelled separately and marked as such. *)

From Stdlib Require Import ZArith List String Ascii Bool Lia.
Import ListNotations.
Local Open Scope string_scope.
Local Open Scope Z_scope.
Local Open Scope list_scope.

(** ** Syntax of an entry point *)

(** Parameter and return types that occur in the source.  [c_int] is the
    plain C [int] that [glGetString] declares for [name]. *)
Inductive jtype : Set :=
  | jbyte | jshort | jint | jlong | jfloat | jdouble | c_int
  | jboolean | jstring
  | jbyteArray | jshortArray | jintArray | jfloatArray | jdoubleArray
  | jarray | jobject.

(** The view classes of [jniglue.h] that the bodies instantiate. *)
Inductive wrapper : Set :=
  | JbyteArray | JubyteArray | JshortArray | JushortArray
  | JintArray | JuintArray | JfloatArray | JdoubleArray | JvoidArray
  | JfloatBuffer | JuintBuffer | JvoidBuffer.

Record param : Set := Param { p_type : jtype; p_name : string }.

(** What is called: a function bound at link time, [glAccum(...)], or the
    target of [( *(PFN...PROC)toPointer(pfunc))(...)]. *)
Inductive callee : Set :=
  | Direct (f : string)
  | ViaPointer (proc : string) (handle : string).

Record call : Set := Call { c_callee : callee; c_args : list string }.

(** The three expression forms under [return]:
    [f(a)], [(f(a)==GL_TRUE)?JNI_TRUE:JNI_FALSE] and
    [env->NewStringUTF((const char* )f(a))]. *)
Inductive expr : Set :=
  | ECall (c : call)
  | EIsGlTrue (c : call)
  | ENewStringUTF (c : call).

(** Statements: [Cls x(env,src);], [f(a);] and [return e;]. *)
Inductive stmt : Set :=
  | SLocal (cls : wrapper) (x src : string)
  | SExpr (c : call)
  | SReturn (e : expr).

(** The declaring macro of the function. *)
Inductive decl : Set :=
  | DECLARE0 | DECLARE1 | DECLARE2
  | DECLARE_RETURN0 (t : jtype) | DECLARE_RETURN1 (t : jtype).

Record entry : Set := Entry {
  e_decl : decl;
  e_name : string;            (* the macro's [name] argument *)
  e_params : list param;      (* the parameters written after the macro *)
  e_body : list stmt          (* between JNI_GL_BEGIN* and JNI_GL_END *)
}.

(** ** The functions of Gl.cpp, in file order *)

Definition Gl_cpp : list entry := [
  (* line 43 *)
  Entry DECLARE1 "glAccum"
    [Param jint "op"; Param jfloat "value"]
    [SExpr (Call (Direct "glAccum") ["op"; "value"])];
  (* line 49 *)
  Entry DECLARE1 "glAlphaFunc"
    [Param jint "func"; Param jfloat "ref"]
    [SExpr (Call (Direct "glAlphaFunc") ["func"; "ref"])];
  (* line 55 *)
  Entry (DECLARE_RETURN1 jboolean) "glAreTexturesResident"
    [Param jint "n"; Param jintArray "jtextures"; Param jbyteArray "jresidences"]
    [SLocal JuintArray "textures" "jtextures";
     SLocal JubyteArray "residences" "jresidences";
     SReturn (EIsGlTrue (Call (Direct "glAreTexturesResident") ["n"; "textures"; "residences"]))];
  (* line 65 *)
  Entry DECLARE1 "glArrayElement"
    [Param jint "i"]
    [SExpr (Call (Direct "glArrayElement") ["i"])];
  (* line 71 *)
  Entry DECLARE1 "glBegin"
    [Param jint "mode"]
    [SExpr (Call (Direct "glBegin") ["mode"])];
  (* line 77 *)
  Entry DECLARE1 "glBindTexture"
    [Param jint "target"; Param jint "texture"]
    [SExpr (Call (Direct "glBindTexture") ["target"; "texture"])];
  (* line 83 *)
  Entry DECLARE1 "glBitmap"
    [Param jint "width"; Param jint "height"; Param jfloat "xorig"; Param jfloat "yorig"; Param jfloat "xmove"; Param jfloat "ymove"; Param jbyteArray "jbitmap"]
    [SLocal JubyteArray "bitmap" "jbitmap";
     SExpr (Call (Direct "glBitmap") ["width"; "height"; "xorig"; "yorig"; "xmove"; "ymove"; "bitmap"])];
  (* line 91 *)
  Entry DECLARE1 "glBlendFunc"
    [Param jint "sfactor"; Param jint "dfactor"]
    [SExpr (Call (Direct "glBlendFunc") ["sfactor"; "dfactor"])];
  (* line 97 *)
  Entry DECLARE1 "glCallList"
    [Param jint "list"]
    [SExpr (Call (Direct "glCallList") ["list"])];
  (* line 117 *)
  Entry DECLARE1 "glCallLists__II_3B"
    [Param jint "n"; Param jint "type"; Param jbyteArray "jlists"]
    [SLocal JvoidArray "lists" "jlists";
     SExpr (Call (Direct "glCallLists") ["n"; "type"; "lists"])];
  (* line 124 *)
  Entry DECLARE1 "glCallLists__II_3I"
    [Param jint "n"; Param jint "type"; Param jintArray "jlists"]
    [SLocal JvoidArray "lists" "jlists";
     SExpr (Call (Direct "glCallLists") ["n"; "type"; "lists"])];
  (* line 131 *)
  Entry DECLARE1 "glCallLists__II_3S"
    [Param jint "n"; Param jint "type"; Param jshortArray "jlists"]
    [SLocal JvoidArray "lists" "jlists";
     SExpr (Call (Direct "glCallLists") ["n"; "type"; "lists"])];
  (* line 138 *)
  Entry DECLARE1 "glClear"
    [Param jint "mask"]
    [SExpr (Call (Direct "glClear") ["mask"])];
  (* line 144 *)
  Entry DECLARE1 "glClearAccum"
    [Param jfloat "red"; Param jfloat "green"; Param jfloat "blue"; Param jfloat "alpha"]
    [SExpr (Call (Direct "glClearAccum") ["red"; "green"; "blue"; "alpha"])];
  (* line 150 *)
  Entry DECLARE1 "glClearColor"
    [Param jfloat "red"; Param jfloat "green"; Param jfloat "blue"; Param jfloat "alpha"]
    [SExpr (Call (Direct "glClearColor") ["red"; "green"; "blue"; "alpha"])];
  (* line 156 *)
  Entry DECLARE1 "glClearDepth"
    [Param jdouble "depth"]
    [SExpr (Call (Direct "glClearDepth") ["depth"])];
  (* line 162 *)
  Entry DECLARE1 "glClearIndex"
    [Param jfloat "c"]
    [SExpr (Call (Direct "glClearIndex") ["c"])];
  (* line 168 *)
  Entry DECLARE1 "glClearStencil"
    [Param jint "s"]
    [SExpr (Call (Direct "glClearStencil") ["s"])];
  (* line 174 *)
  Entry DECLARE1 "glClipPlane"
    [Param jint "plane"; Param jdoubleArray "jequation"]
    [SLocal JdoubleArray "equation" "jequation";
     SExpr (Call (Direct "glClipPlane") ["plane"; "equation"])];
  (* line 181 *)
  Entry DECLARE1 "glColor3b"
    [Param jbyte "red"; Param jbyte "green"; Param jbyte "blue"]
    [SExpr (Call (Direct "glColor3b") ["red"; "green"; "blue"])];
  (* line 187 *)
  Entry DECLARE1 "glColor3bv"
    [Param jbyteArray "jv"]
    [SLocal JbyteArray "v" "jv";
     SExpr (Call (Direct "glColor3bv") ["v"])];
  (* line 194 *)
  Entry DECLARE1 "glColor3d"
    [Param jdouble "red"; Param jdouble "green"; Param jdouble "blue"]
    [SExpr (Call (Direct "glColor3d") ["red"; "green"; "blue"])];
  (* line 200 *)
  Entry DECLARE1 "glColor3dv"
    [Param jdoubleArray "jv"]
    [SLocal JdoubleArray "v" "jv";
     SExpr (Call (Direct "glColor3dv") ["v"])];
  (* line 207 *)
  Entry DECLARE1 "glColor3f"
    [Param jfloat "red"; Param jfloat "green"; Param jfloat "blue"]
    [SExpr (Call (Direct "glColor3f") ["red"; "green"; "blue"])];
  (* line 213 *)
  Entry DECLARE1 "glColor3fv"
    [Param jfloatArray "jv"]
    [SLocal JfloatArray "v" "jv";
     SExpr (Call (Direct "glColor3fv") ["v"])];
  (* line 220 *)
  Entry DECLARE1 "glColor3i"
    [Param jint "red"; Param jint "green"; Param jint "blue"]
    [SExpr (Call (Direct "glColor3i") ["red"; "green"; "blue"])];
  (* line 226 *)
  Entry DECLARE1 "glColor3iv"
    [Param jintArray "jv"]
    [SLocal JintArray "v" "jv";
     SExpr (Call (Direct "glColor3iv") ["v"])];
  (* line 233 *)
  Entry DECLARE1 "glColor3s"
    [Param jshort "red"; Param jshort "green"; Param jshort "blue"]
    [SExpr (Call (Direct "glColor3s") ["red"; "green"; "blue"])];
  (* line 239 *)
  Entry DECLARE1 "glColor3sv"
    [Param jshortArray "jv"]
    [SLocal JshortArray "v" "jv";
     SExpr (Call (Direct "glColor3sv") ["v"])];
  (* line 246 *)
  Entry DECLARE1 "glColor4b"
    [Param jbyte "red"; Param jbyte "green"; Param jbyte "blue"; Param jbyte "alpha"]
    [SExpr (Call (Direct "glColor4b") ["red"; "green"; "blue"; "alpha"])];
  (* line 252 *)
  Entry DECLARE1 "glColor4bv"
    [Param jbyteArray "jv"]
    [SLocal JbyteArray "v" "jv";
     SExpr (Call (Direct "glColor4bv") ["v"])];
  (* line 259 *)
  Entry DECLARE1 "glColor4d"
    [Param jdouble "red"; Param jdouble "green"; Param jdouble "blue"; Param jdouble "alpha"]
    [SExpr (Call (Direct "glColor4d") ["red"; "green"; "blue"; "alpha"])];
  (* line 265 *)
  Entry DECLARE1 "glColor4dv"
    [Param jdoubleArray "jv"]
    [SLocal JdoubleArray "v" "jv";
     SExpr (Call (Direct "glColor4dv") ["v"])];
  (* line 272 *)
  Entry DECLARE1 "glColor4f"
    [Param jfloat "red"; Param jfloat "green"; Param jfloat "blue"; Param jfloat "alpha"]
    [SExpr (Call (Direct "glColor4f") ["red"; "green"; "blue"; "alpha"])];
  (* line 278 *)
  Entry DECLARE1 "glColor4fv"
    [Param jfloatArray "jv"]
    [SLocal JfloatArray "v" "jv";
     SExpr (Call (Direct "glColor4fv") ["v"])];
  (* line 285 *)
  Entry DECLARE1 "glColor4i"
    [Param jint "red"; Param jint "green"; Param jint "blue"; Param jint "alpha"]
    [SExpr (Call (Direct "glColor4i") ["red"; "green"; "blue"; "alpha"])];
  (* line 291 *)
  Entry DECLARE1 "glColor4iv"
    [Param jintArray "jv"]
    [SLocal JintArray "v" "jv";
     SExpr (Call (Direct "glColor4iv") ["v"])];
  (* line 298 *)
  Entry DECLARE1 "glColor4s"
    [Param jshort "red"; Param jshort "green"; Param jshort "blue"; Param jshort "alpha"]
    [SExpr (Call (Direct "glColor4s") ["red"; "green"; "blue"; "alpha"])];
  (* line 304 *)
  Entry DECLARE1 "glColor4sv"
    [Param jshortArray "jv"]
    [SLocal JshortArray "v" "jv";
     SExpr (Call (Direct "glColor4sv") ["v"])];
  (* line 311 *)
  Entry DECLARE1 "glColorMask"
    [Param jbyte "red"; Param jbyte "green"; Param jbyte "blue"; Param jbyte "alpha"]
    [SExpr (Call (Direct "glColorMask") ["red"; "green"; "blue"; "alpha"])];
  (* line 317 *)
  Entry DECLARE1 "glColorMaterial"
    [Param jint "face"; Param jint "mode"]
    [SExpr (Call (Direct "glColorMaterial") ["face"; "mode"])];
  (* line 323 *)
  Entry DECLARE1 "glColorPointer"
    [Param jint "size"; Param jint "type"; Param jint "stride"; Param jobject "jpointer"]
    [SLocal JvoidBuffer "pointer" "jpointer";
     SExpr (Call (Direct "glColorPointer") ["size"; "type"; "stride"; "pointer"])];
  (* line 330 *)
  Entry DECLARE1 "glCopyPixels"
    [Param jint "x"; Param jint "y"; Param jint "width"; Param jint "height"; Param jint "type"]
    [SExpr (Call (Direct "glCopyPixels") ["x"; "y"; "width"; "height"; "type"])];
  (* line 336 *)
  Entry DECLARE1 "glCopyTexImage1D"
    [Param jint "target"; Param jint "level"; Param jint "internalFormat"; Param jint "x"; Param jint "y"; Param jint "width"; Param jint "border"]
    [SExpr (Call (Direct "glCopyTexImage1D") ["target"; "level"; "internalFormat"; "x"; "y"; "width"; "border"])];
  (* line 343 *)
  Entry DECLARE1 "glCopyTexImage2D"
    [Param jint "target"; Param jint "level"; Param jint "internalFormat"; Param jint "x"; Param jint "y"; Param jint "width"; Param jint "height"; Param jint "border"]
    [SExpr (Call (Direct "glCopyTexImage2D") ["target"; "level"; "internalFormat"; "x"; "y"; "width"; "height"; "border"])];
  (* line 350 *)
  Entry DECLARE1 "glCopyTexSubImage1D"
    [Param jint "target"; Param jint "level"; Param jint "xoffset"; Param jint "x"; Param jint "y"; Param jint "width"]
    [SExpr (Call (Direct "glCopyTexSubImage1D") ["target"; "level"; "xoffset"; "x"; "y"; "width"])];
  (* line 356 *)
  Entry DECLARE1 "glCopyTexSubImage2D"
    [Param jint "target"; Param jint "level"; Param jint "xoffset"; Param jint "yoffset"; Param jint "x"; Param jint "y"; Param jint "width"; Param jint "height"]
    [SExpr (Call (Direct "glCopyTexSubImage2D") ["target"; "level"; "xoffset"; "yoffset"; "x"; "y"; "width"; "height"])];
  (* line 363 *)
  Entry DECLARE1 "glCullFace"
    [Param jint "mode"]
    [SExpr (Call (Direct "glCullFace") ["mode"])];
  (* line 369 *)
  Entry DECLARE1 "glDeleteLists"
    [Param jint "list"; Param jint "range"]
    [SExpr (Call (Direct "glDeleteLists") ["list"; "range"])];
  (* line 375 *)
  Entry DECLARE1 "glDeleteTextures"
    [Param jint "n"; Param jintArray "jtextures"]
    [SLocal JuintArray "textures" "jtextures";
     SExpr (Call (Direct "glDeleteTextures") ["n"; "textures"])];
  (* line 382 *)
  Entry DECLARE1 "glDepthFunc"
    [Param jint "func"]
    [SExpr (Call (Direct "glDepthFunc") ["func"])];
  (* line 388 *)
  Entry DECLARE1 "glDepthMask"
    [Param jbyte "flag"]
    [SExpr (Call (Direct "glDepthMask") ["flag"])];
  (* line 394 *)
  Entry DECLARE1 "glDepthRange"
    [Param jdouble "zNear"; Param jdouble "zFar"]
    [SExpr (Call (Direct "glDepthRange") ["zNear"; "zFar"])];
  (* line 400 *)
  Entry DECLARE1 "glDisable"
    [Param jint "cap"]
    [SExpr (Call (Direct "glDisable") ["cap"])];
  (* line 406 *)
  Entry DECLARE1 "glDisableClientState"
    [Param jint "array"]
    [SExpr (Call (Direct "glDisableClientState") ["array"])];
  (* line 412 *)
  Entry DECLARE1 "glDrawArrays"
    [Param jint "mode"; Param jint "first"; Param jint "count"]
    [SExpr (Call (Direct "glDrawArrays") ["mode"; "first"; "count"])];
  (* line 418 *)
  Entry DECLARE1 "glDrawBuffer"
    [Param jint "mode"]
    [SExpr (Call (Direct "glDrawBuffer") ["mode"])];
  (* line 424 *)
  Entry DECLARE1 "glDrawElements__III_3B"
    [Param jint "mode"; Param jint "count"; Param jint "type"; Param jarray "jindices"]
    [SLocal JvoidArray "indices" "jindices";
     SExpr (Call (Direct "glDrawElements") ["mode"; "count"; "type"; "indices"])];
  (* line 431 *)
  Entry DECLARE1 "glDrawElements__III_3I"
    [Param jint "mode"; Param jint "count"; Param jint "type"; Param jarray "jindices"]
    [SLocal JvoidArray "indices" "jindices";
     SExpr (Call (Direct "glDrawElements") ["mode"; "count"; "type"; "indices"])];
  (* line 438 *)
  Entry DECLARE1 "glDrawElements__III_3S"
    [Param jint "mode"; Param jint "count"; Param jint "type"; Param jarray "jindices"]
    [SLocal JvoidArray "indices" "jindices";
     SExpr (Call (Direct "glDrawElements") ["mode"; "count"; "type"; "indices"])];
  (* line 445 *)
  Entry DECLARE1 "glDrawPixels__IIII_3B"
    [Param jint "width"; Param jint "height"; Param jint "format"; Param jint "type"; Param jarray "jpixels"]
    [SLocal JvoidArray "pixels" "jpixels";
     SExpr (Call (Direct "glDrawPixels") ["width"; "height"; "format"; "type"; "pixels"])];
  (* line 452 *)
  Entry DECLARE1 "glDrawPixels__IIII_3I"
    [Param jint "width"; Param jint "height"; Param jint "format"; Param jint "type"; Param jarray "jpixels"]
    [SLocal JvoidArray "pixels" "jpixels";
     SExpr (Call (Direct "glDrawPixels") ["width"; "height"; "format"; "type"; "pixels"])];
  (* line 459 *)
  Entry DECLARE1 "glDrawPixels__IIII_3S"
    [Param jint "width"; Param jint "height"; Param jint "format"; Param jint "type"; Param jarray "jpixels"]
    [SLocal JvoidArray "pixels" "jpixels";
     SExpr (Call (Direct "glDrawPixels") ["width"; "height"; "format"; "type"; "pixels"])];
  (* line 466 *)
  Entry DECLARE1 "glEdgeFlag"
    [Param jbyte "flag"]
    [SExpr (Call (Direct "glEdgeFlag") ["flag"])];
  (* line 472 *)
  Entry DECLARE1 "glEdgeFlagPointer"
    [Param jint "stride"; Param jobject "jpointer"]
    [SLocal JvoidBuffer "pointer" "jpointer";
     SExpr (Call (Direct "glEdgeFlagPointer") ["stride"; "pointer"])];
  (* line 479 *)
  Entry DECLARE1 "glEdgeFlagv"
    [Param jbyteArray "jflag"]
    [SLocal JubyteArray "flag" "jflag";
     SExpr (Call (Direct "glEdgeFlagv") ["flag"])];
  (* line 486 *)
  Entry DECLARE1 "glEnable"
    [Param jint "cap"]
    [SExpr (Call (Direct "glEnable") ["cap"])];
  (* line 492 *)
  Entry DECLARE1 "glEnableClientState"
    [Param jint "array"]
    [SExpr (Call (Direct "glEnableClientState") ["array"])];
  (* line 498 *)
  Entry DECLARE0 "glEnd"
    []
    [SExpr (Call (Direct "glEnd") [])];
  (* line 503 *)
  Entry DECLARE0 "glEndList"
    []
    [SExpr (Call (Direct "glEndList") [])];
  (* line 508 *)
  Entry DECLARE1 "glEvalCoord1d"
    [Param jdouble "u"]
    [SExpr (Call (Direct "glEvalCoord1d") ["u"])];
  (* line 514 *)
  Entry DECLARE1 "glEvalCoord1dv"
    [Param jdoubleArray "ju"]
    [SLocal JdoubleArray "u" "ju";
     SExpr (Call (Direct "glEvalCoord1dv") ["u"])];
  (* line 521 *)
  Entry DECLARE1 "glEvalCoord1f"
    [Param jfloat "u"]
    [SExpr (Call (Direct "glEvalCoord1f") ["u"])];
  (* line 527 *)
  Entry DECLARE1 "glEvalCoord1fv"
    [Param jfloatArray "ju"]
    [SLocal JfloatArray "u" "ju";
     SExpr (Call (Direct "glEvalCoord1fv") ["u"])];
  (* line 534 *)
  Entry DECLARE1 "glEvalCoord2d"
    [Param jdouble "u"; Param jdouble "v"]
    [SExpr (Call (Direct "glEvalCoord2d") ["u"; "v"])];
  (* line 540 *)
  Entry DECLARE1 "glEvalCoord2dv"
    [Param jdoubleArray "ju"]
    [SLocal JdoubleArray "u" "ju";
     SExpr (Call (Direct "glEvalCoord2dv") ["u"])];
  (* line 547 *)
  Entry DECLARE1 "glEvalCoord2f"
    [Param jfloat "u"; Param jfloat "v"]
    [SExpr (Call (Direct "glEvalCoord2f") ["u"; "v"])];
  (* line 553 *)
  Entry DECLARE1 "glEvalCoord2fv"
    [Param jfloatArray "ju"]
    [SLocal JfloatArray "u" "ju";
     SExpr (Call (Direct "glEvalCoord2fv") ["u"])];
  (* line 560 *)
  Entry DECLARE1 "glEvalMesh1"
    [Param jint "mode"; Param jint "i1"; Param jint "i2"]
    [SExpr (Call (Direct "glEvalMesh1") ["mode"; "i1"; "i2"])];
  (* line 566 *)
  Entry DECLARE1 "glEvalMesh2"
    [Param jint "mode"; Param jint "i1"; Param jint "i2"; Param jint "j1"; Param jint "j2"]
    [SExpr (Call (Direct "glEvalMesh2") ["mode"; "i1"; "i2"; "j1"; "j2"])];
  (* line 572 *)
  Entry DECLARE1 "glEvalPoint1"
    [Param jint "i"]
    [SExpr (Call (Direct "glEvalPoint1") ["i"])];
  (* line 578 *)
  Entry DECLARE1 "glEvalPoint2"
    [Param jint "i"; Param jint "j"]
    [SExpr (Call (Direct "glEvalPoint2") ["i"; "j"])];
  (* line 584 *)
  Entry DECLARE1 "glFeedbackBuffer"
    [Param jint "size"; Param jint "type"; Param jobject "jbuffer"]
    [SLocal JfloatBuffer "buffer" "jbuffer";
     SExpr (Call (Direct "glFeedbackBuffer") ["size"; "type"; "buffer"])];
  (* line 591 *)
  Entry DECLARE0 "glFinish"
    []
    [SExpr (Call (Direct "glFinish") [])];
  (* line 596 *)
  Entry DECLARE0 "glFlush"
    []
    [SExpr (Call (Direct "glFlush") [])];
  (* line 601 *)
  Entry DECLARE1 "glFogf"
    [Param jint "pname"; Param jfloat "param"]
    [SExpr (Call (Direct "glFogf") ["pname"; "param"])];
  (* line 607 *)
  Entry DECLARE1 "glFogfv"
    [Param jint "pname"; Param jfloatArray "jparams"]
    [SLocal JfloatArray "params" "jparams";
     SExpr (Call (Direct "glFogfv") ["pname"; "params"])];
  (* line 614 *)
  Entry DECLARE1 "glFogi"
    [Param jint "pname"; Param jint "param"]
    [SExpr (Call (Direct "glFogi") ["pname"; "param"])];
  (* line 620 *)
  Entry DECLARE1 "glFogiv"
    [Param jint "pname"; Param jintArray "jparams"]
    [SLocal JintArray "params" "jparams";
     SExpr (Call (Direct "glFogiv") ["pname"; "params"])];
  (* line 627 *)
  Entry DECLARE1 "glFrontFace"
    [Param jint "mode"]
    [SExpr (Call (Direct "glFrontFace") ["mode"])];
  (* line 633 *)
  Entry DECLARE1 "glFrustum"
    [Param jdouble "left"; Param jdouble "right"; Param jdouble "bottom"; Param jdouble "top"; Param jdouble "zNear"; Param jdouble "zFar"]
    [SExpr (Call (Direct "glFrustum") ["left"; "right"; "bottom"; "top"; "zNear"; "zFar"])];
  (* line 641 *)
  Entry (DECLARE_RETURN1 jint) "glGenLists"
    [Param jint "range"]
    [SReturn (ECall (Call (Direct "glGenLists") ["range"]))];
  (* line 647 *)
  Entry DECLARE1 "glGenTextures"
    [Param jint "n"; Param jintArray "jtextures"]
    [SLocal JuintArray "textures" "jtextures";
     SExpr (Call (Direct "glGenTextures") ["n"; "textures"])];
  (* line 654 *)
  Entry DECLARE1 "glGetBooleanv"
    [Param jint "pname"; Param jbyteArray "jparams"]
    [SLocal JubyteArray "params" "jparams";
     SExpr (Call (Direct "glGetBooleanv") ["pname"; "params"])];
  (* line 661 *)
  Entry DECLARE1 "glGetClipPlane"
    [Param jint "plane"; Param jdoubleArray "jequation"]
    [SLocal JdoubleArray "equation" "jequation";
     SExpr (Call (Direct "glGetClipPlane") ["plane"; "equation"])];
  (* line 668 *)
  Entry DECLARE1 "glGetDoublev"
    [Param jint "pname"; Param jdoubleArray "jparams"]
    [SLocal JdoubleArray "params" "jparams";
     SExpr (Call (Direct "glGetDoublev") ["pname"; "params"])];
  (* line 675 *)
  Entry (DECLARE_RETURN0 jint) "glGetError"
    []
    [SReturn (ECall (Call (Direct "glGetError") []))];
  (* line 680 *)
  Entry DECLARE1 "glGetFloatv"
    [Param jint "pname"; Param jfloatArray "jparams"]
    [SLocal JfloatArray "params" "jparams";
     SExpr (Call (Direct "glGetFloatv") ["pname"; "params"])];
  (* line 687 *)
  Entry DECLARE1 "glGetIntegerv"
    [Param jint "pname"; Param jintArray "jparams"]
    [SLocal JintArray "params" "jparams";
     SExpr (Call (Direct "glGetIntegerv") ["pname"; "params"])];
  (* line 694 *)
  Entry DECLARE1 "glGetLightfv"
    [Param jint "light"; Param jint "pname"; Param jfloatArray "jparams"]
    [SLocal JfloatArray "params" "jparams";
     SExpr (Call (Direct "glGetLightfv") ["light"; "pname"; "params"])];
  (* line 701 *)
  Entry DECLARE1 "glGetLightiv"
    [Param jint "light"; Param jint "pname"; Param jintArray "jparams"]
    [SLocal JintArray "params" "jparams";
     SExpr (Call (Direct "glGetLightiv") ["light"; "pname"; "params"])];
  (* line 708 *)
  Entry DECLARE1 "glGetMapdv"
    [Param jint "target"; Param jint "query"; Param jdoubleArray "jv"]
    [SLocal JdoubleArray "v" "jv";
     SExpr (Call (Direct "glGetMapdv") ["target"; "query"; "v"])];
  (* line 715 *)
  Entry DECLARE1 "glGetMapfv"
    [Param jint "target"; Param jint "query"; Param jfloatArray "jv"]
    [SLocal JfloatArray "v" "jv";
     SExpr (Call (Direct "glGetMapfv") ["target"; "query"; "v"])];
  (* line 722 *)
  Entry DECLARE1 "glGetMapiv"
    [Param jint "target"; Param jint "query"; Param jintArray "jv"]
    [SLocal JintArray "v" "jv";
     SExpr (Call (Direct "glGetMapiv") ["target"; "query"; "v"])];
  (* line 729 *)
  Entry DECLARE1 "glGetMaterialfv"
    [Param jint "face"; Param jint "pname"; Param jfloatArray "jparams"]
    [SLocal JfloatArray "params" "jparams";
     SExpr (Call (Direct "glGetMaterialfv") ["face"; "pname"; "params"])];
  (* line 736 *)
  Entry DECLARE1 "glGetMaterialiv"
    [Param jint "face"; Param jint "pname"; Param jintArray "jparams"]
    [SLocal JintArray "params" "jparams";
     SExpr (Call (Direct "glGetMaterialiv") ["face"; "pname"; "params"])];
  (* line 743 *)
  Entry DECLARE1 "glGetPixelMapfv"
    [Param jint "map"; Param jfloatArray "jvalues"]
    [SLocal JfloatArray "values" "jvalues";
     SExpr (Call (Direct "glGetPixelMapfv") ["map"; "values"])];
  (* line 750 *)
  Entry DECLARE1 "glGetPixelMapuiv"
    [Param jint "map"; Param jintArray "jvalues"]
    [SLocal JuintArray "values" "jvalues";
     SExpr (Call (Direct "glGetPixelMapuiv") ["map"; "values"])];
  (* line 757 *)
  Entry DECLARE1 "glGetPixelMapusv"
    [Param jint "map"; Param jshortArray "jvalues"]
    [SLocal JushortArray "values" "jvalues";
     SExpr (Call (Direct "glGetPixelMapusv") ["map"; "values"])];
  (* line 764 *)
  Entry DECLARE1 "glGetPolygonStipple"
    [Param jbyteArray "jmask"]
    [SLocal JubyteArray "mask" "jmask";
     SExpr (Call (Direct "glGetPolygonStipple") ["mask"])];
  (* line 771 *)
  Entry (DECLARE_RETURN1 jstring) "glGetString"
    [Param c_int "name"]
    [SReturn (ENewStringUTF (Call (Direct "glGetString") ["name"]))];
  (* line 777 *)
  Entry DECLARE1 "glGetTexEnvfv"
    [Param jint "target"; Param jint "pname"; Param jfloatArray "jparams"]
    [SLocal JfloatArray "params" "jparams";
     SExpr (Call (Direct "glGetTexEnvfv") ["target"; "pname"; "params"])];
  (* line 784 *)
  Entry DECLARE1 "glGetTexEnviv"
    [Param jint "target"; Param jint "pname"; Param jintArray "jparams"]
    [SLocal JintArray "params" "jparams";
     SExpr (Call (Direct "glGetTexEnviv") ["target"; "pname"; "params"])];
  (* line 791 *)
  Entry DECLARE1 "glGetTexGendv"
    [Param jint "coord"; Param jint "pname"; Param jdoubleArray "jparams"]
    [SLocal JdoubleArray "params" "jparams";
     SExpr (Call (Direct "glGetTexGendv") ["coord"; "pname"; "params"])];
  (* line 798 *)
  Entry DECLARE1 "glGetTexGenfv"
    [Param jint "coord"; Param jint "pname"; Param jfloatArray "jparams"]
    [SLocal JfloatArray "params" "jparams";
     SExpr (Call (Direct "glGetTexGenfv") ["coord"; "pname"; "params"])];
  (* line 805 *)
  Entry DECLARE1 "glGetTexGeniv"
    [Param jint "coord"; Param jint "pname"; Param jintArray "jparams"]
    [SLocal JintArray "params" "jparams";
     SExpr (Call (Direct "glGetTexGeniv") ["coord"; "pname"; "params"])];
  (* line 812 *)
  Entry DECLARE1 "glGetTexImage__IIII_3B"
    [Param jint "target"; Param jint "level"; Param jint "format"; Param jint "type"; Param jarray "jpixels"]
    [SLocal JvoidArray "pixels" "jpixels";
     SExpr (Call (Direct "glGetTexImage") ["target"; "level"; "format"; "type"; "pixels"])];
  (* line 819 *)
  Entry DECLARE1 "glGetTexImage__IIII_3I"
    [Param jint "target"; Param jint "level"; Param jint "format"; Param jint "type"; Param jarray "jpixels"]
    [SLocal JvoidArray "pixels" "jpixels";
     SExpr (Call (Direct "glGetTexImage") ["target"; "level"; "format"; "type"; "pixels"])];
  (* line 826 *)
  Entry DECLARE1 "glGetTexImage__IIII_3S"
    [Param jint "target"; Param jint "level"; Param jint "format"; Param jint "type"; Param jarray "jpixels"]
    [SLocal JvoidArray "pixels" "jpixels";
     SExpr (Call (Direct "glGetTexImage") ["target"; "level"; "format"; "type"; "pixels"])];
  (* line 833 *)
  Entry DECLARE1 "glGetTexLevelParameterfv"
    [Param jint "target"; Param jint "level"; Param jint "pname"; Param jfloatArray "jparams"]
    [SLocal JfloatArray "params" "jparams";
     SExpr (Call (Direct "glGetTexLevelParameterfv") ["target"; "level"; "pname"; "params"])];
  (* line 840 *)
  Entry DECLARE1 "glGetTexLevelParameteriv"
    [Param jint "target"; Param jint "level"; Param jint "pname"; Param jintArray "jparams"]
    [SLocal JintArray "params" "jparams";
     SExpr (Call (Direct "glGetTexLevelParameteriv") ["target"; "level"; "pname"; "params"])];
  (* line 847 *)
  Entry DECLARE1 "glGetTexParameterfv"
    [Param jint "target"; Param jint "pname"; Param jfloatArray "jparams"]
    [SLocal JfloatArray "params" "jparams";
     SExpr (Call (Direct "glGetTexParameterfv") ["target"; "pname"; "params"])];
  (* line 854 *)
  Entry DECLARE1 "glGetTexParameteriv"
    [Param jint "target"; Param jint "pname"; Param jintArray "jparams"]
    [SLocal JintArray "params" "jparams";
     SExpr (Call (Direct "glGetTexParameteriv") ["target"; "pname"; "params"])];
  (* line 861 *)
  Entry DECLARE1 "glHint"
    [Param jint "target"; Param jint "mode"]
    [SExpr (Call (Direct "glHint") ["target"; "mode"])];
  (* line 867 *)
  Entry DECLARE1 "glIndexMask"
    [Param jint "mask"]
    [SExpr (Call (Direct "glIndexMask") ["mask"])];
  (* line 873 *)
  Entry DECLARE1 "glIndexPointer"
    [Param jint "type"; Param jint "stride"; Param jobject "jpointer"]
    [SLocal JvoidBuffer "pointer" "jpointer";
     SExpr (Call (Direct "glIndexPointer") ["type"; "stride"; "pointer"])];
  (* line 880 *)
  Entry DECLARE1 "glIndexd"
    [Param jdouble "c"]
    [SExpr (Call (Direct "glIndexd") ["c"])];
  (* line 886 *)
  Entry DECLARE1 "glIndexdv"
    [Param jdoubleArray "jc"]
    [SLocal JdoubleArray "c" "jc";
     SExpr (Call (Direct "glIndexdv") ["c"])];
  (* line 893 *)
  Entry DECLARE1 "glIndexf"
    [Param jfloat "c"]
    [SExpr (Call (Direct "glIndexf") ["c"])];
  (* line 899 *)
  Entry DECLARE1 "glIndexfv"
    [Param jfloatArray "jc"]
    [SLocal JfloatArray "c" "jc";
     SExpr (Call (Direct "glIndexfv") ["c"])];
  (* line 906 *)
  Entry DECLARE1 "glIndexi"
    [Param jint "c"]
    [SExpr (Call (Direct "glIndexi") ["c"])];
  (* line 912 *)
  Entry DECLARE1 "glIndexiv"
    [Param jintArray "jc"]
    [SLocal JintArray "c" "jc";
     SExpr (Call (Direct "glIndexiv") ["c"])];
  (* line 919 *)
  Entry DECLARE1 "glIndexs"
    [Param jshort "c"]
    [SExpr (Call (Direct "glIndexs") ["c"])];
  (* line 925 *)
  Entry DECLARE1 "glIndexsv"
    [Param jshortArray "jc"]
    [SLocal JshortArray "c" "jc";
     SExpr (Call (Direct "glIndexsv") ["c"])];
  (* line 932 *)
  Entry DECLARE1 "glIndexub"
    [Param jbyte "c"]
    [SExpr (Call (Direct "glIndexub") ["c"])];
  (* line 938 *)
  Entry DECLARE1 "glIndexubv"
    [Param jbyteArray "jc"]
    [SLocal JubyteArray "c" "jc";
     SExpr (Call (Direct "glIndexubv") ["c"])];
  (* line 945 *)
  Entry DECLARE0 "glInitNames"
    []
    [SExpr (Call (Direct "glInitNames") [])];
  (* line 950 *)
  Entry DECLARE1 "glInterleavedArrays"
    [Param jint "format"; Param jint "stride"; Param jobject "jpointer"]
    [SLocal JvoidBuffer "pointer" "jpointer";
     SExpr (Call (Direct "glInterleavedArrays") ["format"; "stride"; "pointer"])];
  (* line 957 *)
  Entry (DECLARE_RETURN1 jboolean) "glIsEnabled"
    [Param jint "cap"]
    [SReturn (EIsGlTrue (Call (Direct "glIsEnabled") ["cap"]))];
  (* line 963 *)
  Entry (DECLARE_RETURN1 jboolean) "glIsList"
    [Param jint "list"]
    [SReturn (EIsGlTrue (Call (Direct "glIsList") ["list"]))];
  (* line 969 *)
  Entry (DECLARE_RETURN1 jboolean) "glIsTexture"
    [Param jint "texture"]
    [SReturn (EIsGlTrue (Call (Direct "glIsTexture") ["texture"]))];
  (* line 975 *)
  Entry DECLARE1 "glLightModelf"
    [Param jint "pname"; Param jfloat "param"]
    [SExpr (Call (Direct "glLightModelf") ["pname"; "param"])];
  (* line 981 *)
  Entry DECLARE1 "glLightModelfv"
    [Param jint "pname"; Param jfloatArray "jparams"]
    [SLocal JfloatArray "params" "jparams";
     SExpr (Call (Direct "glLightModelfv") ["pname"; "params"])];
  (* line 988 *)
  Entry DECLARE1 "glLightModeli"
    [Param jint "pname"; Param jint "param"]
    [SExpr (Call (Direct "glLightModeli") ["pname"; "param"])];
  (* line 994 *)
  Entry DECLARE1 "glLightModeliv"
    [Param jint "pname"; Param jintArray "jparams"]
    [SLocal JintArray "params" "jparams";
     SExpr (Call (Direct "glLightModeliv") ["pname"; "params"])];
  (* line 1001 *)
  Entry DECLARE1 "glLightf"
    [Param jint "light"; Param jint "pname"; Param jfloat "param"]
    [SExpr (Call (Direct "glLightf") ["light"; "pname"; "param"])];
  (* line 1007 *)
  Entry DECLARE1 "glLightfv"
    [Param jint "light"; Param jint "pname"; Param jfloatArray "jparams"]
    [SLocal JfloatArray "params" "jparams";
     SExpr (Call (Direct "glLightfv") ["light"; "pname"; "params"])];
  (* line 1014 *)
  Entry DECLARE1 "glLighti"
    [Param jint "light"; Param jint "pname"; Param jint "param"]
    [SExpr (Call (Direct "glLighti") ["light"; "pname"; "param"])];
  (* line 1020 *)
  Entry DECLARE1 "glLightiv"
    [Param jint "light"; Param jint "pname"; Param jintArray "jparams"]
    [SLocal JintArray "params" "jparams";
     SExpr (Call (Direct "glLightiv") ["light"; "pname"; "params"])];
  (* line 1027 *)
  Entry DECLARE1 "glLineStipple"
    [Param jint "factor"; Param jshort "pattern"]
    [SExpr (Call (Direct "glLineStipple") ["factor"; "pattern"])];
  (* line 1033 *)
  Entry DECLARE1 "glLineWidth"
    [Param jfloat "width"]
    [SExpr (Call (Direct "glLineWidth") ["width"])];
  (* line 1039 *)
  Entry DECLARE1 "glListBase"
    [Param jint "base"]
    [SExpr (Call (Direct "glListBase") ["base"])];
  (* line 1045 *)
  Entry DECLARE0 "glLoadIdentity"
    []
    [SExpr (Call (Direct "glLoadIdentity") [])];
  (* line 1050 *)
  Entry DECLARE1 "glLoadMatrixd"
    [Param jdoubleArray "jm"]
    [SLocal JdoubleArray "m" "jm";
     SExpr (Call (Direct "glLoadMatrixd") ["m"])];
  (* line 1057 *)
  Entry DECLARE1 "glLoadMatrixf"
    [Param jfloatArray "jm"]
    [SLocal JfloatArray "m" "jm";
     SExpr (Call (Direct "glLoadMatrixf") ["m"])];
  (* line 1064 *)
  Entry DECLARE1 "glLoadName"
    [Param jint "name"]
    [SExpr (Call (Direct "glLoadName") ["name"])];
  (* line 1070 *)
  Entry DECLARE1 "glLogicOp"
    [Param jint "opcode"]
    [SExpr (Call (Direct "glLogicOp") ["opcode"])];
  (* line 1076 *)
  Entry DECLARE1 "glMap1d"
    [Param jint "target"; Param jdouble "u1"; Param jdouble "u2"; Param jint "stride"; Param jint "order"; Param jdoubleArray "jpoints"]
    [SLocal JdoubleArray "points" "jpoints";
     SExpr (Call (Direct "glMap1d") ["target"; "u1"; "u2"; "stride"; "order"; "points"])];
  (* line 1085 *)
  Entry DECLARE1 "glMap1f"
    [Param jint "target"; Param jfloat "u1"; Param jfloat "u2"; Param jint "stride"; Param jint "order"; Param jfloatArray "jpoints"]
    [SLocal JfloatArray "points" "jpoints";
     SExpr (Call (Direct "glMap1f") ["target"; "u1"; "u2"; "stride"; "order"; "points"])];
  (* line 1094 *)
  Entry DECLARE1 "glMap2d"
    [Param jint "target"; Param jdouble "u1"; Param jdouble "u2"; Param jint "ustride"; Param jint "uorder"; Param jdouble "v1"; Param jdouble "v2"; Param jint "vstride"; Param jint "vorder"; Param jdoubleArray "jpoints"]
    [SLocal JdoubleArray "points" "jpoints";
     SExpr (Call (Direct "glMap2d") ["target"; "u1"; "u2"; "ustride"; "uorder"; "v1"; "v2"; "vstride"; "vorder"; "points"])];
  (* line 1104 *)
  Entry DECLARE1 "glMap2f"
    [Param jint "target"; Param jfloat "u1"; Param jfloat "u2"; Param jint "ustride"; Param jint "uorder"; Param jfloat "v1"; Param jfloat "v2"; Param jint "vstride"; Param jint "vorder"; Param jfloatArray "jpoints"]
    [SLocal JfloatArray "points" "jpoints";
     SExpr (Call (Direct "glMap2f") ["target"; "u1"; "u2"; "ustride"; "uorder"; "v1"; "v2"; "vstride"; "vorder"; "points"])];
  (* line 1114 *)
  Entry DECLARE1 "glMapGrid1d"
    [Param jint "un"; Param jdouble "u1"; Param jdouble "u2"]
    [SExpr (Call (Direct "glMapGrid1d") ["un"; "u1"; "u2"])];
  (* line 1120 *)
  Entry DECLARE1 "glMapGrid1f"
    [Param jint "un"; Param jfloat "u1"; Param jfloat "u2"]
    [SExpr (Call (Direct "glMapGrid1f") ["un"; "u1"; "u2"])];
  (* line 1126 *)
  Entry DECLARE1 "glMapGrid2d"
    [Param jint "un"; Param jdouble "u1"; Param jdouble "u2"; Param jint "vn"; Param jdouble "v1"; Param jdouble "v2"]
    [SExpr (Call (Direct "glMapGrid2d") ["un"; "u1"; "u2"; "vn"; "v1"; "v2"])];
  (* line 1133 *)
  Entry DECLARE1 "glMapGrid2f"
    [Param jint "un"; Param jfloat "u1"; Param jfloat "u2"; Param jint "vn"; Param jfloat "v1"; Param jfloat "v2"]
    [SExpr (Call (Direct "glMapGrid2f") ["un"; "u1"; "u2"; "vn"; "v1"; "v2"])];
  (* line 1140 *)
  Entry DECLARE1 "glMaterialf"
    [Param jint "face"; Param jint "pname"; Param jfloat "param"]
    [SExpr (Call (Direct "glMaterialf") ["face"; "pname"; "param"])];
  (* line 1146 *)
  Entry DECLARE1 "glMaterialfv"
    [Param jint "face"; Param jint "pname"; Param jfloatArray "jparams"]
    [SLocal JfloatArray "params" "jparams";
     SExpr (Call (Direct "glMaterialfv") ["face"; "pname"; "params"])];
  (* line 1153 *)
  Entry DECLARE1 "glMateriali"
    [Param jint "face"; Param jint "pname"; Param jint "param"]
    [SExpr (Call (Direct "glMateriali") ["face"; "pname"; "param"])];
  (* line 1159 *)
  Entry DECLARE1 "glMaterialiv"
    [Param jint "face"; Param jint "pname"; Param jintArray "jparams"]
    [SLocal JintArray "params" "jparams";
     SExpr (Call (Direct "glMaterialiv") ["face"; "pname"; "params"])];
  (* line 1166 *)
  Entry DECLARE1 "glMatrixMode"
    [Param jint "mode"]
    [SExpr (Call (Direct "glMatrixMode") ["mode"])];
  (* line 1172 *)
  Entry DECLARE1 "glMultMatrixd"
    [Param jdoubleArray "jm"]
    [SLocal JdoubleArray "m" "jm";
     SExpr (Call (Direct "glMultMatrixd") ["m"])];
  (* line 1179 *)
  Entry DECLARE1 "glMultMatrixf"
    [Param jfloatArray "jm"]
    [SLocal JfloatArray "m" "jm";
     SExpr (Call (Direct "glMultMatrixf") ["m"])];
  (* line 1186 *)
  Entry DECLARE1 "glNewList"
    [Param jint "list"; Param jint "mode"]
    [SExpr (Call (Direct "glNewList") ["list"; "mode"])];
  (* line 1192 *)
  Entry DECLARE1 "glNormal3b"
    [Param jbyte "nx"; Param jbyte "ny"; Param jbyte "nz"]
    [SExpr (Call (Direct "glNormal3b") ["nx"; "ny"; "nz"])];
  (* line 1198 *)
  Entry DECLARE1 "glNormal3bv"
    [Param jbyteArray "jv"]
    [SLocal JbyteArray "v" "jv";
     SExpr (Call (Direct "glNormal3bv") ["v"])];
  (* line 1205 *)
  Entry DECLARE1 "glNormal3d"
    [Param jdouble "nx"; Param jdouble "ny"; Param jdouble "nz"]
    [SExpr (Call (Direct "glNormal3d") ["nx"; "ny"; "nz"])];
  (* line 1211 *)
  Entry DECLARE1 "glNormal3dv"
    [Param jdoubleArray "jv"]
    [SLocal JdoubleArray "v" "jv";
     SExpr (Call (Direct "glNormal3dv") ["v"])];
  (* line 1218 *)
  Entry DECLARE1 "glNormal3f"
    [Param jfloat "nx"; Param jfloat "ny"; Param jfloat "nz"]
    [SExpr (Call (Direct "glNormal3f") ["nx"; "ny"; "nz"])];
  (* line 1224 *)
  Entry DECLARE1 "glNormal3fv"
    [Param jfloatArray "jv"]
    [SLocal JfloatArray "v" "jv";
     SExpr (Call (Direct "glNormal3fv") ["v"])];
  (* line 1231 *)
  Entry DECLARE1 "glNormal3i"
    [Param jint "nx"; Param jint "ny"; Param jint "nz"]
    [SExpr (Call (Direct "glNormal3i") ["nx"; "ny"; "nz"])];
  (* line 1237 *)
  Entry DECLARE1 "glNormal3iv"
    [Param jintArray "jv"]
    [SLocal JintArray "v" "jv";
     SExpr (Call (Direct "glNormal3iv") ["v"])];
  (* line 1244 *)
  Entry DECLARE1 "glNormal3s"
    [Param jshort "nx"; Param jshort "ny"; Param jshort "nz"]
    [SExpr (Call (Direct "glNormal3s") ["nx"; "ny"; "nz"])];
  (* line 1250 *)
  Entry DECLARE1 "glNormal3sv"
    [Param jshortArray "jv"]
    [SLocal JshortArray "v" "jv";
     SExpr (Call (Direct "glNormal3sv") ["v"])];
  (* line 1257 *)
  Entry DECLARE1 "glNormalPointer"
    [Param jint "type"; Param jint "stride"; Param jobject "jpointer"]
    [SLocal JvoidBuffer "pointer" "jpointer";
     SExpr (Call (Direct "glNormalPointer") ["type"; "stride"; "pointer"])];
  (* line 1264 *)
  Entry DECLARE1 "glOrtho"
    [Param jdouble "left"; Param jdouble "right"; Param jdouble "bottom"; Param jdouble "top"; Param jdouble "zNear"; Param jdouble "zFar"]
    [SExpr (Call (Direct "glOrtho") ["left"; "right"; "bottom"; "top"; "zNear"; "zFar"])];
  (* line 1272 *)
  Entry DECLARE1 "glPassThrough"
    [Param jfloat "token"]
    [SExpr (Call (Direct "glPassThrough") ["token"])];
  (* line 1278 *)
  Entry DECLARE1 "glPixelMapfv"
    [Param jint "map"; Param jint "mapsize"; Param jfloatArray "jvalues"]
    [SLocal JfloatArray "values" "jvalues";
     SExpr (Call (Direct "glPixelMapfv") ["map"; "mapsize"; "values"])];
  (* line 1285 *)
  Entry DECLARE1 "glPixelMapuiv"
    [Param jint "map"; Param jint "mapsize"; Param jintArray "jvalues"]
    [SLocal JuintArray "values" "jvalues";
     SExpr (Call (Direct "glPixelMapuiv") ["map"; "mapsize"; "values"])];
  (* line 1292 *)
  Entry DECLARE1 "glPixelMapusv"
    [Param jint "map"; Param jint "mapsize"; Param jshortArray "jvalues"]
    [SLocal JushortArray "values" "jvalues";
     SExpr (Call (Direct "glPixelMapusv") ["map"; "mapsize"; "values"])];
  (* line 1299 *)
  Entry DECLARE1 "glPixelStoref"
    [Param jint "pname"; Param jfloat "param"]
    [SExpr (Call (Direct "glPixelStoref") ["pname"; "param"])];
  (* line 1305 *)
  Entry DECLARE1 "glPixelStorei"
    [Param jint "pname"; Param jint "param"]
    [SExpr (Call (Direct "glPixelStorei") ["pname"; "param"])];
  (* line 1311 *)
  Entry DECLARE1 "glPixelTransferf"
    [Param jint "pname"; Param jfloat "param"]
    [SExpr (Call (Direct "glPixelTransferf") ["pname"; "param"])];
  (* line 1317 *)
  Entry DECLARE1 "glPixelTransferi"
    [Param jint "pname"; Param jint "param"]
    [SExpr (Call (Direct "glPixelTransferi") ["pname"; "param"])];
  (* line 1323 *)
  Entry DECLARE1 "glPixelZoom"
    [Param jfloat "xfactor"; Param jfloat "yfactor"]
    [SExpr (Call (Direct "glPixelZoom") ["xfactor"; "yfactor"])];
  (* line 1329 *)
  Entry DECLARE1 "glPointSize"
    [Param jfloat "size"]
    [SExpr (Call (Direct "glPointSize") ["size"])];
  (* line 1335 *)
  Entry DECLARE1 "glPolygonMode"
    [Param jint "face"; Param jint "mode"]
    [SExpr (Call (Direct "glPolygonMode") ["face"; "mode"])];
  (* line 1341 *)
  Entry DECLARE1 "glPolygonOffset"
    [Param jfloat "factor"; Param jfloat "units"]
    [SExpr (Call (Direct "glPolygonOffset") ["factor"; "units"])];
  (* line 1347 *)
  Entry DECLARE1 "glPolygonStipple"
    [Param jbyteArray "jmask"]
    [SLocal JubyteArray "mask" "jmask";
     SExpr (Call (Direct "glPolygonStipple") ["mask"])];
  (* line 1354 *)
  Entry DECLARE0 "glPopAttrib"
    []
    [SExpr (Call (Direct "glPopAttrib") [])];
  (* line 1359 *)
  Entry DECLARE0 "glPopClientAttrib"
    []
    [SExpr (Call (Direct "glPopClientAttrib") [])];
  (* line 1364 *)
  Entry DECLARE0 "glPopMatrix"
    []
    [SExpr (Call (Direct "glPopMatrix") [])];
  (* line 1369 *)
  Entry DECLARE0 "glPopName"
    []
    [SExpr (Call (Direct "glPopName") [])];
  (* line 1374 *)
  Entry DECLARE1 "glPrioritizeTextures"
    [Param jint "n"; Param jintArray "jtextures"; Param jfloatArray "jpriorities"]
    [SLocal JuintArray "textures" "jtextures";
     SLocal JfloatArray "priorities" "jpriorities";
     SExpr (Call (Direct "glPrioritizeTextures") ["n"; "textures"; "priorities"])];
  (* line 1382 *)
  Entry DECLARE1 "glPushAttrib"
    [Param jint "mask"]
    [SExpr (Call (Direct "glPushAttrib") ["mask"])];
  (* line 1388 *)
  Entry DECLARE1 "glPushClientAttrib"
    [Param jint "mask"]
    [SExpr (Call (Direct "glPushClientAttrib") ["mask"])];
  (* line 1394 *)
  Entry DECLARE0 "glPushMatrix"
    []
    [SExpr (Call (Direct "glPushMatrix") [])];
  (* line 1399 *)
  Entry DECLARE1 "glPushName"
    [Param jint "name"]
    [SExpr (Call (Direct "glPushName") ["name"])];
  (* line 1405 *)
  Entry DECLARE1 "glRasterPos2d"
    [Param jdouble "x"; Param jdouble "y"]
    [SExpr (Call (Direct "glRasterPos2d") ["x"; "y"])];
  (* line 1411 *)
  Entry DECLARE1 "glRasterPos2dv"
    [Param jdoubleArray "jv"]
    [SLocal JdoubleArray "v" "jv";
     SExpr (Call (Direct "glRasterPos2dv") ["v"])];
  (* line 1418 *)
  Entry DECLARE1 "glRasterPos2f"
    [Param jfloat "x"; Param jfloat "y"]
    [SExpr (Call (Direct "glRasterPos2f") ["x"; "y"])];
  (* line 1424 *)
  Entry DECLARE1 "glRasterPos2fv"
    [Param jfloatArray "jv"]
    [SLocal JfloatArray "v" "jv";
     SExpr (Call (Direct "glRasterPos2fv") ["v"])];
  (* line 1431 *)
  Entry DECLARE1 "glRasterPos2i"
    [Param jint "x"; Param jint "y"]
    [SExpr (Call (Direct "glRasterPos2i") ["x"; "y"])];
  (* line 1437 *)
  Entry DECLARE1 "glRasterPos2iv"
    [Param jintArray "jv"]
    [SLocal JintArray "v" "jv";
     SExpr (Call (Direct "glRasterPos2iv") ["v"])];
  (* line 1444 *)
  Entry DECLARE1 "glRasterPos2s"
    [Param jshort "x"; Param jshort "y"]
    [SExpr (Call (Direct "glRasterPos2s") ["x"; "y"])];
  (* line 1450 *)
  Entry DECLARE1 "glRasterPos2sv"
    [Param jshortArray "jv"]
    [SLocal JshortArray "v" "jv";
     SExpr (Call (Direct "glRasterPos2sv") ["v"])];
  (* line 1457 *)
  Entry DECLARE1 "glRasterPos3d"
    [Param jdouble "x"; Param jdouble "y"; Param jdouble "z"]
    [SExpr (Call (Direct "glRasterPos3d") ["x"; "y"; "z"])];
  (* line 1463 *)
  Entry DECLARE1 "glRasterPos3dv"
    [Param jdoubleArray "jv"]
    [SLocal JdoubleArray "v" "jv";
     SExpr (Call (Direct "glRasterPos3dv") ["v"])];
  (* line 1470 *)
  Entry DECLARE1 "glRasterPos3f"
    [Param jfloat "x"; Param jfloat "y"; Param jfloat "z"]
    [SExpr (Call (Direct "glRasterPos3f") ["x"; "y"; "z"])];
  (* line 1476 *)
  Entry DECLARE1 "glRasterPos3fv"
    [Param jfloatArray "jv"]
    [SLocal JfloatArray "v" "jv";
     SExpr (Call (Direct "glRasterPos3fv") ["v"])];
  (* line 1483 *)
  Entry DECLARE1 "glRasterPos3i"
    [Param jint "x"; Param jint "y"; Param jint "z"]
    [SExpr (Call (Direct "glRasterPos3i") ["x"; "y"; "z"])];
  (* line 1489 *)
  Entry DECLARE1 "glRasterPos3iv"
    [Param jintArray "jv"]
    [SLocal JintArray "v" "jv";
     SExpr (Call (Direct "glRasterPos3iv") ["v"])];
  (* line 1496 *)
  Entry DECLARE1 "glRasterPos3s"
    [Param jshort "x"; Param jshort "y"; Param jshort "z"]
    [SExpr (Call (Direct "glRasterPos3s") ["x"; "y"; "z"])];
  (* line 1502 *)
  Entry DECLARE1 "glRasterPos3sv"
    [Param jshortArray "jv"]
    [SLocal JshortArray "v" "jv";
     SExpr (Call (Direct "glRasterPos3sv") ["v"])];
  (* line 1509 *)
  Entry DECLARE1 "glRasterPos4d"
    [Param jdouble "x"; Param jdouble "y"; Param jdouble "z"; Param jdouble "w"]
    [SExpr (Call (Direct "glRasterPos4d") ["x"; "y"; "z"; "w"])];
  (* line 1515 *)
  Entry DECLARE1 "glRasterPos4dv"
    [Param jdoubleArray "jv"]
    [SLocal JdoubleArray "v" "jv";
     SExpr (Call (Direct "glRasterPos4dv") ["v"])];
  (* line 1522 *)
  Entry DECLARE1 "glRasterPos4f"
    [Param jfloat "x"; Param jfloat "y"; Param jfloat "z"; Param jfloat "w"]
    [SExpr (Call (Direct "glRasterPos4f") ["x"; "y"; "z"; "w"])];
  (* line 1528 *)
  Entry DECLARE1 "glRasterPos4fv"
    [Param jfloatArray "jv"]
    [SLocal JfloatArray "v" "jv";
     SExpr (Call (Direct "glRasterPos4fv") ["v"])];
  (* line 1535 *)
  Entry DECLARE1 "glRasterPos4i"
    [Param jint "x"; Param jint "y"; Param jint "z"; Param jint "w"]
    [SExpr (Call (Direct "glRasterPos4i") ["x"; "y"; "z"; "w"])];
  (* line 1541 *)
  Entry DECLARE1 "glRasterPos4iv"
    [Param jintArray "jv"]
    [SLocal JintArray "v" "jv";
     SExpr (Call (Direct "glRasterPos4iv") ["v"])];
  (* line 1548 *)
  Entry DECLARE1 "glRasterPos4s"
    [Param jshort "x"; Param jshort "y"; Param jshort "z"; Param jshort "w"]
    [SExpr (Call (Direct "glRasterPos4s") ["x"; "y"; "z"; "w"])];
  (* line 1554 *)
  Entry DECLARE1 "glRasterPos4sv"
    [Param jshortArray "jv"]
    [SLocal JshortArray "v" "jv";
     SExpr (Call (Direct "glRasterPos4sv") ["v"])];
  (* line 1561 *)
  Entry DECLARE1 "glReadBuffer"
    [Param jint "mode"]
    [SExpr (Call (Direct "glReadBuffer") ["mode"])];
  (* line 1567 *)
  Entry DECLARE1 "glReadPixels__IIIIII_3B"
    [Param jint "x"; Param jint "y"; Param jint "width"; Param jint "height"; Param jint "format"; Param jint "type"; Param jarray "jpixels"]
    [SLocal JvoidArray "pixels" "jpixels";
     SExpr (Call (Direct "glReadPixels") ["x"; "y"; "width"; "height"; "format"; "type"; "pixels"])];
  (* line 1575 *)
  Entry DECLARE1 "glReadPixels__IIIIII_3I"
    [Param jint "x"; Param jint "y"; Param jint "width"; Param jint "height"; Param jint "format"; Param jint "type"; Param jarray "jpixels"]
    [SLocal JvoidArray "pixels" "jpixels";
     SExpr (Call (Direct "glReadPixels") ["x"; "y"; "width"; "height"; "format"; "type"; "pixels"])];
  (* line 1583 *)
  Entry DECLARE1 "glReadPixels__IIIIII_3S"
    [Param jint "x"; Param jint "y"; Param jint "width"; Param jint "height"; Param jint "format"; Param jint "type"; Param jarray "jpixels"]
    [SLocal JvoidArray "pixels" "jpixels";
     SExpr (Call (Direct "glReadPixels") ["x"; "y"; "width"; "height"; "format"; "type"; "pixels"])];
  (* line 1591 *)
  Entry DECLARE1 "glRectd"
    [Param jdouble "x1"; Param jdouble "y1"; Param jdouble "x2"; Param jdouble "y2"]
    [SExpr (Call (Direct "glRectd") ["x1"; "y1"; "x2"; "y2"])];
  (* line 1597 *)
  Entry DECLARE1 "glRectdv"
    [Param jdoubleArray "jv1"; Param jdoubleArray "jv2"]
    [SLocal JdoubleArray "v1" "jv1";
     SLocal JdoubleArray "v2" "jv2";
     SExpr (Call (Direct "glRectdv") ["v1"; "v2"])];
  (* line 1605 *)
  Entry DECLARE1 "glRectf"
    [Param jfloat "x1"; Param jfloat "y1"; Param jfloat "x2"; Param jfloat "y2"]
    [SExpr (Call (Direct "glRectf") ["x1"; "y1"; "x2"; "y2"])];
  (* line 1611 *)
  Entry DECLARE1 "glRectfv"
    [Param jfloatArray "jv1"; Param jfloatArray "jv2"]
    [SLocal JfloatArray "v1" "jv1";
     SLocal JfloatArray "v2" "jv2";
     SExpr (Call (Direct "glRectfv") ["v1"; "v2"])];
  (* line 1619 *)
  Entry DECLARE1 "glRecti"
    [Param jint "x1"; Param jint "y1"; Param jint "x2"; Param jint "y2"]
    [SExpr (Call (Direct "glRecti") ["x1"; "y1"; "x2"; "y2"])];
  (* line 1625 *)
  Entry DECLARE1 "glRectiv"
    [Param jintArray "jv1"; Param jintArray "jv2"]
    [SLocal JintArray "v1" "jv1";
     SLocal JintArray "v2" "jv2";
     SExpr (Call (Direct "glRectiv") ["v1"; "v2"])];
  (* line 1633 *)
  Entry DECLARE1 "glRects"
    [Param jshort "x1"; Param jshort "y1"; Param jshort "x2"; Param jshort "y2"]
    [SExpr (Call (Direct "glRects") ["x1"; "y1"; "x2"; "y2"])];
  (* line 1639 *)
  Entry DECLARE1 "glRectsv"
    [Param jshortArray "jv1"; Param jshortArray "jv2"]
    [SLocal JshortArray "v1" "jv1";
     SLocal JshortArray "v2" "jv2";
     SExpr (Call (Direct "glRectsv") ["v1"; "v2"])];
  (* line 1647 *)
  Entry (DECLARE_RETURN1 jint) "glRenderMode"
    [Param jint "mode"]
    [SReturn (ECall (Call (Direct "glRenderMode") ["mode"]))];
  (* line 1653 *)
  Entry DECLARE1 "glRotated"
    [Param jdouble "angle"; Param jdouble "x"; Param jdouble "y"; Param jdouble "z"]
    [SExpr (Call (Direct "glRotated") ["angle"; "x"; "y"; "z"])];
  (* line 1659 *)
  Entry DECLARE1 "glRotatef"
    [Param jfloat "angle"; Param jfloat "x"; Param jfloat "y"; Param jfloat "z"]
    [SExpr (Call (Direct "glRotatef") ["angle"; "x"; "y"; "z"])];
  (* line 1665 *)
  Entry DECLARE1 "glScaled"
    [Param jdouble "x"; Param jdouble "y"; Param jdouble "z"]
    [SExpr (Call (Direct "glScaled") ["x"; "y"; "z"])];
  (* line 1671 *)
  Entry DECLARE1 "glScalef"
    [Param jfloat "x"; Param jfloat "y"; Param jfloat "z"]
    [SExpr (Call (Direct "glScalef") ["x"; "y"; "z"])];
  (* line 1677 *)
  Entry DECLARE1 "glScissor"
    [Param jint "x"; Param jint "y"; Param jint "width"; Param jint "height"]
    [SExpr (Call (Direct "glScissor") ["x"; "y"; "width"; "height"])];
  (* line 1683 *)
  Entry DECLARE1 "glSelectBuffer"
    [Param jint "size"; Param jobject "jbuffer"]
    [SLocal JuintBuffer "buffer" "jbuffer";
     SExpr (Call (Direct "glSelectBuffer") ["size"; "buffer"])];
  (* line 1690 *)
  Entry DECLARE1 "glShadeModel"
    [Param jint "mode"]
    [SExpr (Call (Direct "glShadeModel") ["mode"])];
  (* line 1696 *)
  Entry DECLARE1 "glStencilFunc"
    [Param jint "func"; Param jint "ref"; Param jint "mask"]
    [SExpr (Call (Direct "glStencilFunc") ["func"; "ref"; "mask"])];
  (* line 1702 *)
  Entry DECLARE1 "glStencilMask"
    [Param jint "mask"]
    [SExpr (Call (Direct "glStencilMask") ["mask"])];
  (* line 1708 *)
  Entry DECLARE1 "glStencilOp"
    [Param jint "fail"; Param jint "zfail"; Param jint "zpass"]
    [SExpr (Call (Direct "glStencilOp") ["fail"; "zfail"; "zpass"])];
  (* line 1714 *)
  Entry DECLARE1 "glTexCoord1d"
    [Param jdouble "s"]
    [SExpr (Call (Direct "glTexCoord1d") ["s"])];
  (* line 1720 *)
  Entry DECLARE1 "glTexCoord1dv"
    [Param jdoubleArray "jv"]
    [SLocal JdoubleArray "v" "jv";
     SExpr (Call (Direct "glTexCoord1dv") ["v"])];
  (* line 1727 *)
  Entry DECLARE1 "glTexCoord1f"
    [Param jfloat "s"]
    [SExpr (Call (Direct "glTexCoord1f") ["s"])];
  (* line 1733 *)
  Entry DECLARE1 "glTexCoord1fv"
    [Param jfloatArray "jv"]
    [SLocal JfloatArray "v" "jv";
     SExpr (Call (Direct "glTexCoord1fv") ["v"])];
  (* line 1740 *)
  Entry DECLARE1 "glTexCoord1i"
    [Param jint "s"]
    [SExpr (Call (Direct "glTexCoord1i") ["s"])];
  (* line 1746 *)
  Entry DECLARE1 "glTexCoord1iv"
    [Param jintArray "jv"]
    [SLocal JintArray "v" "jv";
     SExpr (Call (Direct "glTexCoord1iv") ["v"])];
  (* line 1753 *)
  Entry DECLARE1 "glTexCoord1s"
    [Param jshort "s"]
    [SExpr (Call (Direct "glTexCoord1s") ["s"])];
  (* line 1759 *)
  Entry DECLARE1 "glTexCoord1sv"
    [Param jshortArray "jv"]
    [SLocal JshortArray "v" "jv";
     SExpr (Call (Direct "glTexCoord1sv") ["v"])];
  (* line 1766 *)
  Entry DECLARE1 "glTexCoord2d"
    [Param jdouble "s"; Param jdouble "t"]
    [SExpr (Call (Direct "glTexCoord2d") ["s"; "t"])];
  (* line 1772 *)
  Entry DECLARE1 "glTexCoord2dv"
    [Param jdoubleArray "jv"]
    [SLocal JdoubleArray "v" "jv";
     SExpr (Call (Direct "glTexCoord2dv") ["v"])];
  (* line 1779 *)
  Entry DECLARE1 "glTexCoord2f"
    [Param jfloat "s"; Param jfloat "t"]
    [SExpr (Call (Direct "glTexCoord2f") ["s"; "t"])];
  (* line 1785 *)
  Entry DECLARE1 "glTexCoord2fv"
    [Param jfloatArray "jv"]
    [SLocal JfloatArray "v" "jv";
     SExpr (Call (Direct "glTexCoord2fv") ["v"])];
  (* line 1792 *)
  Entry DECLARE1 "glTexCoord2i"
    [Param jint "s"; Param jint "t"]
    [SExpr (Call (Direct "glTexCoord2i") ["s"; "t"])];
  (* line 1798 *)
  Entry DECLARE1 "glTexCoord2iv"
    [Param jintArray "jv"]
    [SLocal JintArray "v" "jv";
     SExpr (Call (Direct "glTexCoord2iv") ["v"])];
  (* line 1805 *)
  Entry DECLARE1 "glTexCoord2s"
    [Param jshort "s"; Param jshort "t"]
    [SExpr (Call (Direct "glTexCoord2s") ["s"; "t"])];
  (* line 1811 *)
  Entry DECLARE1 "glTexCoord2sv"
    [Param jshortArray "jv"]
    [SLocal JshortArray "v" "jv";
     SExpr (Call (Direct "glTexCoord2sv") ["v"])];
  (* line 1818 *)
  Entry DECLARE1 "glTexCoord3d"
    [Param jdouble "s"; Param jdouble "t"; Param jdouble "r"]
    [SExpr (Call (Direct "glTexCoord3d") ["s"; "t"; "r"])];
  (* line 1824 *)
  Entry DECLARE1 "glTexCoord3dv"
    [Param jdoubleArray "jv"]
    [SLocal JdoubleArray "v" "jv";
     SExpr (Call (Direct "glTexCoord3dv") ["v"])];
  (* line 1831 *)
  Entry DECLARE1 "glTexCoord3f"
    [Param jfloat "s"; Param jfloat "t"; Param jfloat "r"]
    [SExpr (Call (Direct "glTexCoord3f") ["s"; "t"; "r"])];
  (* line 1837 *)
  Entry DECLARE1 "glTexCoord3fv"
    [Param jfloatArray "jv"]
    [SLocal JfloatArray "v" "jv";
     SExpr (Call (Direct "glTexCoord3fv") ["v"])];
  (* line 1844 *)
  Entry DECLARE1 "glTexCoord3i"
    [Param jint "s"; Param jint "t"; Param jint "r"]
    [SExpr (Call (Direct "glTexCoord3i") ["s"; "t"; "r"])];
  (* line 1850 *)
  Entry DECLARE1 "glTexCoord3iv"
    [Param jintArray "jv"]
    [SLocal JintArray "v" "jv";
     SExpr (Call (Direct "glTexCoord3iv") ["v"])];
  (* line 1857 *)
  Entry DECLARE1 "glTexCoord3s"
    [Param jshort "s"; Param jshort "t"; Param jshort "r"]
    [SExpr (Call (Direct "glTexCoord3s") ["s"; "t"; "r"])];
  (* line 1863 *)
  Entry DECLARE1 "glTexCoord3sv"
    [Param jshortArray "jv"]
    [SLocal JshortArray "v" "jv";
     SExpr (Call (Direct "glTexCoord3sv") ["v"])];
  (* line 1870 *)
  Entry DECLARE1 "glTexCoord4d"
    [Param jdouble "s"; Param jdouble "t"; Param jdouble "r"; Param jdouble "q"]
    [SExpr (Call (Direct "glTexCoord4d") ["s"; "t"; "r"; "q"])];
  (* line 1876 *)
  Entry DECLARE1 "glTexCoord4dv"
    [Param jdoubleArray "jv"]
    [SLocal JdoubleArray "v" "jv";
     SExpr (Call (Direct "glTexCoord4dv") ["v"])];
  (* line 1883 *)
  Entry DECLARE1 "glTexCoord4f"
    [Param jfloat "s"; Param jfloat "t"; Param jfloat "r"; Param jfloat "q"]
    [SExpr (Call (Direct "glTexCoord4f") ["s"; "t"; "r"; "q"])];
  (* line 1889 *)
  Entry DECLARE1 "glTexCoord4fv"
    [Param jfloatArray "jv"]
    [SLocal JfloatArray "v" "jv";
     SExpr (Call (Direct "glTexCoord4fv") ["v"])];
  (* line 1896 *)
  Entry DECLARE1 "glTexCoord4i"
    [Param jint "s"; Param jint "t"; Param jint "r"; Param jint "q"]
    [SExpr (Call (Direct "glTexCoord4i") ["s"; "t"; "r"; "q"])];
  (* line 1902 *)
  Entry DECLARE1 "glTexCoord4iv"
    [Param jintArray "jv"]
    [SLocal JintArray "v" "jv";
     SExpr (Call (Direct "glTexCoord4iv") ["v"])];
  (* line 1909 *)
  Entry DECLARE1 "glTexCoord4s"
    [Param jshort "s"; Param jshort "t"; Param jshort "r"; Param jshort "q"]
    [SExpr (Call (Direct "glTexCoord4s") ["s"; "t"; "r"; "q"])];
  (* line 1915 *)
  Entry DECLARE1 "glTexCoord4sv"
    [Param jshortArray "jv"]
    [SLocal JshortArray "v" "jv";
     SExpr (Call (Direct "glTexCoord4sv") ["v"])];
  (* line 1922 *)
  Entry DECLARE1 "glTexCoordPointer"
    [Param jint "size"; Param jint "type"; Param jint "stride"; Param jobject "jpointer"]
    [SLocal JvoidBuffer "pointer" "jpointer";
     SExpr (Call (Direct "glTexCoordPointer") ["size"; "type"; "stride"; "pointer"])];
  (* line 1929 *)
  Entry DECLARE1 "glTexEnvf"
    [Param jint "target"; Param jint "pname"; Param jfloat "param"]
    [SExpr (Call (Direct "glTexEnvf") ["target"; "pname"; "param"])];
  (* line 1935 *)
  Entry DECLARE1 "glTexEnvfv"
    [Param jint "target"; Param jint "pname"; Param jfloatArray "jparams"]
    [SLocal JfloatArray "params" "jparams";
     SExpr (Call (Direct "glTexEnvfv") ["target"; "pname"; "params"])];
  (* line 1942 *)
  Entry DECLARE1 "glTexEnvi"
    [Param jint "target"; Param jint "pname"; Param jint "param"]
    [SExpr (Call (Direct "glTexEnvi") ["target"; "pname"; "param"])];
  (* line 1948 *)
  Entry DECLARE1 "glTexEnviv"
    [Param jint "target"; Param jint "pname"; Param jintArray "jparams"]
    [SLocal JintArray "params" "jparams";
     SExpr (Call (Direct "glTexEnviv") ["target"; "pname"; "params"])];
  (* line 1955 *)
  Entry DECLARE1 "glTexGend"
    [Param jint "coord"; Param jint "pname"; Param jdouble "param"]
    [SExpr (Call (Direct "glTexGend") ["coord"; "pname"; "param"])];
  (* line 1961 *)
  Entry DECLARE1 "glTexGendv"
    [Param jint "coord"; Param jint "pname"; Param jdoubleArray "jparams"]
    [SLocal JdoubleArray "params" "jparams";
     SExpr (Call (Direct "glTexGendv") ["coord"; "pname"; "params"])];
  (* line 1968 *)
  Entry DECLARE1 "glTexGenf"
    [Param jint "coord"; Param jint "pname"; Param jfloat "param"]
    [SExpr (Call (Direct "glTexGenf") ["coord"; "pname"; "param"])];
  (* line 1974 *)
  Entry DECLARE1 "glTexGenfv"
    [Param jint "coord"; Param jint "pname"; Param jfloatArray "jparams"]
    [SLocal JfloatArray "params" "jparams";
     SExpr (Call (Direct "glTexGenfv") ["coord"; "pname"; "params"])];
  (* line 1981 *)
  Entry DECLARE1 "glTexGeni"
    [Param jint "coord"; Param jint "pname"; Param jint "param"]
    [SExpr (Call (Direct "glTexGeni") ["coord"; "pname"; "param"])];
  (* line 1987 *)
  Entry DECLARE1 "glTexGeniv"
    [Param jint "coord"; Param jint "pname"; Param jintArray "jparams"]
    [SLocal JintArray "params" "jparams";
     SExpr (Call (Direct "glTexGeniv") ["coord"; "pname"; "params"])];
  (* line 1994 *)
  Entry DECLARE1 "glTexImage1D__IIIIIII_3B"
    [Param jint "target"; Param jint "level"; Param jint "internalformat"; Param jint "width"; Param jint "border"; Param jint "format"; Param jint "type"; Param jarray "jpixels"]
    [SLocal JvoidArray "pixels" "jpixels";
     SExpr (Call (Direct "glTexImage1D") ["target"; "level"; "internalformat"; "width"; "border"; "format"; "type"; "pixels"])];
  (* line 2002 *)
  Entry DECLARE1 "glTexImage1D__IIIIIII_3I"
    [Param jint "target"; Param jint "level"; Param jint "internalformat"; Param jint "width"; Param jint "border"; Param jint "format"; Param jint "type"; Param jarray "jpixels"]
    [SLocal JvoidArray "pixels" "jpixels";
     SExpr (Call (Direct "glTexImage1D") ["target"; "level"; "internalformat"; "width"; "border"; "format"; "type"; "pixels"])];
  (* line 2010 *)
  Entry DECLARE1 "glTexImage1D__IIIIIII_3S"
    [Param jint "target"; Param jint "level"; Param jint "internalformat"; Param jint "width"; Param jint "border"; Param jint "format"; Param jint "type"; Param jarray "jpixels"]
    [SLocal JvoidArray "pixels" "jpixels";
     SExpr (Call (Direct "glTexImage1D") ["target"; "level"; "internalformat"; "width"; "border"; "format"; "type"; "pixels"])];
  (* line 2018 *)
  Entry DECLARE1 "glTexImage2D__IIIIIIII_3B"
    [Param jint "target"; Param jint "level"; Param jint "internalformat"; Param jint "width"; Param jint "height"; Param jint "border"; Param jint "format"; Param jint "type"; Param jarray "jpixels"]
    [SLocal JvoidArray "pixels" "jpixels";
     SExpr (Call (Direct "glTexImage2D") ["target"; "level"; "internalformat"; "width"; "height"; "border"; "format"; "type"; "pixels"])];
  (* line 2028 *)
  Entry DECLARE1 "glTexImage2D__IIIIIIII_3I"
    [Param jint "target"; Param jint "level"; Param jint "internalformat"; Param jint "width"; Param jint "height"; Param jint "border"; Param jint "format"; Param jint "type"; Param jarray "jpixels"]
    [SLocal JvoidArray "pixels" "jpixels";
     SExpr (Call (Direct "glTexImage2D") ["target"; "level"; "internalformat"; "width"; "height"; "border"; "format"; "type"; "pixels"])];
  (* line 2038 *)
  Entry DECLARE1 "glTexImage2D__IIIIIIII_3S"
    [Param jint "target"; Param jint "level"; Param jint "internalformat"; Param jint "width"; Param jint "height"; Param jint "border"; Param jint "format"; Param jint "type"; Param jarray "jpixels"]
    [SLocal JvoidArray "pixels" "jpixels";
     SExpr (Call (Direct "glTexImage2D") ["target"; "level"; "internalformat"; "width"; "height"; "border"; "format"; "type"; "pixels"])];
  (* line 2048 *)
  Entry DECLARE1 "glTexParameterf"
    [Param jint "target"; Param jint "pname"; Param jfloat "param"]
    [SExpr (Call (Direct "glTexParameterf") ["target"; "pname"; "param"])];
  (* line 2054 *)
  Entry DECLARE1 "glTexParameterfv"
    [Param jint "target"; Param jint "pname"; Param jfloatArray "jparams"]
    [SLocal JfloatArray "params" "jparams";
     SExpr (Call (Direct "glTexParameterfv") ["target"; "pname"; "params"])];
  (* line 2061 *)
  Entry DECLARE1 "glTexParameteri"
    [Param jint "target"; Param jint "pname"; Param jint "param"]
    [SExpr (Call (Direct "glTexParameteri") ["target"; "pname"; "param"])];
  (* line 2067 *)
  Entry DECLARE1 "glTexParameteriv"
    [Param jint "target"; Param jint "pname"; Param jintArray "jparams"]
    [SLocal JintArray "params" "jparams";
     SExpr (Call (Direct "glTexParameteriv") ["target"; "pname"; "params"])];
  (* line 2074 *)
  Entry DECLARE1 "glTexSubImage1D__IIIIII_3B"
    [Param jint "target"; Param jint "level"; Param jint "xoffset"; Param jint "width"; Param jint "format"; Param jint "type"; Param jarray "jpixels"]
    [SLocal JvoidArray "pixels" "jpixels";
     SExpr (Call (Direct "glTexSubImage1D") ["target"; "level"; "xoffset"; "width"; "format"; "type"; "pixels"])];
  (* line 2082 *)
  Entry DECLARE1 "glTexSubImage1D__IIIIII_3I"
    [Param jint "target"; Param jint "level"; Param jint "xoffset"; Param jint "width"; Param jint "format"; Param jint "type"; Param jarray "jpixels"]
    [SLocal JvoidArray "pixels" "jpixels";
     SExpr (Call (Direct "glTexSubImage1D") ["target"; "level"; "xoffset"; "width"; "format"; "type"; "pixels"])];
  (* line 2090 *)
  Entry DECLARE1 "glTexSubImage1D__IIIIII_3S"
    [Param jint "target"; Param jint "level"; Param jint "xoffset"; Param jint "width"; Param jint "format"; Param jint "type"; Param jarray "jpixels"]
    [SLocal JvoidArray "pixels" "jpixels";
     SExpr (Call (Direct "glTexSubImage1D") ["target"; "level"; "xoffset"; "width"; "format"; "type"; "pixels"])];
  (* line 2098 *)
  Entry DECLARE1 "glTexSubImage2D__IIIIIIII_3B"
    [Param jint "target"; Param jint "level"; Param jint "xoffset"; Param jint "yoffset"; Param jint "width"; Param jint "height"; Param jint "format"; Param jint "type"; Param jarray "jpixels"]
    [SLocal JvoidArray "pixels" "jpixels";
     SExpr (Call (Direct "glTexSubImage2D") ["target"; "level"; "xoffset"; "yoffset"; "width"; "height"; "format"; "type"; "pixels"])];
  (* line 2108 *)
  Entry DECLARE1 "glTexSubImage2D__IIIIIIII_3I"
    [Param jint "target"; Param jint "level"; Param jint "xoffset"; Param jint "yoffset"; Param jint "width"; Param jint "height"; Param jint "format"; Param jint "type"; Param jarray "jpixels"]
    [SLocal JvoidArray "pixels" "jpixels";
     SExpr (Call (Direct "glTexSubImage2D") ["target"; "level"; "xoffset"; "yoffset"; "width"; "height"; "format"; "type"; "pixels"])];
  (* line 2118 *)
  Entry DECLARE1 "glTexSubImage2D__IIIIIIII_3S"
    [Param jint "target"; Param jint "level"; Param jint "xoffset"; Param jint "yoffset"; Param jint "width"; Param jint "height"; Param jint "format"; Param jint "type"; Param jarray "jpixels"]
    [SLocal JvoidArray "pixels" "jpixels";
     SExpr (Call (Direct "glTexSubImage2D") ["target"; "level"; "xoffset"; "yoffset"; "width"; "height"; "format"; "type"; "pixels"])];
  (* line 2128 *)
  Entry DECLARE1 "glTranslated"
    [Param jdouble "x"; Param jdouble "y"; Param jdouble "z"]
    [SExpr (Call (Direct "glTranslated") ["x"; "y"; "z"])];
  (* line 2134 *)
  Entry DECLARE1 "glTranslatef"
    [Param jfloat "x"; Param jfloat "y"; Param jfloat "z"]
    [SExpr (Call (Direct "glTranslatef") ["x"; "y"; "z"])];
  (* line 2140 *)
  Entry DECLARE1 "glVertex2d"
    [Param jdouble "x"; Param jdouble "y"]
    [SExpr (Call (Direct "glVertex2d") ["x"; "y"])];
  (* line 2146 *)
  Entry DECLARE1 "glVertex2dv"
    [Param jdoubleArray "jv"]
    [SLocal JdoubleArray "v" "jv";
     SExpr (Call (Direct "glVertex2dv") ["v"])];
  (* line 2153 *)
  Entry DECLARE1 "glVertex2f"
    [Param jfloat "x"; Param jfloat "y"]
    [SExpr (Call (Direct "glVertex2f") ["x"; "y"])];
  (* line 2159 *)
  Entry DECLARE1 "glVertex2fv"
    [Param jfloatArray "jv"]
    [SLocal JfloatArray "v" "jv";
     SExpr (Call (Direct "glVertex2fv") ["v"])];
  (* line 2166 *)
  Entry DECLARE1 "glVertex2i"
    [Param jint "x"; Param jint "y"]
    [SExpr (Call (Direct "glVertex2i") ["x"; "y"])];
  (* line 2172 *)
  Entry DECLARE1 "glVertex2iv"
    [Param jintArray "jv"]
    [SLocal JintArray "v" "jv";
     SExpr (Call (Direct "glVertex2iv") ["v"])];
  (* line 2179 *)
  Entry DECLARE1 "glVertex2s"
    [Param jshort "x"; Param jshort "y"]
    [SExpr (Call (Direct "glVertex2s") ["x"; "y"])];
  (* line 2185 *)
  Entry DECLARE1 "glVertex2sv"
    [Param jshortArray "jv"]
    [SLocal JshortArray "v" "jv";
     SExpr (Call (Direct "glVertex2sv") ["v"])];
  (* line 2192 *)
  Entry DECLARE1 "glVertex3d"
    [Param jdouble "x"; Param jdouble "y"; Param jdouble "z"]
    [SExpr (Call (Direct "glVertex3d") ["x"; "y"; "z"])];
  (* line 2198 *)
  Entry DECLARE1 "glVertex3dv"
    [Param jdoubleArray "jv"]
    [SLocal JdoubleArray "v" "jv";
     SExpr (Call (Direct "glVertex3dv") ["v"])];
  (* line 2205 *)
  Entry DECLARE1 "glVertex3f"
    [Param jfloat "x"; Param jfloat "y"; Param jfloat "z"]
    [SExpr (Call (Direct "glVertex3f") ["x"; "y"; "z"])];
  (* line 2211 *)
  Entry DECLARE1 "glVertex3fv"
    [Param jfloatArray "jv"]
    [SLocal JfloatArray "v" "jv";
     SExpr (Call (Direct "glVertex3fv") ["v"])];
  (* line 2218 *)
  Entry DECLARE1 "glVertex3i"
    [Param jint "x"; Param jint "y"; Param jint "z"]
    [SExpr (Call (Direct "glVertex3i") ["x"; "y"; "z"])];
  (* line 2224 *)
  Entry DECLARE1 "glVertex3iv"
    [Param jintArray "jv"]
    [SLocal JintArray "v" "jv";
     SExpr (Call (Direct "glVertex3iv") ["v"])];
  (* line 2231 *)
  Entry DECLARE1 "glVertex3s"
    [Param jshort "x"; Param jshort "y"; Param jshort "z"]
    [SExpr (Call (Direct "glVertex3s") ["x"; "y"; "z"])];
  (* line 2237 *)
  Entry DECLARE1 "glVertex3sv"
    [Param jshortArray "jv"]
    [SLocal JshortArray "v" "jv";
     SExpr (Call (Direct "glVertex3sv") ["v"])];
  (* line 2244 *)
  Entry DECLARE1 "glVertex4d"
    [Param jdouble "x"; Param jdouble "y"; Param jdouble "z"; Param jdouble "w"]
    [SExpr (Call (Direct "glVertex4d") ["x"; "y"; "z"; "w"])];
  (* line 2250 *)
  Entry DECLARE1 "glVertex4dv"
    [Param jdoubleArray "jv"]
    [SLocal JdoubleArray "v" "jv";
     SExpr (Call (Direct "glVertex4dv") ["v"])];
  (* line 2257 *)
  Entry DECLARE1 "glVertex4f"
    [Param jfloat "x"; Param jfloat "y"; Param jfloat "z"; Param jfloat "w"]
    [SExpr (Call (Direct "glVertex4f") ["x"; "y"; "z"; "w"])];
  (* line 2263 *)
  Entry DECLARE1 "glVertex4fv"
    [Param jfloatArray "jv"]
    [SLocal JfloatArray "v" "jv";
     SExpr (Call (Direct "glVertex4fv") ["v"])];
  (* line 2270 *)
  Entry DECLARE1 "glVertex4i"
    [Param jint "x"; Param jint "y"; Param jint "z"; Param jint "w"]
    [SExpr (Call (Direct "glVertex4i") ["x"; "y"; "z"; "w"])];
  (* line 2276 *)
  Entry DECLARE1 "glVertex4iv"
    [Param jintArray "jv"]
    [SLocal JintArray "v" "jv";
     SExpr (Call (Direct "glVertex4iv") ["v"])];
  (* line 2283 *)
  Entry DECLARE1 "glVertex4s"
    [Param jshort "x"; Param jshort "y"; Param jshort "z"; Param jshort "w"]
    [SExpr (Call (Direct "glVertex4s") ["x"; "y"; "z"; "w"])];
  (* line 2289 *)
  Entry DECLARE1 "glVertex4sv"
    [Param jshortArray "jv"]
    [SLocal JshortArray "v" "jv";
     SExpr (Call (Direct "glVertex4sv") ["v"])];
  (* line 2296 *)
  Entry DECLARE1 "glVertexPointer"
    [Param jint "size"; Param jint "type"; Param jint "stride"; Param jobject "jpointer"]
    [SLocal JvoidBuffer "pointer" "jpointer";
     SExpr (Call (Direct "glVertexPointer") ["size"; "type"; "stride"; "pointer"])];
  (* line 2303 *)
  Entry DECLARE1 "glViewport"
    [Param jint "x"; Param jint "y"; Param jint "width"; Param jint "height"]
    [SExpr (Call (Direct "glViewport") ["x"; "y"; "width"; "height"])];
  (* line 2312 *)
  Entry DECLARE2 "glBlendColor"
    [Param jfloat "red"; Param jfloat "green"; Param jfloat "blue"; Param jfloat "alpha"]
    [SExpr (Call (ViaPointer "PFNGLBLENDCOLORPROC" "pfunc") ["red"; "green"; "blue"; "alpha"])];
  (* line 2319 *)
  Entry DECLARE2 "glBlendEquation"
    [Param jint "mode"]
    [SExpr (Call (ViaPointer "PFNGLBLENDEQUATIONPROC" "pfunc") ["mode"])];
  (* line 2326 *)
  Entry DECLARE2 "glDrawRangeElements__IIIII_3B"
    [Param jint "mode"; Param jint "start"; Param jint "end"; Param jint "count"; Param jint "type"; Param jarray "jindices"]
    [SLocal JvoidArray "indices" "jindices";
     SExpr (Call (ViaPointer "PFNGLDRAWRANGEELEMENTSPROC" "pfunc") ["mode"; "start"; "end"; "count"; "type"; "indices"])];
  (* line 2334 *)
  Entry DECLARE2 "glDrawRangeElements__IIIII_3I"
    [Param jint "mode"; Param jint "start"; Param jint "end"; Param jint "count"; Param jint "type"; Param jarray "jindices"]
    [SLocal JvoidArray "indices" "jindices";
     SExpr (Call (ViaPointer "PFNGLDRAWRANGEELEMENTSPROC" "pfunc") ["mode"; "start"; "end"; "count"; "type"; "indices"])];
  (* line 2342 *)
  Entry DECLARE2 "glDrawRangeElements__IIIII_3S"
    [Param jint "mode"; Param jint "start"; Param jint "end"; Param jint "count"; Param jint "type"; Param jarray "jindices"]
    [SLocal JvoidArray "indices" "jindices";
     SExpr (Call (ViaPointer "PFNGLDRAWRANGEELEMENTSPROC" "pfunc") ["mode"; "start"; "end"; "count"; "type"; "indices"])]
].

(** The exported symbol: the macros paste [name] after the class prefix, and
    [JNI_GL_DECLARE2] puts an [n] in front of it. *)
Definition symbol (e : entry) : string :=
  ("Java_edu_mines_jves_opengl_Gl_" ++
   match e_decl e with DECLARE2 => "n" | _ => "" end ++ e_name e)%string.

(** The parameter list after macro expansion, without the leading
    [JNIEnv* env, jclass cls]: [JNI_GL_DECLARE2] adds [jlong pfunc]. *)
Definition params_of (e : entry) : list param :=
  match e_decl e with
  | DECLARE2 => Param jlong "pfunc" :: e_params e
  | _ => e_params e
  end.

Definition return_type (e : entry) : option jtype :=
  match e_decl e with
  | DECLARE_RETURN0 t | DECLARE_RETURN1 t => Some t
  | _ => None
  end.

Definition is_extension (e : entry) : bool :=
  match e_decl e with DECLARE2 => true | _ => false end.

Definition call_of (e : expr) : call :=
  match e with ECall c | EIsGlTrue c | ENewStringUTF c => c end.

(** The calls a body contains, in order. *)
Fixpoint calls_of (body : list stmt) : list call :=
  match body with
  | [] => []
  | SLocal _ _ _ :: rest => calls_of rest
  | SExpr c :: rest => c :: calls_of rest
  | SReturn e :: rest => call_of e :: calls_of rest
  end.

(** The view declarations of a body, in order. *)
Fixpoint locals_of (body : list stmt) : list (wrapper * string * string) :=
  match body with
  | [] => []
  | SLocal cls x src :: rest => (cls, x, src) :: locals_of rest
  | _ :: rest => locals_of rest
  end.

(** The view class, if any, that a body declares over parameter [src]. *)
Fixpoint view_class (body : list stmt) (src : string) : option wrapper :=
  match body with
  | [] => None
  | SLocal cls _ s :: rest => if String.eqb s src then Some cls else view_class rest src
  | _ :: rest => view_class rest src
  end.

Definition find_entry (name : string) : option entry :=
  find (fun e => String.eqb (e_name e) name) Gl_cpp.

(** ** Values *)

(** [signed w z] is the two's-complement reading of the low [w] bits of
    [z]; [unsigned w z] is their reading as a natural number. *)
Definition unsigned (w z : Z) : Z := z mod 2 ^ w.
Definition signed (w z : Z) : Z := (z + 2 ^ (w - 1)) mod 2 ^ w - 2 ^ (w - 1).

Definition in_signed (w z : Z) : bool := (- 2 ^ (w - 1) <=? z) && (z <? 2 ^ (w - 1)).
Definition in_unsigned (w z : Z) : bool := (0 <=? z) && (z <? 2 ^ w).

(** Which scalars a parameter of type [t] can hold.  Integers are signed;
    a [jfloat] or [jdouble] is carried as its IEEE bit pattern, since no
    function of this file computes with it. *)
Definition fits (t : jtype) (z : Z) : bool :=
  match t with
  | jbyte => in_signed 8 z
  | jshort => in_signed 16 z
  | jint | c_int => in_signed 32 z
  | jlong => in_signed 64 z
  | jfloat => in_unsigned 32 z
  | jdouble => in_unsigned 64 z
  | jboolean => in_unsigned 8 z
  | _ => false
  end.

Definition is_reference (t : jtype) : bool :=
  match t with
  | jbyteArray | jshortArray | jintArray | jfloatArray | jdoubleArray
  | jarray | jobject | jstring => true
  | _ => false
  end.

Definition jtype_eq_dec (a b : jtype) : {a = b} + {a <> b}.
Proof. decide equality. Defined.

Definition wrapper_eq_dec (a b : wrapper) : {a = b} + {a <> b}.
Proof. decide equality. Defined.

(** A value in a function body: a scalar of a JNI type, a reference to a
    managed array or buffer object, or the raw view that a view class gives
    of such an object. *)
Inductive value : Set :=
  | VScalar (t : jtype) (z : Z)
  | VRef (h : Z)
  | VView (cls : wrapper) (h : Z).

Definition has_type (t : jtype) (v : value) : bool :=
  match v with
  | VScalar t' z => if jtype_eq_dec t t' then fits t z else false
  | VRef _ => is_reference t
  | VView _ _ => false
  end.

(** What a native function hands back: nothing, an integer of some GL type,
    or a C string pointer ([None] is the null pointer). *)
Inductive nvalue : Set :=
  | NVoid
  | NInt (z : Z)
  | NString (s : option string).

(** What the managed caller receives. *)
Inductive jresult : Set :=
  | JVoid
  | JInt (z : Z)
  | JBoolean (z : Z)
  | JString (s : string)
  | JNullRef.

(** Constants of [GL/gl.h] and [jni.h]. *)
Definition GL_TRUE : Z := 1.
Definition GL_FALSE : Z := 0.
Definition JNI_TRUE : Z := 1.
Definition JNI_FALSE : Z := 0.

(** The function a call reaches: one bound by the linker, or whatever lies
    at an address, called as a function of type [proc]. *)
Inductive target : Set :=
  | Linked (f : string)
  | Address (addr : Z) (proc : string).

Inductive event : Set :=
  | Invoke (t : target) (args : list value).

(** Modelled from the spec: [toPointer] of [jniglue.h], which is not part of
    this file.  The handle is "an integer-sized opaque value representing a
    resolved function address" that the binding reinterprets as a pointer:
    the address is the handle itself. *)
Definition toPointer (pfunc : Z) : Z := pfunc.

(** ** Results and environments *)

(** The result of one native call: it returns, or it faults with a
  description; either way it leaves a world behind. *)
Inductive nresult (World : Type) : Type :=
| NReturns (r : nvalue) (w : World)
| NFaults (what : string) (w : World).
Arguments NReturns {World} r w.
Arguments NFaults {World} what w.

(** How a function body ends, before [JNI_CATCH] has looked at it. *)
Inductive signal (World : Type) : Type :=
| Done (v : jresult) (w : World)
| Raised (what : string) (w : World)
| Wrong.
Arguments Done {World} v w.
Arguments Raised {World} what w.
Arguments Wrong {World}.

(** What a call of an entry point comes to: it returns a value; it returns
    with a runtime fault pending; it reaches, with a fault pending, the end
    of a function that has to return a value and has no [return] there,
    after which C++ defines nothing; or it is no call the JVM can make. *)
Inductive outcome (World : Type) : Type :=
| Returned (v : jresult) (w : World)
| Thrown (message : string) (w : World)
| Undefined (message : string) (w : World)
| Stuck.
Arguments Returned {World} v w.
Arguments Thrown {World} message w.
Arguments Undefined {World} message w.
Arguments Stuck {World}.

Definition env : Set := list (string * value).

Fixpoint lookup {A : Type} (x : string) (rho : list (string * A)) : option A :=
match rho with
| [] => None
| (y, v) :: rest => if String.eqb x y then Some v else lookup x rest
end.

Fixpoint those {A : Type} (l : list (option A)) : option (list A) :=
match l with
| [] => Some []
| Some a :: rest => option_map (cons a) (those rest)
| None :: _ => None
end.

(** The JVM calls a native method with one value per declared parameter,
  each of the declared type. *)
Fixpoint bind (ps : list param) (args : list value) : option env :=
match ps, args with
| [], [] => Some []
| p :: ps', v :: args' =>
    if has_type (p_type p) v
    then option_map (cons (p_name p, v)) (bind ps' args')
    else None
| _, _ => None
end.

Definition resolve (c : callee) (rho : env) : option target :=
match c with
| Direct f => Some (Linked f)
| ViaPointer proc handle =>
    match lookup handle rho with
    | Some (VScalar jlong a) => Some (Address (toPointer a) proc)
    | _ => None
    end
end.

(** ** Summaries of bodies *)

(** Where a value of a body comes from: argument [i] of the call as it is,
    or the view of class [cls] over argument [i]. *)
Inductive slot : Set :=
  | Arg (i : nat)
  | View (cls : wrapper) (i : nat).

(** The callee, with the handle resolved to an argument position. *)
Inductive tshape : Set :=
  | TLinked (f : string)
  | TAddress (i : nat) (proc : string).

(** A body that makes one native call: what it calls, where each argument
    of that call comes from, and the expression around the call, if the
    call stands under [return]. *)
Record summary : Set := Summary {
  s_target : tshape;
  s_slots : list slot;
  s_result : option expr
}.

Fixpoint positions (ps : list param) (i : nat) : list (string * slot) :=
  match ps with
  | [] => []
  | p :: ps' => (p_name p, Arg i) :: positions ps' (S i)
  end.

Definition type_at (ps : list param) (i : nat) : option jtype :=
  option_map p_type (nth_error ps i).

Definition summarize_callee (ps : list param) (sigma : list (string * slot))
    (c : callee) : option tshape :=
  match c with
  | Direct f => Some (TLinked f)
  | ViaPointer proc handle =>
      match lookup handle sigma with
      | Some (Arg i) =>
          match type_at ps i with
          | Some jlong => Some (TAddress i proc)
          | _ => None
          end
      | _ => None
      end
  end.

Definition summarize_call (ps : list param) (sigma : list (string * slot))
    (c : call) (res : option expr) : option summary :=
  match summarize_callee ps sigma (c_callee c),
        those (map (fun x => lookup x sigma) (c_args c)) with
  | Some t, Some sl => Some (Summary t sl res)
  | _, _ => None
  end.

(** Runs over a body as [exec] does, with positions in place of values.  It
    gives up on a body that makes no call, or goes on after a call. *)
Fixpoint summarize_body (ps : list param) (sigma : list (string * slot))
    (body : list stmt) : option summary :=
  match body with
  | [] => None
  | SLocal cls x src :: rest =>
      match lookup src sigma with
      | Some (Arg i) =>
          match type_at ps i with
          | Some t =>
              if is_reference t
              then summarize_body ps ((x, View cls i) :: sigma) rest
              else None
          | None => None
          end
      | _ => None
      end
  | SExpr c :: rest =>
      match rest with
      | [] => summarize_call ps sigma c None
      | _ :: _ => None
      end
  | SReturn e :: _ => summarize_call ps sigma (call_of e) (Some e)
  end.

Definition summarize (e : entry) : option summary :=
  summarize_body (params_of e) (positions (params_of e) 0) (e_body e).

Definition slot_val (args : list value) (s : slot) : option value :=
  match s with
  | Arg i => nth_error args i
  | View cls i =>
      match nth_error args i with
      | Some (VRef h) => Some (VView cls h)
      | _ => None
      end
  end.

Definition target_val (args : list value) (t : tshape) : option target :=
  match t with
  | TLinked f => Some (Linked f)
  | TAddress i proc =>
      match nth_error args i with
      | Some (VScalar jlong a) => Some (Address (toPointer a) proc)
      | _ => None
      end
  end.

Definition typed (ps : list param) (args : list value) : Prop :=
  Forall2 (fun p v => has_type (p_type p) v = true) ps args.

(** An environment of values [rho] instantiates an environment of positions
    [sigma] at the arguments [args]. *)
Definition agree (args : list value) (sigma : list (string * slot)) (rho : env) : Prop :=
  Forall2 (fun a b => fst a = fst b /\ slot_val args (snd a) = Some (snd b)) sigma rho.

(** ** Names *)

(** The part of [name] before the [__] that starts a signature suffix: the
    OpenGL function an entry point is named after. *)
Fixpoint before_sep (s : string) : string :=
  match s with
  | EmptyString => EmptyString
  | String a rest =>
      if String.prefix "__" s then EmptyString else String a (before_sep rest)
  end.

(** The signature suffix of [name]: what follows the first [__]. *)
Fixpoint after_sep (s : string) : string :=
  match s with
  | EmptyString => EmptyString
  | String a rest =>
      if String.prefix "__" s
      then match rest with String _ tl => tl | EmptyString => EmptyString end
      else after_sep rest
  end.

Definition native_name (e : entry) : string := before_sep (e_name e).
Definition suffix (e : entry) : string := after_sep (e_name e).

Definition upper (c : ascii) : ascii :=
  let n := nat_of_ascii c in
  if ((97 <=? n) && (n <=? 122))%nat then ascii_of_nat (n - 32) else c.

Fixpoint uppercase (s : string) : string :=
  match s with
  | EmptyString => EmptyString
  | String a rest => String (upper a) (uppercase rest)
  end.

(** The function-pointer type that [GL/glext.h] declares for an extension
    function: [PFNGLBLENDCOLORPROC] for [glBlendColor]. *)
Definition proc_type (e : entry) : string :=
  ("PFN" ++ uppercase (native_name e) ++ "PROC")%string.

Fixpoint distinct (l : list string) : bool :=
  match l with
  | [] => true
  | x :: rest => negb (existsb (String.eqb x) rest) && distinct rest
  end.

(** ** Forwarding, in the words of the interface description *)

(** "Array/buffer parameters replace raw native pointers": an argument over
    which the body declares a view goes on as that view, any other argument
    goes on as it came. *)
Definition marshal (body : list stmt) (p : param) (v : value) : value :=
  match view_class body (p_name p), v with
  | Some cls, VRef h => VView cls h
  | _, _ => v
  end.

(** "Positional, exactly mirroring the native function's declared parameter
    list": one forwarded value per parameter, in the order of the
    parameters. *)
Fixpoint forward (body : list stmt) (ps : list param) (args : list value)
  : list value :=
  match ps, args with
  | p :: ps', v :: args' => marshal body p v :: forward body ps' args'
  | _, _ => []
  end.

(** The native function that stands behind an entry point and the arguments
    it is to receive: for a direct entry point the OpenGL function of its
    name, for an extension entry point the function at the handle that
    comes first. *)
Definition native_call (e : entry) (args : list value)
  : option (target * list value) :=
  if is_extension e then
    match args with
    | VScalar jlong a :: rest =>
        Some (Address a (proc_type e), forward (e_body e) (e_params e) rest)
    | _ => None
    end
  else Some (Linked (native_name e), forward (e_body e) (e_params e) args).

(** The same, as positions. *)
Fixpoint expected_slots (body : list stmt) (ps : list param) (i : nat) : list slot :=
  match ps with
  | [] => []
  | p :: ps' =>
      match view_class body (p_name p) with
      | Some cls => View cls i
      | None => Arg i
      end :: expected_slots body ps' (S i)
  end.

Definition expected_target (e : entry) : tshape :=
  if is_extension e then TAddress 0 (proc_type e) else TLinked (native_name e).

Definition slot_eq_dec (a b : slot) : {a = b} + {a <> b}.
Proof. decide equality; try apply Nat.eq_dec; apply wrapper_eq_dec. Defined.

Definition tshape_eq_dec (a b : tshape) : {a = b} + {a <> b}.
Proof. decide equality; try apply Nat.eq_dec; apply string_dec. Defined.

Definition views_on_references (e : entry) : bool :=
  forallb (fun p => match view_class (e_body e) (p_name p) with
                    | Some _ => is_reference (p_type p)
                    | None => true
                    end) (e_params e).

(** The check that is run on every row: the body has a summary, it calls
    the function the entry point is named after, and its arguments are the
    parameters in order. *)
Definition forwards (e : entry) : bool :=
  match summarize e with
  | Some s =>
      (if tshape_eq_dec (s_target s) (expected_target e) then true else false)
      && (if list_eq_dec slot_eq_dec (s_slots s)
               (expected_slots (e_body e) (e_params e) (if is_extension e then 1 else 0)%nat)
          then true else false)
      && views_on_references e
  | None => false
  end.

(** The expression a body returns, if it returns one. *)
Fixpoint return_expr (body : list stmt) : option expr :=
  match body with
  | [] => None
  | SReturn e :: _ => Some e
  | _ :: rest => return_expr rest
  end.

(** ** Semantics *)

Section Semantics.

(** Everything a native call can read or change: the state of the graphics
    library and the memory it reaches through pointers. *)
Variable World : Type.

(** The native library, and the functions that extension addresses lead to. *)
Variable native : target -> list value -> World -> nresult World.

(** [JNIEnv::NewStringUTF], a function of the Java runtime. *)
Variable NewStringUTF : option string -> jresult.

(** The conversion that the context of a call applies to its result:
    to the declared return type [jint] under a plain [return], the
    comparison with [GL_TRUE], the string constructor. *)
Definition convert (rt : option jtype) (e : expr) (r : nvalue) : option jresult :=
  match e, r with
  | ECall _, NInt z =>
      match rt with
      | Some jint => Some (JInt (signed 32 z))
      | _ => None
      end
  | EIsGlTrue _, NInt z =>
      Some (JBoolean (if z =? GL_TRUE then JNI_TRUE else JNI_FALSE))
  | ENewStringUTF _, NString s => Some (NewStringUTF s)
  | _, _ => None
  end.

Definition invoke (c : call) (rho : env) (w : World)
  : option (event * nresult World) :=
  match resolve (c_callee c) rho, those (map (fun x => lookup x rho) (c_args c)) with
  | Some t, Some vs => Some (Invoke t vs, native t vs w)
  | _, _ => None
  end.

(** Statements run in order; a fault leaves the body at once; nothing runs
    after a [return].  The first component lists the native invocations
    made. *)
Fixpoint exec (rt : option jtype) (rho : env) (body : list stmt) (w : World)
  : list event * signal World :=
  match body with
  | [] => ([], Done JVoid w)
  | SLocal cls x src :: rest =>
      match lookup src rho with
      | Some (VRef h) => exec rt ((x, VView cls h) :: rho) rest w
      | _ => ([], Wrong)
      end
  | SExpr c :: rest =>
      match invoke c rho w with
      | Some (ev, NReturns _ w') =>
          let (tr, s) := exec rt rho rest w' in (ev :: tr, s)
      | Some (ev, NFaults what w') => ([ev], Raised what w')
      | None => ([], Wrong)
      end
  | SReturn e :: _ =>
      match invoke (call_of e) rho w with
      | Some (ev, NReturns r w') =>
          ([ev], match convert rt e r with
                 | Some v => Done v w'
                 | None => Wrong
                 end)
      | Some (ev, NFaults what w') => ([ev], Raised what w')
      | None => ([], Wrong)
      end
  end.

(** Modelled from the spec: the macros [JNI_TRY] and [JNI_CATCH] of
    [jniglue.h], which is not part of this file.  "Any native-level fault
    raised during the call is caught at the boundary and re-signaled as a
    caller-level runtime fault carrying the native fault's description";
    a body that ends normally is left alone. *)
Definition JNI_CATCH (s : signal World) : outcome World :=
  match s with
  | Done v w => Returned v w
  | Raised what w => Thrown what w
  | Wrong => Stuck
  end.

(** [JNI_GL_END] is [JNI_CATCH] followed by the closing brace of the
    function, for void and value-returning functions alike, so no [return]
    stands between the handler and the brace.  After the handler has made the
    fault pending, a function declared void returns; a function declared with
    [JNI_GL_DECLARE_RETURN*] flows off its end without a value. *)
Definition JNI_GL_END (rt : option jtype) (s : signal World) : outcome World :=
  match JNI_CATCH s with
  | Thrown what w =>
      match rt with
      | None => Thrown what w
      | Some _ => Undefined what w
      end
  | o => o
  end.

(** One call of an entry point from the managed side. *)
Definition run (e : entry) (args : list value) (w : World)
  : list event * outcome World :=
  match bind (params_of e) args with
  | Some rho =>
      let (tr, s) := exec (return_type e) rho (e_body e) w in
      (tr, JNI_GL_END (return_type e) s)
  | None => ([], Stuck)
  end.

(** What a summarized body does on given arguments. *)
Definition denote (rt : option jtype) (s : summary) (args : list value) (w : World)
  : list event * signal World :=
  match target_val args (s_target s), those (map (slot_val args) (s_slots s)) with
  | Some t, Some vs =>
      ([Invoke t vs],
       match native t vs w with
       | NFaults what w' => Raised what w'
       | NReturns r w' =>
           match s_result s with
           | None => Done JVoid w'
           | Some e =>
               match convert rt e r with
               | Some v => Done v w'
               | None => Wrong
               end
           end
       end)
  | _, _ => ([], Wrong)
  end.

(** What an entry point makes of the result of its native call. *)
Definition deliver (e : entry) (n : nresult World) : outcome World :=
  match n with
  | NFaults what w' =>
      match return_type e with
      | None => Thrown what w'
      | Some _ => Undefined what w'
      end
  | NReturns r w' =>
      match return_expr (e_body e) with
      | None => Returned JVoid w'
      | Some x =>
          match convert (return_type e) x r with
          | Some v => Returned v w'
          | None => Stuck
          end
      end
  end.

End Semantics.

(** ** A small native library

    Enough of a graphics library to run the entry points on: a clear
    colour, a colour buffer, a depth-write flag, a display-list counter and
    a blend colour.  [glReadPixels] always faults.  The extension function
    [glBlendColor] lives at address 4096; calling any other address faults. *)

Module Toy.

Record world : Set := World {
  clear_color : list Z;
  color_buffer : list Z;
  depth_mask : Z;
  next_list : Z;
  blend_color : list Z
}.

Definition initial : world := World [0; 0; 0; 0] [0; 0; 0; 0] 1 1 [0; 0; 0; 0].

Definition GL_COLOR_BUFFER_BIT : Z := 16384.
Definition GL_DEPTH_TEST : Z := 2929.
Definition GL_VENDOR : Z := 7936.

(** IEEE single-precision bit patterns of 1.0 and 0.0. *)
Definition one_f : Z := 1065353216.
Definition zero_f : Z := 0.

Definition raw (v : value) : Z :=
  match v with VScalar _ z => z | VRef h => h | VView _ h => h end.

Definition linked (f : string) (vs : list value) (w : world) : nresult world :=
  if String.eqb f "glClearColor" then
    NReturns NVoid (World (map raw vs) (color_buffer w) (depth_mask w)
                          (next_list w) (blend_color w))
  else if String.eqb f "glClear" then
    match vs with
    | [VScalar _ mask] =>
        NReturns NVoid
          (if Z.eqb (Z.land mask GL_COLOR_BUFFER_BIT) 0 then w
           else World (clear_color w) (clear_color w) (depth_mask w)
                      (next_list w) (blend_color w))
    | _ => NReturns NVoid w
    end
  else if String.eqb f "glDepthMask" then
    match vs with
    | [VScalar _ flag] =>
        NReturns NVoid (World (clear_color w) (color_buffer w) (unsigned 8 flag)
                              (next_list w) (blend_color w))
    | _ => NReturns NVoid w
    end
  else if String.eqb f "glGenLists" then
    match vs with
    | [VScalar _ range] =>
        NReturns (NInt (next_list w))
          (World (clear_color w) (color_buffer w) (depth_mask w)
                 (next_list w + range) (blend_color w))
    | _ => NReturns (NInt 0) w
    end
  else if String.eqb f "glIsEnabled" then
    match vs with
    | [VScalar _ cap] =>
        NReturns (NInt (if Z.eqb cap GL_DEPTH_TEST then GL_TRUE else GL_FALSE)) w
    | _ => NReturns (NInt GL_FALSE) w
    end
  else if String.eqb f "glGetString" then
    match vs with
    | [VScalar _ name] =>
        NReturns (NString (if Z.eqb name GL_VENDOR then Some "Toy" else None)) w
    | _ => NReturns (NString None) w
    end
  else if String.eqb f "glReadPixels" then NFaults "access violation" w
  else NReturns NVoid w.

Definition native (t : target) (vs : list value) (w : world) : nresult world :=
  match t with
  | Linked f => linked f vs w
  | Address a proc =>
      if Z.eqb a 4096 && String.eqb proc "PFNGLBLENDCOLORPROC"
      then NReturns NVoid (World (clear_color w) (color_buffer w) (depth_mask w)
                                 (next_list w) (map raw vs))
      else NFaults "bad address" w
  end.

(** A runtime whose string constructor copies a C string and answers a
    null pointer with a null reference. *)
Definition NewStringUTF (p : option string) : jresult :=
  match p with Some s => JString s | None => JNullRef end.

Definition call (name : string) (args : list value) (w : world)
  : list event * outcome world :=
  match find_entry name with
  | Some e => run world native NewStringUTF e args w
  | None => ([], Stuck)
  end.

(** A library in a state where every call faults, as with no current
    graphics context. *)
Definition faulting (t : target) (vs : list value) (w : world) : nresult world :=
  NFaults "access violation" w.

End Toy.

(** ** Notions used in the statements *)

(** The row of a given name, for statements about one function. *)
Definition entry_named (name : string) : entry :=
  match find_entry name with
  | Some e => e
  | None => Entry DECLARE0 name [] []
  end.

(** A native result of the kind that the declaration of the native function
    promises: nothing from a [void] function, [GL_TRUE] or [GL_FALSE] from
    one that returns a [GLboolean], an integer, a string that is there. *)
Definition conforming (e : entry) (r : nvalue) : Prop :=
  match return_type e with
  | None => r = NVoid
  | Some jboolean => r = NInt GL_TRUE \/ r = NInt GL_FALSE
  | Some jstring => exists s, r = NString (Some s)
  | Some _ => exists z, r = NInt z
  end.

(** The managed result carries the value of the native one: the same 32
    bits for an integer, the same number for a boolean, the same characters
    for a string. *)
Definition same_value (r : nvalue) (v : jresult) : Prop :=
  match r, v with
  | NVoid, JVoid => True
  | NInt n, JInt z => unsigned 32 z = unsigned 32 n
  | NInt n, JBoolean b => b = n
  | NString (Some s), JString s' => s' = s
  | _, _ => False
  end.

(** The form of [return] that goes with each declared return type. *)
Definition returns_well (e : entry) : bool :=
  match return_type e, return_expr (e_body e) with
  | None, None => true
  | Some jint, Some (ECall _) => true
  | Some jboolean, Some (EIsGlTrue _) => true
  | Some jstring, Some (ENewStringUTF _) => true
  | _, _ => false
  end.

(** The entry points that reach the OpenGL function [f]. *)
Definition overloads (f : string) : list entry :=
  filter (fun e => String.eqb (native_name e) f) Gl_cpp.

(** The JNI descriptors of [byte[]], [int[]] and [short[]], in the order in
    which the file lists the variants. *)
Definition element_codes : list string := ["_3B"; "_3I"; "_3S"].

(** The scalar part of a signature suffix: all but its last three
    characters. *)
Definition scalar_part (s : string) : string :=
  substring 0 (String.length s - 3) s.

Definition variant_names (f scalars : string) : list string :=
  map (fun c => (f ++ "__" ++ scalars ++ c)%string) element_codes.

(** Several entry points for one function are its variants, in order. *)
Definition variants_ok (f : string) (l : list entry) : bool :=
  match l with
  | [] | [_] => true
  | e :: _ =>
      if list_eq_dec string_dec (map e_name l)
           (variant_names f (scalar_part (suffix e)))
      then true else false
  end.

(** Modelled from the spec: the view classes of [jniglue.h], which is not
    part of this file.  The helper "must map each element type to the
    correct native width (signed/unsigned byte, short, int, float, double)"
    and "must perform the signed->unsigned reinterpretation rather than a
    numeric conversion".  [view_width] is the width in bits of the native
    element type of a class, [view_elem] what native code reads where the
    managed array holds [z], [managed_elem] what the managed array holds
    where native code wrote [n]. *)
Definition view_width (cls : wrapper) : option Z :=
  match cls with
  | JbyteArray | JubyteArray => Some 8
  | JshortArray | JushortArray => Some 16
  | JintArray | JuintArray | JuintBuffer => Some 32
  | JfloatArray | JfloatBuffer => Some 32
  | JdoubleArray => Some 64
  | JvoidArray | JvoidBuffer => None
  end.

Definition view_unsigned (cls : wrapper) : bool :=
  match cls with
  | JubyteArray | JushortArray | JuintArray | JuintBuffer => true
  | _ => false
  end.

Definition is_array_view (cls : wrapper) : bool :=
  match cls with
  | JfloatBuffer | JuintBuffer | JvoidBuffer => false
  | _ => true
  end.

Definition view_elem (cls : wrapper) (z : Z) : Z :=
  match view_width cls with
  | Some w => if view_unsigned cls then unsigned w z else z
  | None => z
  end.

Definition managed_elem (cls : wrapper) (n : Z) : Z :=
  match view_width cls with
  | Some w => if view_unsigned cls then signed w n else n
  | None => n
  end.

(** The width in bits of the elements of a managed array type. *)
Definition array_width (t : jtype) : option Z :=
  match t with
  | jbyteArray => Some 8
  | jshortArray => Some 16
  | jintArray | jfloatArray => Some 32
  | jdoubleArray => Some 64
  | _ => None
  end.

(** An unsigned array view stands over a parameter that is a managed array
    of the same element width. *)
Definition unsigned_views_match (e : entry) : bool :=
  forallb (fun l =>
    match l with
    | (cls, _, src) =>
        if view_unsigned cls && is_array_view cls then
          existsb (fun p =>
            String.eqb (p_name p) src &&
            match array_width (p_type p), view_width cls with
            | Some a, Some b => Z.eqb a b
            | _, _ => false
            end) (e_params e)
        else true
    end) (locals_of (e_body e)).

(** Every identifier a body mentions is a parameter of its function or a
    view declared earlier in the same body. *)
Fixpoint scoped (known : list string) (body : list stmt) : bool :=
  match body with
  | [] => true
  | SLocal _ x src :: rest =>
      existsb (String.eqb src) known && scoped (x :: known) rest
  | SExpr c :: rest =>
      forallb (fun a => existsb (String.eqb a) known) (c_args c)
      && match c_callee c with
         | Direct _ => true
         | ViaPointer _ h => existsb (String.eqb h) known
         end
      && scoped known rest
  | SReturn e :: rest =>
      forallb (fun a => existsb (String.eqb a) known) (c_args (call_of e))
      && match c_callee (call_of e) with
         | Direct _ => true
         | ViaPointer _ h => existsb (String.eqb h) known
         end
      && scoped known rest
  end.

(** No function that a body calls by name is an exported entry point. *)
Definition calls_no_entry (e : entry) : bool :=
  forallb (fun c =>
    match c_callee c with
    | Direct f => negb (existsb (String.eqb f) (map symbol Gl_cpp))
    | ViaPointer _ _ => true
    end) (calls_of (e_body e)).

Definition self_contained (e : entry) : bool :=
  scoped (map p_name (params_of e)) (e_body e) && calls_no_entry e.

(** [GL/gl.h] declares [GLboolean] as [unsigned char]: a [jbyte] argument
    reaches a [GLboolean] parameter as its low eight bits, and the library
    takes zero for false and anything else for true. *)
Definition as_GLboolean (b : Z) : Z := unsigned 8 b.
Definition native_true (g : Z) : bool := negb (g =? GL_FALSE).

(** The functions with [GLboolean] parameters. *)
Definition mask_functions : list string := ["glColorMask"; "glDepthMask"; "glEdgeFlag"].

(** The functions that return a value, by the kind of value. *)
Definition integer_functions : list string := ["glGenLists"; "glGetError"; "glRenderMode"].
Definition boolean_functions : list string :=
  ["glAreTexturesResident"; "glIsEnabled"; "glIsList"; "glIsTexture"].
Definition string_functions : list string := ["glGetString"].

(** The return type that goes with each of the listed names. *)
Definition listed_kind (name : string) : option jtype :=
  if existsb (String.eqb name) integer_functions then Some jint
  else if existsb (String.eqb name) boolean_functions then Some jboolean
  else if existsb (String.eqb name) string_functions then Some jstring
  else None.

Definition kind_as_listed (e : entry) : bool :=
  match return_type e, listed_kind (e_name e) with
  | None, None => true
  | Some a, Some b => if jtype_eq_dec a b then true else false
  | _, _ => false
  end.

(** Every array or buffer parameter has a view declared over it. *)
Definition references_viewed (e : entry) : bool :=
  forallb (fun p => match view_class (e_body e) (p_name p) with
                    | Some _ => true
                    | None => negb (is_reference (p_type p))
                    end) (e_params e).

(** The JNI descriptor letter of a scalar parameter type. *)
Definition scalar_code (t : jtype) : string :=
  match t with
  | jbyte => "B" | jshort => "S" | jint | c_int => "I" | jlong => "J"
  | jfloat => "F" | jdouble => "D" | jboolean => "Z"
  | _ => ""
  end.

(** The descriptor letters of the scalar parameters of the function, in
    order: those of the expanded parameter list, with the [jlong pfunc] of
    [JNI_GL_DECLARE2]. *)
Definition scalar_descriptor (e : entry) : string :=
  fold_right (fun p acc => (scalar_code (p_type p) ++ acc)%string) "" (params_of e).

(** A name with a suffix is the name of the function, [__], the descriptor
    of the scalar parameters and one array descriptor. *)
Definition suffix_describes (e : entry) : bool :=
  if String.eqb (suffix e) "" then String.eqb (e_name e) (native_name e)
  else existsb (fun c =>
         String.eqb (e_name e)
           (native_name e ++ "__" ++ scalar_descriptor e ++ c)%string) element_codes.

(** ** Sequences of calls *)

Section Sessions.

Variable World : Type.
Variable native : target -> list value -> World -> nresult World.
Variable NewStringUTF : option string -> jresult.

(** The world a call leaves behind.  A call that is not well-formed does
    not happen.  Where a call ends undefined, the world is taken as it was
    when the end of the function was reached; what a program does after that
    point is not something this file can speak of. *)
Definition world_after (o : outcome World) (w : World) : World :=
  match o with
  | Returned _ w' => w'
  | Thrown _ w' => w'
  | Undefined _ w' => w'
  | Stuck => w
  end.

(** A managed program calls entry points one after another.  The only
    thing that passes from one call to the next is the world: the file
    declares no variable outside its functions. *)
Fixpoint session (calls : list (entry * list value)) (w : World)
  : list (list event * outcome World) :=
  match calls with
  | [] => []
  | (e, args) :: rest =>
      let r := run World native NewStringUTF e args w in
      r :: session rest (world_after (snd r) w)
  end.

Fixpoint world_at_end (calls : list (entry * list value)) (w : World) : World :=
  match calls with
  | [] => w
  | (e, args) :: rest =>
      world_at_end rest
        (world_after (snd (run World native NewStringUTF e args w)) w)
  end.

End Sessions.

(** [typed], as a function that computes. *)
Fixpoint typedb (ps : list param) (args : list value) : bool :=
  match ps, args with
  | [], [] => true
  | p :: ps', v :: args' => has_type (p_type p) v && typedb ps' args'
  | _, _ => false
  end.

(** ** Some of the functions, written out

    The functions that the interface description names, each as the
    function of its arguments and the world that its source text denotes,
    to set beside its row of the table.  [JNI_TRY n k] is a body that makes
    the native call [n] and goes on with [k], inside the fault barrier. *)

Section Written_out.

Variable World : Type.
Variable native : target -> list value -> World -> nresult World.
Variable NewStringUTF : option string -> jresult.

Definition JNI_TRY (n : nresult World) (k : nvalue -> World -> outcome World)
  : outcome World :=
  match n with
  | NReturns r w => k r w
  | NFaults what w => Thrown what w
  end.

Definition returns_nothing (_ : nvalue) (w : World) : outcome World :=
  Returned JVoid w.

(** The same in a function that has to return a value: its source has no
    [return] after the handler. *)
Definition JNI_TRY_RETURN (n : nresult World) (k : nvalue -> World -> outcome World)
  : outcome World :=
  match n with
  | NReturns r w => k r w
  | NFaults what w => Undefined what w
  end.

Definition glAccum (op value : Z) (w : World) : outcome World :=
  JNI_TRY (native (Linked "glAccum") [VScalar jint op; VScalar jfloat value] w)
    returns_nothing.

Definition glClear (mask : Z) (w : World) : outcome World :=
  JNI_TRY (native (Linked "glClear") [VScalar jint mask] w) returns_nothing.

Definition glClearColor (red green blue alpha : Z) (w : World) : outcome World :=
  JNI_TRY (native (Linked "glClearColor")
             [VScalar jfloat red; VScalar jfloat green;
              VScalar jfloat blue; VScalar jfloat alpha] w)
    returns_nothing.

Definition glLoadIdentity (w : World) : outcome World :=
  JNI_TRY (native (Linked "glLoadIdentity") [] w) returns_nothing.

Definition glFrustum (left right bottom top zNear zFar : Z) (w : World)
  : outcome World :=
  JNI_TRY (native (Linked "glFrustum")
             [VScalar jdouble left; VScalar jdouble right;
              VScalar jdouble bottom; VScalar jdouble top;
              VScalar jdouble zNear; VScalar jdouble zFar] w)
    returns_nothing.

Definition glBitmap (width height xorig yorig xmove ymove : Z) (jbitmap : Z)
    (w : World) : outcome World :=
  let bitmap := VView JubyteArray jbitmap in
  JNI_TRY (native (Linked "glBitmap")
             [VScalar jint width; VScalar jint height;
              VScalar jfloat xorig; VScalar jfloat yorig;
              VScalar jfloat xmove; VScalar jfloat ymove; bitmap] w)
    returns_nothing.

Definition glGenTextures (n : Z) (jtextures : Z) (w : World) : outcome World :=
  let textures := VView JuintArray jtextures in
  JNI_TRY (native (Linked "glGenTextures") [VScalar jint n; textures] w)
    returns_nothing.

Definition glDeleteTextures (n : Z) (jtextures : Z) (w : World) : outcome World :=
  let textures := VView JuintArray jtextures in
  JNI_TRY (native (Linked "glDeleteTextures") [VScalar jint n; textures] w)
    returns_nothing.

Definition glPixelMapusv (map mapsize : Z) (jvalues : Z) (w : World)
  : outcome World :=
  let values := VView JushortArray jvalues in
  JNI_TRY (native (Linked "glPixelMapusv")
             [VScalar jint map; VScalar jint mapsize; values] w)
    returns_nothing.

Definition glDepthMask (flag : Z) (w : World) : outcome World :=
  JNI_TRY (native (Linked "glDepthMask") [VScalar jbyte flag] w) returns_nothing.

Definition glEdgeFlag (flag : Z) (w : World) : outcome World :=
  JNI_TRY (native (Linked "glEdgeFlag") [VScalar jbyte flag] w) returns_nothing.

Definition glColorMask (red green blue alpha : Z) (w : World) : outcome World :=
  JNI_TRY (native (Linked "glColorMask")
             [VScalar jbyte red; VScalar jbyte green;
              VScalar jbyte blue; VScalar jbyte alpha] w)
    returns_nothing.

Definition glGenLists (range : Z) (w : World) : outcome World :=
  JNI_TRY_RETURN (native (Linked "glGenLists") [VScalar jint range] w)
    (fun r w' =>
       match r with
       | NInt z => Returned (JInt (signed 32 z)) w'
       | _ => Stuck
       end).

Definition glIsEnabled (cap : Z) (w : World) : outcome World :=
  JNI_TRY_RETURN (native (Linked "glIsEnabled") [VScalar jint cap] w)
    (fun r w' =>
       match r with
       | NInt z => Returned (JBoolean (if z =? GL_TRUE then JNI_TRUE else JNI_FALSE)) w'
       | _ => Stuck
       end).

Definition glGetString (name : Z) (w : World) : outcome World :=
  JNI_TRY_RETURN (native (Linked "glGetString") [VScalar c_int name] w)
    (fun r w' =>
       match r with
       | NString p => Returned (NewStringUTF p) w'
       | _ => Stuck
       end).

Definition nglBlendColor (pfunc red green blue alpha : Z) (w : World)
  : outcome World :=
  JNI_TRY (native (Address (toPointer pfunc) "PFNGLBLENDCOLORPROC")
             [VScalar jfloat red; VScalar jfloat green;
              VScalar jfloat blue; VScalar jfloat alpha] w)
    returns_nothing.

End Written_out.

(** ** Further notions: wiring, naming families, views *)

Definition callee_eq_dec (a b : callee) : {a = b} + {a <> b}.
Proof. decide equality; apply string_dec. Defined.

Definition call_eq_dec (a b : call) : {a = b} + {a <> b}.
Proof. decide equality; [apply (list_eq_dec string_dec) | apply callee_eq_dec]. Defined.

Definition expr_eq_dec (a b : expr) : {a = b} + {a <> b}.
Proof. decide equality; apply call_eq_dec. Defined.

Definition stmt_eq_dec (a b : stmt) : {a = b} + {a <> b}.
Proof.
  decide equality;
    try apply string_dec; try apply wrapper_eq_dec;
    try apply call_eq_dec; apply expr_eq_dec.
Defined.

Definition decl_eq_dec (a b : decl) : {a = b} + {a <> b}.
Proof. decide equality; apply jtype_eq_dec. Defined.

(** Two functions are wired alike: same declaring macro, same parameter
    names in the same order, same body, named after the same function. *)
Definition same_wiring (a b : entry) : bool :=
  (if decl_eq_dec (e_decl a) (e_decl b) then true else false)
  && (if list_eq_dec string_dec (map p_name (e_params a)) (map p_name (e_params b))
      then true else false)
  && (if list_eq_dec stmt_eq_dec (e_body a) (e_body b) then true else false)
  && String.eqb (native_name a) (native_name b).

(** Functions named after the same OpenGL function are wired alike. *)
Definition variants_wired_alike (a : entry) : bool :=
  forallb (fun b => if String.eqb (native_name a) (native_name b)
                    then same_wiring a b else true) Gl_cpp.

(** The component types that OpenGL names by a letter. *)
Inductive component : Set := CByte | CShort | CInt | CFloat | CDouble.

Definition letter (c : component) : string :=
  match c with
  | CByte => "b" | CShort => "s" | CInt => "i" | CFloat => "f" | CDouble => "d"
  end.

Definition scalar_of (c : component) : jtype :=
  match c with
  | CByte => jbyte | CShort => jshort | CInt => jint
  | CFloat => jfloat | CDouble => jdouble
  end.

Definition array_of (c : component) : jtype :=
  match c with
  | CByte => jbyteArray | CShort => jshortArray | CInt => jintArray
  | CFloat => jfloatArray | CDouble => jdoubleArray
  end.

Definition class_of (c : component) : wrapper :=
  match c with
  | CByte => JbyteArray | CShort => JshortArray | CInt => JintArray
  | CFloat => JfloatArray | CDouble => JdoubleArray
  end.

Definition digit (n : nat) : string :=
  match n with
  | 1%nat => "1" | 2%nat => "2" | 3%nat => "3" | 4%nat => "4" | _ => ""
  end.

(** The families named [<base><count><letter>] and [<base><count><letter>v]:
    glColor3f, glVertex2dv, ... *)
Definition component_bases : list string :=
  ["glColor"; "glVertex"; "glNormal"; "glTexCoord"; "glRasterPos"; "glEvalCoord"].
Definition component_counts : list nat := [1; 2; 3; 4]%nat.
Definition components : list component := [CByte; CShort; CInt; CFloat; CDouble].

Definition component_name (base : string) (n : nat) (c : component) (vector : bool)
  : string :=
  (base ++ digit n ++ letter c ++ if vector then "v" else "")%string.

(** What a function of a family has to look like: a direct entry point
    whose name has no suffix, with [n] scalar parameters of the component
    type and no view; or, in vector form, with one array parameter of the
    component type under a view of the component's class. *)
Definition component_shape (e : entry) (n : nat) (c : component) (vector : bool)
  : bool :=
  negb (is_extension e) && String.eqb (native_name e) (e_name e) &&
  if vector then
    match e_params e, locals_of (e_body e) with
    | [p], [(cls, _, src)] =>
        (if jtype_eq_dec (p_type p) (array_of c) then true else false)
        && (if wrapper_eq_dec cls (class_of c) then true else false)
        && String.eqb src (p_name p)
    | _, _ => false
    end
  else
    (if list_eq_dec jtype_eq_dec (map p_type (e_params e)) (repeat (scalar_of c) n)
     then true else false)
    && match locals_of (e_body e) with [] => true | _ => false end.

Definition family_members : list (string * (nat * (component * bool))) :=
  list_prod component_bases
    (list_prod component_counts (list_prod components [false; true])).

Definition family_ok (e : entry) : bool :=
  forallb (fun m =>
    match m with
    | (base, (n, (c, vector))) =>
        if String.eqb (e_name e) (component_name base n c vector)
        then component_shape e n c vector else true
    end) family_members.

(** Which view classes can stand over a parameter of which type. *)
Definition view_fits (t : jtype) (cls : wrapper) : bool :=
  match t, cls with
  | jbyteArray, (JbyteArray | JubyteArray | JvoidArray) => true
  | jshortArray, (JshortArray | JushortArray | JvoidArray) => true
  | jintArray, (JintArray | JuintArray | JvoidArray) => true
  | jfloatArray, JfloatArray => true
  | jdoubleArray, JdoubleArray => true
  | jarray, JvoidArray => true
  | jobject, (JfloatBuffer | JuintBuffer | JvoidBuffer) => true
  | _, _ => false
  end.

Definition views_over (body : list stmt) (src : string) : list wrapper :=
  map (fun l => fst (fst l))
      (filter (fun l => String.eqb (snd l) src) (locals_of body)).

(** Over each parameter: one fitting view if it is an array or a buffer,
    none if it is a scalar; and every view is over some parameter and named
    as the parameter without its leading [j]. *)
Definition views_ok (e : entry) : bool :=
  forallb (fun p =>
    match views_over (e_body e) (p_name p) with
    | [] => negb (is_reference (p_type p))
    | [cls] => view_fits (p_type p) cls
    | _ => false
    end) (e_params e)
  && forallb (fun l =>
       match l with
       | (_, x, src) =>
           existsb (fun p => String.eqb (p_name p) src) (e_params e)
           && String.eqb src ("j" ++ x)
       end) (locals_of (e_body e)).

(** The functions that take a direct buffer. *)
Definition buffer_functions : list string :=
  ["glColorPointer"; "glEdgeFlagPointer"; "glFeedbackBuffer"; "glIndexPointer";
   "glInterleavedArrays"; "glNormalPointer"; "glSelectBuffer";
   "glTexCoordPointer"; "glVertexPointer"].

Definition takes_buffer (e : entry) : bool :=
  existsb (fun p => if jtype_eq_dec (p_type p) jobject then true else false)
          (e_params e).

Fixpoint ends_with (suffix s : string) : bool :=
  String.eqb s suffix ||
  match s with
  | EmptyString => false
  | String _ rest => ends_with suffix rest
  end.

(** A function whose name ends in [Pointer] has integer parameters followed
    by one buffer, which it views as untyped memory. *)
Definition pointer_shape (e : entry) : bool :=
  match rev (e_params e) with
  | p :: before =>
      (if jtype_eq_dec (p_type p) jobject then true else false)
      && forallb (fun q => if jtype_eq_dec (p_type q) jint then true else false) before
      && match view_class (e_body e) (p_name p) with
         | Some JvoidBuffer => true
         | _ => false
         end
  | [] => false
  end.

Definition buffers_ok (e : entry) : bool :=
  Bool.eqb (takes_buffer e) (existsb (String.eqb (e_name e)) buffer_functions)
  && (if ends_with "Pointer" (e_name e) then pointer_shape e else true).

(** An entry point that is not [glGetError] is not named after it. *)
Definition leaves_error_flag (e : entry) : bool :=
  String.eqb (e_name e) "glGetError" || negb (String.eqb (native_name e) "glGetError").

Section Native_sequences.

Variable World : Type.
Variable native : target -> list value -> World -> nresult World.

(** The world a native call leaves, whether it returns or faults. *)
Definition world_of (n : nresult World) : World :=
  match n with
  | NReturns _ w => w
  | NFaults _ w => w
  end.

(** The native calls behind a sequence of entry-point calls, made one after
    another without the binding. *)
Fixpoint native_sequence (calls : list (entry * list value)) (w : World) : World :=
  match calls with
  | [] => w
  | (e, args) :: rest =>
      match native_call e args with
      | Some (t, vs) => native_sequence rest (world_of (native t vs w))
      | None => native_sequence rest w
      end
  end.

End Native_sequences.

(** ** The native methods that the source lists

    The comment that ends the file (from line 2350) lists the Java
    declarations of the native methods of OpenGL 1.2, each [private static
    native void], in this order.  Java types are written as the JNI types
    they are passed as: [int] as [jint], [long] as [jlong], [float] as
    [jfloat], [boolean] as [jboolean], [byte[]], [int[]], [short[]] and
    [float[]] as the array types. *)

Record native_decl : Set := NativeDecl { n_name : string; n_params : list param }.

Definition declared_natives : list native_decl := [
  NativeDecl "nglDrawRangeElements"
    [Param jlong "pfunc"; Param jint "mode"; Param jint "start"; Param jint "end"; Param jint "count"; Param jint "type"; Param jbyteArray "indices"];
  NativeDecl "nglDrawRangeElements"
    [Param jlong "pfunc"; Param jint "mode"; Param jint "start"; Param jint "end"; Param jint "count"; Param jint "type"; Param jintArray "indices"];
  NativeDecl "nglDrawRangeElements"
    [Param jlong "pfunc"; Param jint "mode"; Param jint "start"; Param jint "end"; Param jint "count"; Param jint "type"; Param jshortArray "indices"];
  NativeDecl "nglColorTable"
    [Param jlong "pfunc"; Param jint "target"; Param jint "internalformat"; Param jint "width"; Param jint "format"; Param jint "type"; Param jbyteArray "table"];
  NativeDecl "nglColorTable"
    [Param jlong "pfunc"; Param jint "target"; Param jint "internalformat"; Param jint "width"; Param jint "format"; Param jint "type"; Param jintArray "table"];
  NativeDecl "nglColorTable"
    [Param jlong "pfunc"; Param jint "target"; Param jint "internalformat"; Param jint "width"; Param jint "format"; Param jint "type"; Param jshortArray "table"];
  NativeDecl "nglColorTableParameterfv"
    [Param jlong "pfunc"; Param jint "target"; Param jint "pname"; Param jfloatArray "params"];
  NativeDecl "nglColorTableParameteriv"
    [Param jlong "pfunc"; Param jint "target"; Param jint "pname"; Param jintArray "params"];
  NativeDecl "nglCopyColorTable"
    [Param jlong "pfunc"; Param jint "target"; Param jint "internalformat"; Param jint "x"; Param jint "y"; Param jint "width"];
  NativeDecl "nglGetColorTable"
    [Param jlong "pfunc"; Param jint "target"; Param jint "format"; Param jint "type"; Param jbyteArray "table"];
  NativeDecl "nglGetColorTable"
    [Param jlong "pfunc"; Param jint "target"; Param jint "format"; Param jint "type"; Param jintArray "table"];
  NativeDecl "nglGetColorTable"
    [Param jlong "pfunc"; Param jint "target"; Param jint "format"; Param jint "type"; Param jshortArray "table"];
  NativeDecl "nglGetColorTableParameterfv"
    [Param jlong "pfunc"; Param jint "target"; Param jint "pname"; Param jfloatArray "params"];
  NativeDecl "nglGetColorTableParameteriv"
    [Param jlong "pfunc"; Param jint "target"; Param jint "pname"; Param jintArray "params"];
  NativeDecl "nglColorSubTable"
    [Param jlong "pfunc"; Param jint "target"; Param jint "start"; Param jint "count"; Param jint "format"; Param jint "type"; Param jbyteArray "data"];
  NativeDecl "nglColorSubTable"
    [Param jlong "pfunc"; Param jint "target"; Param jint "start"; Param jint "count"; Param jint "format"; Param jint "type"; Param jintArray "data"];
  NativeDecl "nglColorSubTable"
    [Param jlong "pfunc"; Param jint "target"; Param jint "start"; Param jint "count"; Param jint "format"; Param jint "type"; Param jshortArray "data"];
  NativeDecl "nglCopyColorSubTable"
    [Param jlong "pfunc"; Param jint "target"; Param jint "start"; Param jint "x"; Param jint "y"; Param jint "width"];
  NativeDecl "nglConvolutionFilter1D"
    [Param jlong "pfunc"; Param jint "target"; Param jint "internalformat"; Param jint "width"; Param jint "format"; Param jint "type"; Param jbyteArray "image"];
  NativeDecl "nglConvolutionFilter1D"
    [Param jlong "pfunc"; Param jint "target"; Param jint "internalformat"; Param jint "width"; Param jint "format"; Param jint "type"; Param jfloatArray "image"];
  NativeDecl "nglConvolutionFilter1D"
    [Param jlong "pfunc"; Param jint "target"; Param jint "internalformat"; Param jint "width"; Param jint "format"; Param jint "type"; Param jintArray "image"];
  NativeDecl "nglConvolutionFilter1D"
    [Param jlong "pfunc"; Param jint "target"; Param jint "internalformat"; Param jint "width"; Param jint "format"; Param jint "type"; Param jshortArray "image"];
  NativeDecl "nglConvolutionFilter2D"
    [Param jlong "pfunc"; Param jint "target"; Param jint "internalformat"; Param jint "width"; Param jint "height"; Param jint "format"; Param jint "type"; Param jbyteArray "image"];
  NativeDecl "nglConvolutionFilter2D"
    [Param jlong "pfunc"; Param jint "target"; Param jint "internalformat"; Param jint "width"; Param jint "height"; Param jint "format"; Param jint "type"; Param jfloatArray "image"];
  NativeDecl "nglConvolutionFilter2D"
    [Param jlong "pfunc"; Param jint "target"; Param jint "internalformat"; Param jint "width"; Param jint "height"; Param jint "format"; Param jint "type"; Param jintArray "image"];
  NativeDecl "nglConvolutionFilter2D"
    [Param jlong "pfunc"; Param jint "target"; Param jint "internalformat"; Param jint "width"; Param jint "height"; Param jint "format"; Param jint "type"; Param jshortArray "image"];
  NativeDecl "nglConvolutionParameterf"
    [Param jlong "pfunc"; Param jint "target"; Param jint "pname"; Param jfloat "param"];
  NativeDecl "nglConvolutionParameterfv"
    [Param jlong "pfunc"; Param jint "target"; Param jint "pname"; Param jfloatArray "params"];
  NativeDecl "nglConvolutionParameteri"
    [Param jlong "pfunc"; Param jint "target"; Param jint "pname"; Param jint "param"];
  NativeDecl "nglConvolutionParameteriv"
    [Param jlong "pfunc"; Param jint "target"; Param jint "pname"; Param jintArray "params"];
  NativeDecl "nglCopyConvolutionFilter1D"
    [Param jlong "pfunc"; Param jint "target"; Param jint "internalformat"; Param jint "x"; Param jint "y"; Param jint "width"];
  NativeDecl "nglCopyConvolutionFilter2D"
    [Param jlong "pfunc"; Param jint "target"; Param jint "internalformat"; Param jint "x"; Param jint "y"; Param jint "width"; Param jint "height"];
  NativeDecl "nglGetConvolutionFilter"
    [Param jlong "pfunc"; Param jint "target"; Param jint "format"; Param jint "type"; Param jbyteArray "image"];
  NativeDecl "nglGetConvolutionFilter"
    [Param jlong "pfunc"; Param jint "target"; Param jint "format"; Param jint "type"; Param jfloatArray "image"];
  NativeDecl "nglGetConvolutionFilter"
    [Param jlong "pfunc"; Param jint "target"; Param jint "format"; Param jint "type"; Param jintArray "image"];
  NativeDecl "nglGetConvolutionFilter"
    [Param jlong "pfunc"; Param jint "target"; Param jint "format"; Param jint "type"; Param jshortArray "image"];
  NativeDecl "nglGetConvolutionParameterfv"
    [Param jlong "pfunc"; Param jint "target"; Param jint "pname"; Param jfloatArray "params"];
  NativeDecl "nglGetConvolutionParameteriv"
    [Param jlong "pfunc"; Param jint "target"; Param jint "pname"; Param jintArray "params"];
  NativeDecl "nglGetSeparableFilter"
    [Param jlong "pfunc"; Param jint "target"; Param jint "format"; Param jint "type"; Param jbyteArray "row"; Param jbyteArray "column"; Param jbyteArray "span"];
  NativeDecl "nglGetSeparableFilter"
    [Param jlong "pfunc"; Param jint "target"; Param jint "format"; Param jint "type"; Param jfloatArray "row"; Param jfloatArray "column"; Param jfloatArray "span"];
  NativeDecl "nglGetSeparableFilter"
    [Param jlong "pfunc"; Param jint "target"; Param jint "format"; Param jint "type"; Param jintArray "row"; Param jintArray "column"; Param jintArray "span"];
  NativeDecl "nglGetSeparableFilter"
    [Param jlong "pfunc"; Param jint "target"; Param jint "format"; Param jint "type"; Param jshortArray "row"; Param jshortArray "column"; Param jshortArray "span"];
  NativeDecl "nglSeparableFilter2D"
    [Param jlong "pfunc"; Param jint "target"; Param jint "internalformat"; Param jint "width"; Param jint "height"; Param jint "format"; Param jint "type"; Param jbyteArray "row"; Param jbyteArray "column"];
  NativeDecl "nglSeparableFilter2D"
    [Param jlong "pfunc"; Param jint "target"; Param jint "internalformat"; Param jint "width"; Param jint "height"; Param jint "format"; Param jint "type"; Param jfloatArray "row"; Param jfloatArray "column"];
  NativeDecl "nglSeparableFilter2D"
    [Param jlong "pfunc"; Param jint "target"; Param jint "internalformat"; Param jint "width"; Param jint "height"; Param jint "format"; Param jint "type"; Param jintArray "row"; Param jintArray "column"];
  NativeDecl "nglSeparableFilter2D"
    [Param jlong "pfunc"; Param jint "target"; Param jint "internalformat"; Param jint "width"; Param jint "height"; Param jint "format"; Param jint "type"; Param jshortArray "row"; Param jshortArray "column"];
  NativeDecl "nglGetHistogram"
    [Param jlong "pfunc"; Param jint "target"; Param jboolean "reset"; Param jint "format"; Param jint "type"; Param jbyteArray "values"];
  NativeDecl "nglGetHistogram"
    [Param jlong "pfunc"; Param jint "target"; Param jboolean "reset"; Param jint "format"; Param jint "type"; Param jfloatArray "values"];
  NativeDecl "nglGetHistogram"
    [Param jlong "pfunc"; Param jint "target"; Param jboolean "reset"; Param jint "format"; Param jint "type"; Param jintArray "values"];
  NativeDecl "nglGetHistogram"
    [Param jlong "pfunc"; Param jint "target"; Param jboolean "reset"; Param jint "format"; Param jint "type"; Param jshortArray "values"];
  NativeDecl "nglGetHistogramParameterfv"
    [Param jlong "pfunc"; Param jint "target"; Param jint "pname"; Param jfloatArray "params"];
  NativeDecl "nglGetHistogramParameteriv"
    [Param jlong "pfunc"; Param jint "target"; Param jint "pname"; Param jintArray "params"];
  NativeDecl "nglGetMinmax"
    [Param jlong "pfunc"; Param jint "target"; Param jboolean "reset"; Param jint "format"; Param jint "type"; Param jbyteArray "values"];
  NativeDecl "nglGetMinmax"
    [Param jlong "pfunc"; Param jint "target"; Param jboolean "reset"; Param jint "format"; Param jint "type"; Param jfloatArray "values"];
  NativeDecl "nglGetMinmax"
    [Param jlong "pfunc"; Param jint "target"; Param jboolean "reset"; Param jint "format"; Param jint "type"; Param jintArray "values"];
  NativeDecl "nglGetMinmax"
    [Param jlong "pfunc"; Param jint "target"; Param jboolean "reset"; Param jint "format"; Param jint "type"; Param jshortArray "values"];
  NativeDecl "nglGetMinmaxParameterfv"
    [Param jlong "pfunc"; Param jint "target"; Param jint "pname"; Param jfloatArray "params"];
  NativeDecl "nglGetMinmaxParameteriv"
    [Param jlong "pfunc"; Param jint "target"; Param jint "pname"; Param jintArray "params"];
  NativeDecl "nglHistogram"
    [Param jlong "pfunc"; Param jint "target"; Param jint "width"; Param jint "internalformat"; Param jboolean "sink"];
  NativeDecl "nglMinmax"
    [Param jlong "pfunc"; Param jint "target"; Param jint "internalformat"; Param jboolean "sink"];
  NativeDecl "nglResetHistogram"
    [Param jlong "pfunc"; Param jint "target"];
  NativeDecl "nglResetMinmax"
    [Param jlong "pfunc"; Param jint "target"];
  NativeDecl "nglTexImage3D"
    [Param jlong "pfunc"; Param jint "target"; Param jint "level"; Param jint "internalformat"; Param jint "width"; Param jint "height"; Param jint "depth"; Param jint "border"; Param jint "format"; Param jint "type"; Param jbyteArray "pixels"];
  NativeDecl "nglTexImage3D"
    [Param jlong "pfunc"; Param jint "target"; Param jint "level"; Param jint "internalformat"; Param jint "width"; Param jint "height"; Param jint "depth"; Param jint "border"; Param jint "format"; Param jint "type"; Param jintArray "pixels"];
  NativeDecl "nglTexImage3D"
    [Param jlong "pfunc"; Param jint "target"; Param jint "level"; Param jint "internalformat"; Param jint "width"; Param jint "height"; Param jint "depth"; Param jint "border"; Param jint "format"; Param jint "type"; Param jshortArray "pixels"];
  NativeDecl "nglTexSubImage3D"
    [Param jlong "pfunc"; Param jint "target"; Param jint "level"; Param jint "xoffset"; Param jint "yoffset"; Param jint "zoffset"; Param jint "width"; Param jint "height"; Param jint "depth"; Param jint "format"; Param jint "type"; Param jbyteArray "pixels"];
  NativeDecl "nglTexSubImage3D"
    [Param jlong "pfunc"; Param jint "target"; Param jint "level"; Param jint "xoffset"; Param jint "yoffset"; Param jint "zoffset"; Param jint "width"; Param jint "height"; Param jint "depth"; Param jint "format"; Param jint "type"; Param jintArray "pixels"];
  NativeDecl "nglTexSubImage3D"
    [Param jlong "pfunc"; Param jint "target"; Param jint "level"; Param jint "xoffset"; Param jint "yoffset"; Param jint "zoffset"; Param jint "width"; Param jint "height"; Param jint "depth"; Param jint "format"; Param jint "type"; Param jshortArray "pixels"];
  NativeDecl "nglCopyTexSubImage3D"
    [Param jlong "pfunc"; Param jint "target"; Param jint "level"; Param jint "xoffset"; Param jint "yoffset"; Param jint "zoffset"; Param jint "x"; Param jint "y"; Param jint "width"; Param jint "height"]
].

(** The JNI descriptor of an array type, as the comment at line 103 of the
    source spells it: [_3] for the bracket, then the element letter. *)
Definition array_code (t : jtype) : string :=
  match t with
  | jbyteArray => "_3B" | jshortArray => "_3S" | jintArray => "_3I"
  | jfloatArray => "_3F" | jdoubleArray => "_3D"
  | _ => ""
  end.

Definition is_typed_array (t : jtype) : bool := negb (String.eqb (array_code t) "").

(** The descriptor of a parameter list, and the part of it that belongs to
    the arrays. *)
Definition descriptor (ps : list param) : string :=
  fold_right (fun p acc => (scalar_code (p_type p) ++ array_code (p_type p) ++ acc)%string)
             "" ps.

Definition array_descriptor (ps : list param) : string :=
  fold_right (fun p acc => (array_code (p_type p) ++ acc)%string) "" ps.

(** The two names under which JNI looks for the function of a native
    method: the class prefix and the method name; and, for an overloaded
    method, that followed by [__] and the descriptor of all its parameters. *)
Definition jni_short_name (d : native_decl) : string :=
  ("Java_edu_mines_jves_opengl_Gl_" ++ n_name d)%string.

Definition jni_long_name (d : native_decl) : string :=
  (jni_short_name d ++ "__" ++ descriptor (n_params d))%string.

(** Two parameter lists that differ at most in the element types of their
    arrays. *)
Fixpoint same_but_elements (a b : list param) : bool :=
  match a, b with
  | [], [] => true
  | p :: a', q :: b' =>
      ((if jtype_eq_dec (p_type p) (p_type q) then true else false)
       || (is_typed_array (p_type p) && is_typed_array (p_type q)))
      && same_but_elements a' b'
  | _, _ => false
  end.

(** A listed method that has another listed method of the same name whose
    parameters differ from its own only in array element types. *)
Definition overloaded (d : native_decl) : bool :=
  existsb (fun d' =>
    String.eqb (n_name d) (n_name d')
    && same_but_elements (n_params d) (n_params d')
    && negb (String.eqb (descriptor (n_params d)) (descriptor (n_params d'))))
    declared_natives.

(** The file has an entry point for a listed method: an extension entry
    point named after the same function, whose name ends in the array
    descriptor of the method. *)
Definition exposed (d : native_decl) : bool :=
  existsb (fun e =>
    is_extension e
    && String.eqb ("n" ++ native_name e) (n_name d)
    && ends_with (array_descriptor (n_params d)) (e_name e)) Gl_cpp.

(** Every listed overload has its entry point. *)
Definition every_overload_exposed : Prop :=
  forall d, In d declared_natives -> overloaded d = true -> exposed d = true.

Definition nglColorTable_bytes : native_decl :=
  NativeDecl "nglColorTable"
    [Param jlong "pfunc"; Param jint "target"; Param jint "internalformat";
     Param jint "width"; Param jint "format"; Param jint "type";
     Param jbyteArray "table"].

Definition exposure_ok (d : native_decl) : bool :=
  if overloaded d
  then Bool.eqb (exposed d) (String.eqb (n_name d) "nglDrawRangeElements")
  else true.

(** The entry point written for a listed method carries the descriptor of
    the parameters after [pfunc]; neither name that JNI derives from the
    declaration is exported. *)
Definition unlinkable (d : native_decl) : bool :=
  negb (existsb (String.eqb (jni_long_name d)) (map symbol Gl_cpp))
  && negb (existsb (String.eqb (jni_short_name d)) (map symbol Gl_cpp))
  && (if String.eqb (n_name d) "nglDrawRangeElements"
      then existsb (String.eqb (jni_short_name d ++ "__" ++ descriptor (tl (n_params d))))
                   (map symbol Gl_cpp)
      else true).

(** * Properties *)

(** ** Soundness of summaries *)

Lemma distinct_NoDup l : distinct l = true -> NoDup l.
Proof.
  induction l as [|x l IH]; simpl; intros H.
  - constructor.
  - apply andb_true_iff in H as [Hx Hl]. constructor; [|auto].
    intros Hin. apply negb_true_iff in Hx.
    assert (existsb (String.eqb x) l = true) as Hex.
    { apply existsb_exists. exists x. split; [exact Hin | apply String.eqb_refl]. }
    congruence.
Qed.

Lemma Gl_cpp_forwards : forallb forwards Gl_cpp = true.
Proof. vm_compute. reflexivity. Qed.

Lemma bind_typed ps : forall args rho, bind ps args = Some rho -> typed ps args.
Proof.
  induction ps as [|p ps IH]; intros [|v args] rho H; simpl in H; try discriminate.
  - constructor.
  - destruct (has_type (p_type p) v) eqn:Hv; [|discriminate].
    destruct (bind ps args) as [rho'|] eqn:Hb; [|discriminate].
    constructor; [exact Hv | eapply IH; exact Hb].
Qed.

Lemma typed_length ps args : typed ps args -> List.length ps = List.length args.
Proof. induction 1; simpl; congruence. Qed.

Lemma typed_bind ps args : typed ps args -> exists rho, bind ps args = Some rho.
Proof.
  induction 1 as [|p v ps args Hv _ [rho IH]]; simpl.
  - eexists; reflexivity.
  - rewrite Hv, IH. eexists; reflexivity.
Qed.

Lemma bind_agree ps : forall args rho pre,
  bind ps args = Some rho ->
  agree (pre ++ args) (positions ps (List.length pre)) rho.
Proof.
  induction ps as [|p ps IH]; intros [|v args] rho pre H; simpl in H; try discriminate.
  - injection H as <-. constructor.
  - destruct (has_type (p_type p) v); [|discriminate].
    destruct (bind ps args) as [rho'|] eqn:Hb; [|discriminate].
    injection H as <-. simpl. constructor.
    + split; [reflexivity|]. simpl.
      rewrite nth_error_app2 by lia. now rewrite Nat.sub_diag.
    + specialize (IH args rho' (pre ++ [v]) Hb).
      rewrite <- app_assoc in IH. simpl in IH.
      rewrite List.length_app in IH. simpl in IH.
      now rewrite Nat.add_1_r in IH.
Qed.

Lemma typed_nth ps args i p :
  typed ps args -> nth_error ps i = Some p ->
  exists v, nth_error args i = Some v /\ has_type (p_type p) v = true.
Proof.
  intros H. revert i. induction H as [|q v ps args Hv _ IH]; intros [|i] Hi;
    simpl in *; try discriminate.
  - injection Hi as <-. eauto.
  - eauto.
Qed.

Lemma has_type_reference t v :
  is_reference t = true -> has_type t v = true -> exists h, v = VRef h.
Proof.
  intros Ht Hv. destruct v as [t' z|h|cls h].
  - unfold has_type in Hv. destruct (jtype_eq_dec t t'); [|discriminate].
    destruct t; simpl in Ht, Hv; discriminate.
  - eauto.
  - discriminate.
Qed.

Lemma has_type_jlong v :
  has_type jlong v = true -> exists a, v = VScalar jlong a /\ in_signed 64 a = true.
Proof.
  destruct v as [t' z|h|cls h]; intros Hv; try discriminate.
  unfold has_type in Hv.
  destruct (jtype_eq_dec jlong t') as [<-|]; [|discriminate]. eauto.
Qed.

Lemma lookup_agree args sigma rho x :
  agree args sigma rho ->
  match lookup x sigma with
  | Some s => exists v, lookup x rho = Some v /\ slot_val args s = Some v
  | None => lookup x rho = None
  end.
Proof.
  induction 1 as [|[y s] [y' v] sigma rho [Hn Hs] _ IH]; simpl in *.
  - reflexivity.
  - subst y'. destruct (String.eqb x y); [eauto | exact IH].
Qed.

Lemma lookups_agree args sigma rho xs : forall sl,
  agree args sigma rho ->
  those (map (fun x => lookup x sigma) xs) = Some sl ->
  those (map (fun x => lookup x rho) xs) = those (map (slot_val args) sl).
Proof.
  induction xs as [|x xs IH]; intros sl Ha H; simpl in *.
  - injection H as <-. reflexivity.
  - pose proof (lookup_agree args sigma rho x Ha) as Hx.
    destruct (lookup x sigma) as [s|]; [|discriminate].
    destruct (those (map (fun x => lookup x sigma) xs)) as [sl'|] eqn:Hs; [|discriminate].
    injection H as <-. destruct Hx as [v [Hv Hsv]].
    simpl. rewrite Hv, Hsv. now rewrite (IH sl' Ha eq_refl).
Qed.

Lemma summarize_body_result ps body : forall sigma s,
  summarize_body ps sigma body = Some s -> s_result s = return_expr body.
Proof.
  induction body as [|st rest IH]; intros sigma s H; simpl in H; [discriminate|].
  destruct st as [cls x src|c|e]; simpl.
  - destruct (lookup src sigma) as [[i|cls' i]|]; try discriminate.
    destruct (type_at ps i) as [t|]; [|discriminate].
    destruct (is_reference t); [|discriminate]. eapply IH; exact H.
  - destruct rest; [|discriminate]. unfold summarize_call in H.
    destruct (summarize_callee ps sigma (c_callee c)); [|discriminate].
    destruct (those _); [|discriminate]. now injection H as <-.
  - unfold summarize_call in H.
    destruct (summarize_callee ps sigma (c_callee (call_of e))); [|discriminate].
    destruct (those _); [|discriminate]. now injection H as <-.
Qed.

Lemma forward_slots body ps args :
  typed ps args ->
  forall pre,
    forallb (fun p => match view_class body (p_name p) with
                      | Some _ => is_reference (p_type p)
                      | None => true
                      end) ps = true ->
    those (map (slot_val (pre ++ args)) (expected_slots body ps (List.length pre)))
    = Some (forward body ps args).
Proof.
  induction 1 as [|p v ps args Hv Ht IH]; intros pre Hrefs; simpl in *.
  - reflexivity.
  - apply andb_true_iff in Hrefs as [Hp Hrest].
    specialize (IH (pre ++ [v]) Hrest).
    rewrite <- app_assoc, List.length_app in IH. simpl in IH.
    rewrite Nat.add_1_r in IH.
    assert (Hn : nth_error (pre ++ v :: args) (List.length pre) = Some v).
    { rewrite nth_error_app2 by lia. now rewrite Nat.sub_diag. }
    unfold marshal. destruct (view_class body (p_name p)) as [cls|]; simpl.
    + destruct (has_type_reference _ _ Hp Hv) as [h ->].
      rewrite Hn, IH. reflexivity.
    + rewrite Hn, IH. destruct v; reflexivity.
Qed.

Section Soundness.

Variable World : Type.
Variable native : target -> list value -> World -> nresult World.
Variable NewStringUTF : option string -> jresult.

Let xexec := exec World native NewStringUTF.
Let xdenote := denote World native NewStringUTF.
Let xdeliver := deliver World NewStringUTF.

Lemma resolve_agree ps args sigma rho c t :
  typed ps args -> agree args sigma rho ->
  summarize_callee ps sigma c = Some t ->
  resolve c rho = target_val args t.
Proof.
  intros Ht Ha H. destruct c as [f|proc handle]; simpl in *.
  - injection H as <-. reflexivity.
  - pose proof (lookup_agree args sigma rho handle Ha) as Hx.
    destruct (lookup handle sigma) as [[i|cls i]|]; try discriminate.
    unfold type_at in H.
    destruct (nth_error ps i) as [p|] eqn:Hp; simpl in H; [|discriminate].
    destruct (p_type p) eqn:Hpt; try discriminate.
    injection H as <-. destruct Hx as [v [Hv Hsv]]. simpl in *.
    destruct (typed_nth _ _ _ _ Ht Hp) as [v' [Hv' Hty]].
    rewrite Hpt in Hty. destruct (has_type_jlong _ Hty) as [a [-> _]].
    rewrite Hv' in Hsv. injection Hsv as <-.
    now rewrite Hv, Hv'.
Qed.

Lemma invoke_agree ps args sigma rho c res s w :
  typed ps args -> agree args sigma rho ->
  summarize_call ps sigma c res = Some s ->
  s_result s = res /\
  exists t vs,
    target_val args (s_target s) = Some t /\
    those (map (slot_val args) (s_slots s)) = Some vs /\
    invoke World native c rho w = Some (Invoke t vs, native t vs w).
Proof.
  intros Ht Ha H. unfold summarize_call in H.
  destruct (summarize_callee ps sigma (c_callee c)) as [t|] eqn:Hc; [|discriminate].
  destruct (those (map (fun x => lookup x sigma) (c_args c))) as [sl|] eqn:Hs;
    [|discriminate].
  injection H as <-. simpl. split; [reflexivity|].
  pose proof (resolve_agree _ _ _ _ _ _ Ht Ha Hc) as Hr.
  pose proof (lookups_agree _ _ _ _ _ Ha Hs) as Hl.
  unfold invoke. rewrite Hr, Hl.
  assert (Hex : exists vs, those (map (slot_val args) sl) = Some vs).
  { clear - Ha Hs. revert sl Hs.
    induction (c_args c) as [|x xs IH]; intros sl Hs; simpl in Hs.
    - injection Hs as <-. simpl. eauto.
    - pose proof (lookup_agree args sigma rho x Ha) as Hx.
      destruct (lookup x sigma) as [s|]; [|discriminate].
      destruct (those (map (fun x => lookup x sigma) xs)) as [sl'|]; [|discriminate].
      injection Hs as <-. destruct Hx as [v [_ Hv]].
      destruct (IH sl' eq_refl) as [vs Hvs]. simpl. rewrite Hv, Hvs. simpl. eauto. }
  destruct Hex as [vs Hvs]. rewrite Hvs.
  assert (Htv : exists t', target_val args t = Some t').
  { destruct c as [[f|proc handle] xs]; simpl in Hc.
    - injection Hc as <-. simpl. eauto.
    - rewrite <- Hr. simpl.
      pose proof (lookup_agree args sigma rho handle Ha) as Hx.
      destruct (lookup handle sigma) as [[i|cls i]|]; try discriminate.
      unfold type_at in Hc.
      destruct (nth_error ps i) as [p|] eqn:Hp; simpl in Hc; [|discriminate].
      destruct (p_type p) eqn:Hpt; try discriminate.
      destruct Hx as [v [Hv Hsv]]. simpl in Hsv.
      destruct (typed_nth _ _ _ _ Ht Hp) as [v' [Hv' Hty]].
      rewrite Hpt in Hty. destruct (has_type_jlong _ Hty) as [a [-> _]].
      rewrite Hv' in Hsv. injection Hsv as <-. rewrite Hv. eauto. }
  destruct Htv as [t' Ht']. rewrite Ht'. eauto.
Qed.

(** A body that has a summary does what its summary says. *)
Lemma exec_denote rt ps args s w : typed ps args ->
  forall body sigma rho,
    agree args sigma rho ->
    summarize_body ps sigma body = Some s ->
    xexec rt rho body w = xdenote rt s args w.
Proof.
  intros Ht. induction body as [|st rest IH]; intros sigma rho Ha H; simpl in H.
  - discriminate.
  - destruct st as [cls x src|c|e].
    + pose proof (lookup_agree args sigma rho src Ha) as Hx.
      destruct (lookup src sigma) as [[i|cls' i]|]; try discriminate.
      unfold type_at in H.
      destruct (nth_error ps i) as [p|] eqn:Hp; simpl in H; [|discriminate].
      destruct (is_reference (p_type p)) eqn:Hr; [|discriminate].
      destruct Hx as [v [Hv Hsv]]. simpl in Hsv.
      destruct (typed_nth _ _ _ _ Ht Hp) as [v' [Hv' Hty]].
      destruct (has_type_reference _ _ Hr Hty) as [h ->].
      rewrite Hv' in Hsv. injection Hsv as <-.
      unfold xexec. simpl. rewrite Hv. fold xexec.
      apply (IH ((x, View cls i) :: sigma)); [|exact H].
      constructor; [|exact Ha]. simpl. rewrite Hv'. auto.
    + destruct rest as [|st' rest']; [|discriminate].
      destruct (invoke_agree _ _ _ _ _ _ _ w Ht Ha H) as [Hres [t [vs [Htg [Hvs Hinv]]]]].
      unfold xexec, xdenote, denote. simpl.
      rewrite Hinv, Htg, Hvs, Hres.
      destruct (native t vs w); reflexivity.
    + destruct (invoke_agree _ _ _ _ _ _ _ w Ht Ha H) as [Hres [t [vs [Htg [Hvs Hinv]]]]].
      unfold xexec, xdenote, denote. simpl.
      rewrite Hinv, Htg, Hvs, Hres.
      destruct (native t vs w); reflexivity.
Qed.

(** A call of an entry point that has a summary. *)
Lemma run_denote e s args w :
  summarize e = Some s ->
  typed (params_of e) args ->
  run World native NewStringUTF e args w =
    (fst (xdenote (return_type e) s args w),
     JNI_GL_END World (return_type e) (snd (xdenote (return_type e) s args w))).
Proof.
  intros Hs Ht. destruct (typed_bind _ _ Ht) as [rho Hb].
  unfold run. rewrite Hb.
  pose proof (bind_agree _ _ _ [] Hb) as Ha. simpl in Ha.
  fold xexec. rewrite (exec_denote _ _ _ _ w Ht _ _ _ Ha Hs).
  destruct (xdenote (return_type e) s args w). reflexivity.
Qed.

(** Every row that passes the check makes exactly the native call of its
    name on the forwarded arguments and delivers its result. *)
Lemma run_forwards e args w :
  forwards e = true ->
  typed (params_of e) args ->
  exists t vs,
    native_call e args = Some (t, vs) /\
    run World native NewStringUTF e args w = ([Invoke t vs], xdeliver e (native t vs w)).
Proof.
  intros Hf Ht. unfold forwards in Hf.
  destruct (summarize e) as [s|] eqn:Hs; [|discriminate].
  apply andb_true_iff in Hf as [Hf Hrefs]. apply andb_true_iff in Hf as [Htg Hsl].
  destruct (tshape_eq_dec (s_target s) (expected_target e)) as [Htg'|]; [|discriminate].
  destruct (list_eq_dec slot_eq_dec (s_slots s) _) as [Hsl'|]; [|discriminate].
  clear Htg Hsl. rewrite (run_denote e s args w Hs Ht).
  pose proof (summarize_body_result _ _ _ _ Hs) as Hres.
  unfold xdenote, denote, native_call, expected_target, params_of, is_extension in *.
  rewrite Htg', Hsl', Hres. unfold views_on_references in Hrefs.
  destruct (e_decl e) eqn:Hd.
  1,2,4,5:
    pose proof (forward_slots (e_body e) _ _ Ht [] Hrefs) as Hfw; simpl in Hfw;
    simpl; rewrite Hfw; do 2 eexists; split; [reflexivity|]; simpl;
    unfold xdeliver, deliver; destruct (native _ _ w); [|reflexivity];
    destruct (return_expr (e_body e)); [|reflexivity];
    destruct (convert _ _ _ _); reflexivity.
  inversion Ht as [|p v ps args' Hv Ht' Hp Ha]; subst.
  destruct (has_type_jlong _ Hv) as [a [-> _]].
  pose proof (forward_slots (e_body e) _ _ Ht' [VScalar jlong a] Hrefs) as Hfw.
  simpl in Hfw. simpl. rewrite Hfw. do 2 eexists. split; [reflexivity|]. simpl.
  unfold xdeliver, deliver, toPointer. destruct (native _ _ w); [|reflexivity].
  destruct (return_expr (e_body e)); [|reflexivity].
  destruct (convert _ _ _ _); reflexivity.
Qed.

End Soundness.


Lemma Gl_cpp_In_forwards e : In e Gl_cpp -> forwards e = true.
Proof. intros H. exact (proj1 (forallb_forall forwards Gl_cpp) Gl_cpp_forwards e H). Qed.

(** ** Checks that run over the whole table *)

Lemma Gl_cpp_returns_well : forallb returns_well Gl_cpp = true.
Proof. vm_compute. reflexivity. Qed.

Lemma Gl_cpp_self_contained : forallb self_contained Gl_cpp = true.
Proof. vm_compute. reflexivity. Qed.

Lemma Gl_cpp_unsigned_views_match : forallb unsigned_views_match Gl_cpp = true.
Proof. vm_compute. reflexivity. Qed.

Lemma Gl_cpp_overloads_ok :
  forallb (fun f => variants_ok f (overloads f)) (map native_name Gl_cpp) = true.
Proof. vm_compute. reflexivity. Qed.

Lemma Gl_cpp_symbols_distinct : distinct (map symbol Gl_cpp) = true.
Proof. vm_compute. reflexivity. Qed.

Lemma find_entry_In name e : find_entry name = Some e -> In e Gl_cpp.
Proof. intros H. exact (proj1 (find_some _ _ H)). Qed.

Lemma entry_named_In name e : find_entry name = Some e -> In (entry_named name) Gl_cpp.
Proof.
  intros H. unfold entry_named. rewrite H. eapply find_entry_In; exact H.
Qed.

(** ** Arithmetic of the integer views *)

Lemma unsigned_signed_32 z : unsigned 32 (signed 32 z) = unsigned 32 z.
Proof.
  unfold unsigned, signed.
  change (2 ^ 32) with 4294967296. change (2 ^ (32 - 1)) with 2147483648.
  Z.div_mod_to_equations. lia.
Qed.

Lemma signed_32_fits z : in_signed 32 z = true -> signed 32 z = z.
Proof.
  unfold in_signed, signed. intros H. apply andb_true_iff in H as [H1 H2].
  apply Z.leb_le in H1. apply Z.ltb_lt in H2.
  change (2 ^ 32) with 4294967296. change (2 ^ (32 - 1)) with 2147483648 in *.
  Z.div_mod_to_equations. lia.
Qed.

(** ** Calls, faults and returned values *)

(** C1.  For every entry point of the file and every well-typed argument
    list, the call makes exactly one native invocation, that of the native
    function behind the entry point on the forwarded arguments; when that
    invocation returns a result of its declared kind, the entry point
    returns in the world the native call left and with the value the native
    call returned. *)
Theorem C1_entry_point_refines_native_call
    (World : Type) (native : target -> list value -> World -> nresult World)
    (NewStringUTF : option string -> jresult) :
  (forall s, NewStringUTF (Some s) = JString s) ->
  forall e, In e Gl_cpp ->
  forall args w, typed (params_of e) args ->
  exists t vs,
    native_call e args = Some (t, vs) /\
    fst (run World native NewStringUTF e args w) = [Invoke t vs] /\
    forall r w',
      native t vs w = NReturns r w' ->
      conforming e r ->
      exists v,
        snd (run World native NewStringUTF e args w) = Returned v w' /\
        same_value r v.
Proof.
  intros Hcopy e He args w Ht.
  destruct (run_forwards World native NewStringUTF e args w
              (Gl_cpp_In_forwards e He) Ht) as [t [vs [Hc Hrun]]].
  exists t, vs. rewrite Hrun. simpl. repeat split; [exact Hc|].
  intros r w' Hn Hconf. rewrite Hn.
  pose proof (proj1 (forallb_forall _ _) Gl_cpp_returns_well e He) as Hw.
  unfold returns_well in Hw. unfold conforming in Hconf. unfold deliver.
  destruct (return_type e) as [rt|]; destruct (return_expr (e_body e)) as [x|];
    try discriminate; try (destruct rt; discriminate).
  - destruct rt; try discriminate; destruct x; try discriminate; simpl.
    + destruct Hconf as [z ->]. eexists. split; [reflexivity|].
      simpl. apply unsigned_signed_32.
    + destruct Hconf as [-> | ->]; eexists; (split; [reflexivity|]); reflexivity.
    + destruct Hconf as [s ->]. rewrite Hcopy. eexists. split; reflexivity.
  - subst r. eexists. split; reflexivity.
Qed.

(** C2.  For every entry point and every well-typed argument list, the call
    makes at most one native invocation.  When the native call faults, the
    fault is caught once and nothing is invoked again.  An entry point
    declared void then returns with one pending runtime fault that carries
    the description of the native fault, in the world the faulting call
    left.  An entry point declared to return a value has no return statement
    behind the handler: it reaches its closing brace with the fault pending
    and no value to return, and what happens then is undefined. *)
Theorem C2_fault_reaches_closing_brace
    (World : Type) (native : target -> list value -> World -> nresult World)
    (NewStringUTF : option string -> jresult) :
  forall e, In e Gl_cpp ->
  forall args w, typed (params_of e) args ->
    (List.length (fst (run World native NewStringUTF e args w)) <= 1)%nat /\
    forall t vs what w',
      native_call e args = Some (t, vs) ->
      native t vs w = NFaults what w' ->
      run World native NewStringUTF e args w =
        ([Invoke t vs],
         match return_type e with
         | None => Thrown what w'
         | Some _ => Undefined what w'
         end).
Proof.
  intros e He args w Ht.
  destruct (run_forwards World native NewStringUTF e args w
              (Gl_cpp_In_forwards e He) Ht) as [t [vs [Hc Hrun]]].
  rewrite Hrun. split; [simpl; lia|].
  intros t' vs' what w' Hc' Hn. rewrite Hc in Hc'. injection Hc' as <- <-.
  rewrite Hn. reflexivity.
Qed.

Lemma Gl_cpp_kind_as_listed : forallb kind_as_listed Gl_cpp = true.
Proof. vm_compute. reflexivity. Qed.

Lemma Gl_cpp_references_viewed : forallb references_viewed Gl_cpp = true.
Proof. vm_compute. reflexivity. Qed.

Lemma Gl_cpp_suffix_describes :
  forallb (fun e => is_extension e || suffix_describes e) Gl_cpp = true.
Proof. vm_compute. reflexivity. Qed.

Lemma In_existsb_eqb x l : In x l -> existsb (String.eqb x) l = true.
Proof.
  intros H. apply existsb_exists. exists x. split; [exact H | apply String.eqb_refl].
Qed.

Lemma existsb_eqb_In x l : existsb (String.eqb x) l = true -> In x l.
Proof.
  intros H. apply existsb_exists in H as [y [Hy He]].
  apply String.eqb_eq in He. now subst.
Qed.

(** C3.  The entry points that return a value are the eight listed ones.
    An integer function returns the jint with the 32 bits of the native
    result, which is the native result itself when that fits a jint; a
    boolean function returns JNI_TRUE when the native result is GL_TRUE and
    JNI_FALSE for every other native result; glGetString returns a managed
    string with the characters of the native string. *)
Theorem C3_return_mapping
    (World : Type) (native : target -> list value -> World -> nresult World)
    (NewStringUTF : option string -> jresult) :
  (forall s, NewStringUTF (Some s) = JString s) ->
  forall e, In e Gl_cpp ->
    (return_type e <> None ->
       In (e_name e) (integer_functions ++ boolean_functions ++ string_functions)) /\
    forall args w t vs r w',
      typed (params_of e) args ->
      native_call e args = Some (t, vs) ->
      native t vs w = NReturns r w' ->
      (In (e_name e) integer_functions ->
         forall z, r = NInt z ->
           exists v, snd (run World native NewStringUTF e args w) = Returned (JInt v) w' /\
                     unsigned 32 v = unsigned 32 z /\
                     (in_signed 32 z = true -> v = z)) /\
      (In (e_name e) boolean_functions ->
         forall z, r = NInt z ->
           snd (run World native NewStringUTF e args w) =
             Returned (JBoolean (if z =? GL_TRUE then JNI_TRUE else JNI_FALSE)) w') /\
      (In (e_name e) string_functions ->
         forall s, r = NString (Some s) ->
           snd (run World native NewStringUTF e args w) = Returned (JString s) w').
Proof.
  intros Hcopy e He.
  pose proof (proj1 (forallb_forall _ _) Gl_cpp_kind_as_listed e He) as Hk.
  pose proof (proj1 (forallb_forall _ _) Gl_cpp_returns_well e He) as Hw.
  unfold kind_as_listed, listed_kind in Hk. unfold returns_well in Hw. split.
  - intros Hrt. destruct (return_type e) as [rt|]; [|congruence].
    rewrite !in_app_iff.
    destruct (existsb (String.eqb (e_name e)) integer_functions) eqn:Hi;
      [left; now apply existsb_eqb_In|].
    destruct (existsb (String.eqb (e_name e)) boolean_functions) eqn:Hb;
      [right; left; now apply existsb_eqb_In|].
    destruct (existsb (String.eqb (e_name e)) string_functions) eqn:Hs;
      [right; right; now apply existsb_eqb_In|discriminate].
  - intros args w t vs r w' Ht Hc Hn.
    destruct (run_forwards World native NewStringUTF e args w
                (Gl_cpp_In_forwards e He) Ht) as [t' [vs' [Hc' Hrun]]].
    rewrite Hc in Hc'. injection Hc' as <- <-. rewrite Hrun, Hn. cbn [fst snd].
    unfold deliver. repeat split.
    + intros Hin z ->. apply In_existsb_eqb in Hin. rewrite Hin in Hk.
      destruct (return_type e) as [rt|]; [|discriminate].
      destruct (jtype_eq_dec rt jint) as [->|]; [|discriminate].
      destruct (return_expr (e_body e)) as [[c|c|c]|]; try discriminate.
      simpl. eexists. split; [reflexivity|]. split.
      * apply unsigned_signed_32.
      * apply signed_32_fits.
    + intros Hin z ->. apply In_existsb_eqb in Hin.
      destruct (existsb (String.eqb (e_name e)) integer_functions) eqn:Hi.
      { apply existsb_eqb_In in Hi. apply existsb_eqb_In in Hin.
        exfalso. revert Hi Hin. generalize (e_name e). intros n Hi Hin.
        simpl in Hi, Hin. intuition (subst; discriminate). }
      rewrite Hin in Hk.
      destruct (return_type e) as [rt|]; [|discriminate].
      destruct (jtype_eq_dec rt jboolean) as [->|]; [|discriminate].
      destruct (return_expr (e_body e)) as [[c|c|c]|]; try discriminate.
      reflexivity.
    + intros Hin s ->. apply In_existsb_eqb in Hin.
      destruct (existsb (String.eqb (e_name e)) integer_functions) eqn:Hi.
      { apply existsb_eqb_In in Hi. apply existsb_eqb_In in Hin.
        exfalso. revert Hi Hin. generalize (e_name e). intros n Hi Hin.
        simpl in Hi, Hin. intuition (subst; discriminate). }
      destruct (existsb (String.eqb (e_name e)) boolean_functions) eqn:Hb.
      { apply existsb_eqb_In in Hb. apply existsb_eqb_In in Hin.
        exfalso. revert Hb Hin. generalize (e_name e). intros n Hb Hin.
        simpl in Hb, Hin. intuition (subst; discriminate). }
      rewrite Hin in Hk.
      destruct (return_type e) as [rt|]; [|discriminate].
      destruct (jtype_eq_dec rt jstring) as [->|]; [|discriminate].
      destruct (return_expr (e_body e)) as [[c|c|c]|]; try discriminate.
      simpl. now rewrite Hcopy.
Qed.

(** ** Forwarded argument lists *)

Lemma forward_length body ps args :
  typed ps args -> List.length (forward body ps args) = List.length args.
Proof. induction 1; simpl; congruence. Qed.

Lemma forward_scalar body ps args :
  typed ps args ->
  forall i t z,
    nth_error args i = Some (VScalar t z) ->
    nth_error (forward body ps args) i = Some (VScalar t z).
Proof.
  induction 1 as [|p v ps args Hv _ IH]; intros [|i] t z Hi; simpl in *;
    try discriminate.
  - injection Hi as ->. unfold marshal.
    destruct (view_class body (p_name p)); reflexivity.
  - eauto.
Qed.

Lemma forward_reference body ps args :
  typed ps args ->
  forallb (fun p => match view_class body (p_name p) with
                    | Some _ => true
                    | None => negb (is_reference (p_type p))
                    end) ps = true ->
  forall i h,
    nth_error args i = Some (VRef h) ->
    exists cls, nth_error (forward body ps args) i = Some (VView cls h).
Proof.
  induction 1 as [|p v ps args Hv _ IH]; intros Hall [|i] h Hi; simpl in *;
    try discriminate; apply andb_true_iff in Hall as [Hp Hrest].
  - injection Hi as ->. unfold marshal. simpl in Hv.
    destruct (view_class body (p_name p)) as [cls|]; [eauto|].
    rewrite Hv in Hp. discriminate.
  - eauto.
Qed.

Lemma params_of_direct e : is_extension e = false -> params_of e = e_params e.
Proof. unfold is_extension, params_of. destruct (e_decl e); congruence. Qed.

Lemma params_of_extension e :
  is_extension e = true -> params_of e = Param jlong "pfunc" :: e_params e.
Proof. unfold is_extension, params_of. destruct (e_decl e); congruence. Qed.

(** C4.  A direct entry point, called with any well-typed argument list,
    invokes the OpenGL function of its name once, on a list that has one
    value per argument in the order of the arguments: each scalar argument
    as it was received, each array or buffer argument as a view of that
    same object.  No argument list is turned away. *)
Theorem C4_arguments_forwarded_positionally
    (World : Type) (native : target -> list value -> World -> nresult World)
    (NewStringUTF : option string -> jresult) :
  forall e, In e Gl_cpp -> is_extension e = false ->
  forall args w, typed (e_params e) args ->
    let sent := forward (e_body e) (e_params e) args in
    fst (run World native NewStringUTF e args w) = [Invoke (Linked (native_name e)) sent] /\
    List.length sent = List.length args /\
    (forall i t z, nth_error args i = Some (VScalar t z) ->
                   nth_error sent i = Some (VScalar t z)) /\
    (forall i h, nth_error args i = Some (VRef h) ->
                 exists cls, nth_error sent i = Some (VView cls h)).
Proof.
  intros e He Hd args w Ht sent.
  assert (Ht' : typed (params_of e) args) by now rewrite params_of_direct.
  destruct (run_forwards World native NewStringUTF e args w
              (Gl_cpp_In_forwards e He) Ht') as [t [vs [Hc Hrun]]].
  unfold native_call in Hc. rewrite Hd in Hc. injection Hc as <- <-.
  rewrite Hrun. repeat split.
  - now apply forward_length.
  - now apply forward_scalar.
  - apply forward_reference; [exact Ht|].
    exact (proj1 (forallb_forall _ _) Gl_cpp_references_viewed e He).
Qed.

(** C5.  An extension entry point has [jlong pfunc] as its first
    parameter, before the parameters of the function.  Called with any
    64-bit handle and well-typed arguments, it makes one invocation: of
    whatever lies at the address that is the handle, taken as a function of
    the pointer type declared for the function of its name, on the remaining
    arguments forwarded in order.  Nothing else is invoked, and no handle is
    turned away. *)
Theorem C5_extension_dispatch
    (World : Type) (native : target -> list value -> World -> nresult World)
    (NewStringUTF : option string -> jresult) :
  forall e, In e Gl_cpp -> is_extension e = true ->
    params_of e = Param jlong "pfunc" :: e_params e /\
    forall pfunc args w,
      in_signed 64 pfunc = true ->
      typed (e_params e) args ->
      fst (run World native NewStringUTF e (VScalar jlong pfunc :: args) w) =
        [Invoke (Address pfunc (proc_type e)) (forward (e_body e) (e_params e) args)].
Proof.
  intros e He Hx. split; [now apply params_of_extension|].
  intros pfunc args w Hp Ht.
  assert (Ht' : typed (params_of e) (VScalar jlong pfunc :: args)).
  { rewrite params_of_extension by exact Hx. constructor; [exact Hp | exact Ht]. }
  destruct (run_forwards World native NewStringUTF e _ w
              (Gl_cpp_In_forwards e He) Ht') as [t [vs [Hc Hrun]]].
  unfold native_call in Hc. rewrite Hx in Hc. injection Hc as <- <-.
  rewrite Hrun. reflexivity.
Qed.

(** ** Names of the variants *)

Lemma filter_name_In (tbl : list entry) f e :
  In e (filter (fun e => String.eqb (native_name e) f) tbl) ->
  In f (map native_name tbl).
Proof.
  intros H. apply filter_In in H as [He Hn].
  apply String.eqb_eq in Hn. subst f. now apply in_map.
Qed.

Lemma overloads_nonempty f : overloads f <> [] -> In f (map native_name Gl_cpp).
Proof.
  unfold overloads. generalize Gl_cpp. intros tbl H.
  destruct (filter (fun e => String.eqb (native_name e) f) tbl) as [|e l] eqn:Hf;
    [congruence|].
  apply (filter_name_In tbl f e). rewrite Hf. now left.
Qed.

Lemma variants_ok_sound f l :
  variants_ok f l = true -> (1 < List.length l)%nat ->
  exists scalars, map e_name l = variant_names f scalars.
Proof.
  intros Hok Hlen. destruct l as [|e [|e' es]]; simpl in Hlen; try lia.
  unfold variants_ok in Hok.
  destruct (list_eq_dec string_dec (map e_name (e :: e' :: es))
              (variant_names f (scalar_part (suffix e)))) as [Heq|]; [|discriminate].
  eauto.
Qed.

Lemma Gl_cpp_exposure_ok : forallb exposure_ok declared_natives = true.
Proof. vm_compute. reflexivity. Qed.



(** ** Unsigned views *)

Lemma unsigned_bits w z i : 0 <= i < w -> Z.testbit (unsigned w z) i = Z.testbit z i.
Proof. intros H. unfold unsigned. apply Z.mod_pow2_bits_low. lia. Qed.

Lemma unsigned_range w z : 0 <= w -> 0 <= unsigned w z < 2 ^ w.
Proof. intros H. unfold unsigned. apply Z.mod_pos_bound. now apply Z.pow_pos_nonneg. Qed.

Lemma signed_unsigned_8 z : in_signed 8 z = true -> signed 8 (unsigned 8 z) = z.
Proof.
  unfold in_signed, signed, unsigned. intros H. apply andb_true_iff in H as [H1 H2].
  apply Z.leb_le in H1. apply Z.ltb_lt in H2.
  change (2 ^ 8) with 256. change (2 ^ (8 - 1)) with 128 in *.
  Z.div_mod_to_equations. lia.
Qed.

Lemma signed_unsigned_16 z : in_signed 16 z = true -> signed 16 (unsigned 16 z) = z.
Proof.
  unfold in_signed, signed, unsigned. intros H. apply andb_true_iff in H as [H1 H2].
  apply Z.leb_le in H1. apply Z.ltb_lt in H2.
  change (2 ^ 16) with 65536. change (2 ^ (16 - 1)) with 32768 in *.
  Z.div_mod_to_equations. lia.
Qed.

Lemma signed_unsigned_32 z : in_signed 32 z = true -> signed 32 (unsigned 32 z) = z.
Proof.
  unfold in_signed, signed, unsigned. intros H. apply andb_true_iff in H as [H1 H2].
  apply Z.leb_le in H1. apply Z.ltb_lt in H2.
  change (2 ^ 32) with 4294967296. change (2 ^ (32 - 1)) with 2147483648 in *.
  Z.div_mod_to_equations. lia.
Qed.


(** ** Sessions *)

Lemma session_app
    (World : Type) (native : target -> list value -> World -> nresult World)
    (NewStringUTF : option string -> jresult) before :
  forall e args after w,
    session World native NewStringUTF (before ++ (e, args) :: after) w =
      session World native NewStringUTF before w ++
      run World native NewStringUTF e args
          (world_at_end World native NewStringUTF before w) ::
      session World native NewStringUTF after
        (world_after World
           (snd (run World native NewStringUTF e args
                   (world_at_end World native NewStringUTF before w)))
           (world_at_end World native NewStringUTF before w)).
Proof.
  induction before as [|[e0 args0] before IH]; intros e args after w.
  - reflexivity.
  - simpl. now rewrite IH.
Qed.

(** C8.  Every identifier in a body is a parameter of its own function or a
    view declared earlier in the same body, and no function called by name
    is an exported entry point.  A call does one native invocation and
    delivers its result, so what it does is fixed by its arguments and by
    what the native library does in the world the call starts in; and in a
    sequence of calls, each call is that same function of its own arguments
    and the world the calls before it have left. *)
Theorem C8_entry_points_are_stateless_leaves :
  (forall e, In e Gl_cpp ->
     scoped (map p_name (params_of e)) (e_body e) = true /\
     forall c f, In c (calls_of (e_body e)) -> c_callee c = Direct f ->
                 ~ In f (map symbol Gl_cpp)) /\
  (forall (World : Type) (native : target -> list value -> World -> nresult World)
          (NewStringUTF : option string -> jresult) e,
     In e Gl_cpp ->
     forall args w, typed (params_of e) args ->
       exists t vs,
         native_call e args = Some (t, vs) /\
         run World native NewStringUTF e args w =
           ([Invoke t vs], deliver World NewStringUTF e (native t vs w))) /\
  (forall (World : Type) (native : target -> list value -> World -> nresult World)
          (NewStringUTF : option string -> jresult) before e args after w,
     nth_error (session World native NewStringUTF (before ++ (e, args) :: after) w)
               (List.length before) =
       Some (run World native NewStringUTF e args
               (world_at_end World native NewStringUTF before w))).
Proof.
  split; [|split].
  - intros e He.
    pose proof (proj1 (forallb_forall _ _) Gl_cpp_self_contained e He) as H.
    unfold self_contained in H. apply andb_true_iff in H as [Hs Hc].
    split; [exact Hs|]. intros c f Hin Hd Hsym.
    unfold calls_no_entry in Hc.
    pose proof (proj1 (forallb_forall _ _) Hc c Hin) as Hcf.
    cbv beta in Hcf. rewrite Hd in Hcf.
    rewrite (In_existsb_eqb _ _ Hsym) in Hcf. discriminate.
  - intros World native NewStringUTF e He args w Ht.
    exact (run_forwards World native NewStringUTF e args w
             (Gl_cpp_In_forwards e He) Ht).
  - intros World native NewStringUTF before e args after w.
    rewrite session_app.
    assert (Hlen : List.length (session World native NewStringUTF before w)
                   = List.length before).
    { clear. revert w. induction before as [|[e0 a0] before IH]; intros w; simpl;
        [reflexivity | now rewrite IH]. }
    rewrite nth_error_app2 by lia. rewrite Hlen, Nat.sub_diag. reflexivity.
Qed.

(** ** Single rows *)

Lemma row_glGetString :
  entry_named "glGetString" =
    Entry (DECLARE_RETURN1 jstring) "glGetString" [Param c_int "name"]
      [SReturn (ENewStringUTF (Call (Direct "glGetString") ["name"]))].
Proof. vm_compute. reflexivity. Qed.

Lemma row_glColorMask :
  entry_named "glColorMask" =
    Entry DECLARE1 "glColorMask"
      [Param jbyte "red"; Param jbyte "green"; Param jbyte "blue"; Param jbyte "alpha"]
      [SExpr (Call (Direct "glColorMask") ["red"; "green"; "blue"; "alpha"])].
Proof. vm_compute. reflexivity. Qed.

Lemma row_glDepthMask :
  entry_named "glDepthMask" =
    Entry DECLARE1 "glDepthMask" [Param jbyte "flag"]
      [SExpr (Call (Direct "glDepthMask") ["flag"])].
Proof. vm_compute. reflexivity. Qed.

Lemma row_glEdgeFlag :
  entry_named "glEdgeFlag" =
    Entry DECLARE1 "glEdgeFlag" [Param jbyte "flag"]
      [SExpr (Call (Direct "glEdgeFlag") ["flag"])].
Proof. vm_compute. reflexivity. Qed.

Lemma view_class_no_locals body x : locals_of body = [] -> view_class body x = None.
Proof.
  induction body as [|st rest IH]; simpl; intros H; [reflexivity|].
  destruct st; try discriminate; auto.
Qed.

Lemma forward_no_views body ps args :
  locals_of body = [] -> typed ps args -> forward body ps args = args.
Proof.
  intros Hl. induction 1 as [|p v ps args Hv _ IH]; simpl; [reflexivity|].
  unfold marshal. rewrite (view_class_no_locals body (p_name p) Hl), IH.
  reflexivity.
Qed.

(** C9.  Whatever pointer the native glGetString returns, null or not, is
    what the entry point hands to the string constructor of the runtime, and
    what the constructor makes of it is what the caller gets.  With a
    constructor that copies C strings, a native string comes back as a
    managed string of the same characters; for a null pointer the result is
    the constructor's answer to null, and with a runtime that answers null
    with a null reference the caller of glGetString with an unknown name
    gets no string. *)
Theorem C9_glGetString_passes_pointer_unchecked :
  (forall (World : Type) (native : target -> list value -> World -> nresult World)
          (NewStringUTF : option string -> jresult) name w p w',
     in_signed 32 name = true ->
     native (Linked "glGetString") [VScalar c_int name] w = NReturns (NString p) w' ->
     run World native NewStringUTF (entry_named "glGetString") [VScalar c_int name] w =
       ([Invoke (Linked "glGetString") [VScalar c_int name]],
        Returned (NewStringUTF p) w') /\
     ((forall s, NewStringUTF (Some s) = JString s) ->
      forall s, p = Some s ->
        snd (run World native NewStringUTF (entry_named "glGetString")
               [VScalar c_int name] w) = Returned (JString s) w')) /\
  snd (Toy.call "glGetString" [VScalar c_int 0] Toy.initial) =
    Returned JNullRef Toy.initial.
Proof.
  split; [|vm_compute; reflexivity].
  intros World native NewStringUTF name w p w' Hname Hn.
  assert (Hrun :
    run World native NewStringUTF (entry_named "glGetString") [VScalar c_int name] w =
      ([Invoke (Linked "glGetString") [VScalar c_int name]],
       Returned (NewStringUTF p) w')).
  { rewrite row_glGetString. unfold run, params_of, bind, has_type. simpl e_decl.
    cbv beta iota. simpl e_params. cbv beta iota. simpl p_type. simpl p_name.
    destruct (jtype_eq_dec c_int c_int) as [_|Hne]; [|congruence].
    change (fits c_int name) with (in_signed 32 name). rewrite Hname.
    simpl. rewrite Hn. reflexivity. }
  split; [exact Hrun|].
  intros Hcopy s ->. rewrite Hrun. simpl. now rewrite Hcopy.
Qed.

Lemma run_plain
    (World : Type) (native : target -> list value -> World -> nresult World)
    (NewStringUTF : option string -> jresult) e args w :
  forwards e = true -> is_extension e = false -> locals_of (e_body e) = [] ->
  typed (e_params e) args ->
  fst (run World native NewStringUTF e args w) = [Invoke (Linked (native_name e)) args].
Proof.
  intros Hf Hd Hl Ht.
  assert (Ht' : typed (params_of e) args) by now rewrite params_of_direct.
  destruct (run_forwards World native NewStringUTF e args w Hf Ht') as [t [vs [Hc Hrun]]].
  unfold native_call in Hc. rewrite Hd in Hc. injection Hc as <- <-.
  rewrite Hrun. simpl. now rewrite (forward_no_views _ _ _ Hl Ht).
Qed.

Lemma GLboolean_truth b :
  in_signed 8 b = true ->
  as_GLboolean b = b mod 256 /\ (native_true (as_GLboolean b) = true <-> b <> 0).
Proof.
  unfold in_signed, as_GLboolean, native_true, unsigned, GL_FALSE. intros H.
  apply andb_true_iff in H as [H1 H2]. apply Z.leb_le in H1. apply Z.ltb_lt in H2.
  change (2 ^ 8) with 256. change (2 ^ (8 - 1)) with 128 in *.
  split; [reflexivity|]. rewrite negb_true_iff, Z.eqb_neq.
  Z.div_mod_to_equations. lia.
Qed.

(** C10.  glColorMask, glDepthMask and glEdgeFlag declare each of their
    parameters as a jbyte.  Called with any bytes, each invokes the OpenGL
    function of its name on exactly the bytes received.  A byte reaches a
    GLboolean parameter as its low eight bits, which are zero exactly when
    the byte is zero: every nonzero byte counts as true and zero as false, and
    a byte such as 2 or -1 arrives as 2 or 255, not as GL_TRUE. *)
Theorem C10_boolean_bytes_forwarded_as_received :
  forall name, In name mask_functions ->
    (e_name (entry_named name) = name /\
     In (entry_named name) Gl_cpp /\
     e_params (entry_named name) <> [] /\
     Forall (fun p => p_type p = jbyte) (e_params (entry_named name))) /\
    (forall (World : Type) (native : target -> list value -> World -> nresult World)
            (NewStringUTF : option string -> jresult) args w,
       typed (e_params (entry_named name)) args ->
       fst (run World native NewStringUTF (entry_named name) args w) =
         [Invoke (Linked name) args]) /\
    (forall b, in_signed 8 b = true ->
       as_GLboolean b = b mod 256 /\
       (native_true (as_GLboolean b) = true <-> b <> 0)) /\
    (as_GLboolean 2 = 2 /\ as_GLboolean (-1) = 255 /\ GL_TRUE = 1).
Proof.
  intros name Hin.
  assert (Hrows : name = "glColorMask" \/ name = "glDepthMask" \/ name = "glEdgeFlag").
  { simpl in Hin. intuition. }
  split; [|split; [|split; [exact GLboolean_truth | repeat split]]].
  - destruct Hrows as [-> | [-> | ->]].
    + split; [now rewrite row_glColorMask|]. split.
      * apply (entry_named_In _ (entry_named "glColorMask")).
        vm_compute. reflexivity.
      * rewrite row_glColorMask. simpl. split; [discriminate|].
        repeat constructor.
    + split; [now rewrite row_glDepthMask|]. split.
      * apply (entry_named_In _ (entry_named "glDepthMask")).
        vm_compute. reflexivity.
      * rewrite row_glDepthMask. simpl. split; [discriminate|].
        repeat constructor.
    + split; [now rewrite row_glEdgeFlag|]. split.
      * apply (entry_named_In _ (entry_named "glEdgeFlag")).
        vm_compute. reflexivity.
      * rewrite row_glEdgeFlag. simpl. split; [discriminate|].
        repeat constructor.
  - intros World native NewStringUTF args w.
    destruct Hrows as [-> | [-> | ->]].
    + rewrite row_glColorMask. intros Ht.
      refine (eq_trans (run_plain World native NewStringUTF _ args w _ _ _ Ht) _);
        [vm_compute; reflexivity | reflexivity ..].
    + rewrite row_glDepthMask. intros Ht.
      refine (eq_trans (run_plain World native NewStringUTF _ args w _ _ _ Ht) _);
        [vm_compute; reflexivity | reflexivity ..].
    + rewrite row_glEdgeFlag. intros Ht.
      refine (eq_trans (run_plain World native NewStringUTF _ args w _ _ _ Ht) _);
        [vm_compute; reflexivity | reflexivity ..].
Qed.

Lemma typedb_typed ps : forall args, typedb ps args = true -> typed ps args.
Proof.
  induction ps as [|p ps IH]; intros [|v args] H; simpl in H; try discriminate.
  - constructor.
  - apply andb_true_iff in H as [Hv Hrest]. constructor; [exact Hv | now apply IH].
Qed.

(** ** The rows and the functions written out agree *)

Ltac reduce_row name :=
  let rt := eval vm_compute in (return_type (entry_named name)) in
  let rx := eval vm_compute in (return_expr (e_body (entry_named name))) in
  change (return_type (entry_named name)) with rt;
  change (return_expr (e_body (entry_named name))) with rx.

Ltac well_typed name :=
  apply typedb_typed;
  let ps := eval vm_compute in (params_of (entry_named name)) in
  change (params_of (entry_named name)) with ps;
  cbn -[in_signed in_unsigned];
  repeat match goal with
         | H : in_signed _ _ = true |- _ => rewrite H
         | H : in_unsigned _ _ = true |- _ => rewrite H
         end;
  reflexivity.

Ltac row_agrees :=
  intros;
  match goal with
  | |- snd (run ?W ?N ?S (entry_named ?name) ?args ?w) = _ =>
      let Hf := fresh "Hf" in
      let Ht := fresh "Ht" in
      let Hc := fresh "Hc" in
      let Hrun := fresh "Hrun" in
      let t := fresh "t" in
      let vs := fresh "vs" in
      assert (Hf : forwards (entry_named name) = true) by (vm_compute; reflexivity);
      assert (Ht : typed (params_of (entry_named name)) args) by well_typed name;
      destruct (run_forwards W N S (entry_named name) args w Hf Ht)
        as [t [vs [Hc Hrun]]];
      rewrite Hrun; vm_compute in Hc; injection Hc as <- <-;
      cbn [snd]; unfold deliver; reduce_row name;
      unfold JNI_TRY, JNI_TRY_RETURN, returns_nothing, toPointer;
      match goal with
      | |- context [N ?tg ?a w] => destruct (N tg a w) as [[| |] ?|? ?]
      end; reflexivity
  end.

Section Rows_agree.

Variable World : Type.
Variable native : target -> list value -> World -> nresult World.
Variable NewStringUTF : option string -> jresult.

Lemma glAccum_row op value w :
  in_signed 32 op = true -> in_unsigned 32 value = true ->
  snd (run World native NewStringUTF (entry_named "glAccum")
         [VScalar jint op; VScalar jfloat value] w)
  = glAccum World native op value w.
Proof. unfold glAccum. row_agrees. Qed.

Lemma glClear_row mask w :
  in_signed 32 mask = true ->
  snd (run World native NewStringUTF (entry_named "glClear") [VScalar jint mask] w)
  = glClear World native mask w.
Proof. unfold glClear. row_agrees. Qed.

Lemma glClearColor_row red green blue alpha w :
  in_unsigned 32 red = true -> in_unsigned 32 green = true ->
  in_unsigned 32 blue = true -> in_unsigned 32 alpha = true ->
  snd (run World native NewStringUTF (entry_named "glClearColor")
         [VScalar jfloat red; VScalar jfloat green;
          VScalar jfloat blue; VScalar jfloat alpha] w)
  = glClearColor World native red green blue alpha w.
Proof. unfold glClearColor. row_agrees. Qed.

Lemma glLoadIdentity_row w :
  snd (run World native NewStringUTF (entry_named "glLoadIdentity") [] w)
  = glLoadIdentity World native w.
Proof. unfold glLoadIdentity. row_agrees. Qed.

Lemma glFrustum_row left right bottom top zNear zFar w :
  in_unsigned 64 left = true -> in_unsigned 64 right = true ->
  in_unsigned 64 bottom = true -> in_unsigned 64 top = true ->
  in_unsigned 64 zNear = true -> in_unsigned 64 zFar = true ->
  snd (run World native NewStringUTF (entry_named "glFrustum")
         [VScalar jdouble left; VScalar jdouble right;
          VScalar jdouble bottom; VScalar jdouble top;
          VScalar jdouble zNear; VScalar jdouble zFar] w)
  = glFrustum World native left right bottom top zNear zFar w.
Proof. unfold glFrustum. row_agrees. Qed.

Lemma glBitmap_row width height xorig yorig xmove ymove jbitmap w :
  in_signed 32 width = true -> in_signed 32 height = true ->
  in_unsigned 32 xorig = true -> in_unsigned 32 yorig = true ->
  in_unsigned 32 xmove = true -> in_unsigned 32 ymove = true ->
  snd (run World native NewStringUTF (entry_named "glBitmap")
         [VScalar jint width; VScalar jint height;
          VScalar jfloat xorig; VScalar jfloat yorig;
          VScalar jfloat xmove; VScalar jfloat ymove; VRef jbitmap] w)
  = glBitmap World native width height xorig yorig xmove ymove jbitmap w.
Proof. unfold glBitmap. row_agrees. Qed.

Lemma glGenTextures_row n jtextures w :
  in_signed 32 n = true ->
  snd (run World native NewStringUTF (entry_named "glGenTextures")
         [VScalar jint n; VRef jtextures] w)
  = glGenTextures World native n jtextures w.
Proof. unfold glGenTextures. row_agrees. Qed.

Lemma glDeleteTextures_row n jtextures w :
  in_signed 32 n = true ->
  snd (run World native NewStringUTF (entry_named "glDeleteTextures")
         [VScalar jint n; VRef jtextures] w)
  = glDeleteTextures World native n jtextures w.
Proof. unfold glDeleteTextures. row_agrees. Qed.

Lemma glPixelMapusv_row map mapsize jvalues w :
  in_signed 32 map = true -> in_signed 32 mapsize = true ->
  snd (run World native NewStringUTF (entry_named "glPixelMapusv")
         [VScalar jint map; VScalar jint mapsize; VRef jvalues] w)
  = glPixelMapusv World native map mapsize jvalues w.
Proof. unfold glPixelMapusv. row_agrees. Qed.

Lemma glDepthMask_row flag w :
  in_signed 8 flag = true ->
  snd (run World native NewStringUTF (entry_named "glDepthMask") [VScalar jbyte flag] w)
  = glDepthMask World native flag w.
Proof. unfold glDepthMask. row_agrees. Qed.

Lemma glEdgeFlag_row flag w :
  in_signed 8 flag = true ->
  snd (run World native NewStringUTF (entry_named "glEdgeFlag") [VScalar jbyte flag] w)
  = glEdgeFlag World native flag w.
Proof. unfold glEdgeFlag. row_agrees. Qed.

Lemma glColorMask_row red green blue alpha w :
  in_signed 8 red = true -> in_signed 8 green = true ->
  in_signed 8 blue = true -> in_signed 8 alpha = true ->
  snd (run World native NewStringUTF (entry_named "glColorMask")
         [VScalar jbyte red; VScalar jbyte green;
          VScalar jbyte blue; VScalar jbyte alpha] w)
  = glColorMask World native red green blue alpha w.
Proof. unfold glColorMask. row_agrees. Qed.

Lemma glGenLists_row range w :
  in_signed 32 range = true ->
  snd (run World native NewStringUTF (entry_named "glGenLists") [VScalar jint range] w)
  = glGenLists World native range w.
Proof. unfold glGenLists. row_agrees. Qed.

Lemma glIsEnabled_row cap w :
  in_signed 32 cap = true ->
  snd (run World native NewStringUTF (entry_named "glIsEnabled") [VScalar jint cap] w)
  = glIsEnabled World native cap w.
Proof. unfold glIsEnabled. row_agrees. Qed.

Lemma glGetString_row name w :
  in_signed 32 name = true ->
  snd (run World native NewStringUTF (entry_named "glGetString") [VScalar c_int name] w)
  = glGetString World native NewStringUTF name w.
Proof. unfold glGetString. row_agrees. Qed.

Lemma nglBlendColor_row pfunc red green blue alpha w :
  in_signed 64 pfunc = true ->
  in_unsigned 32 red = true -> in_unsigned 32 green = true ->
  in_unsigned 32 blue = true -> in_unsigned 32 alpha = true ->
  snd (run World native NewStringUTF (entry_named "glBlendColor")
         [VScalar jlong pfunc; VScalar jfloat red; VScalar jfloat green;
          VScalar jfloat blue; VScalar jfloat alpha] w)
  = nglBlendColor World native pfunc red green blue alpha w.
Proof. unfold nglBlendColor. row_agrees. Qed.

End Rows_agree.

(** ** Concrete calls on the small library *)


Lemma C1_witness :
  exists v,
    snd (run Toy.world Toy.native Toy.NewStringUTF (entry_named "glGenLists")
           [VScalar jint 3] Toy.initial)
    = Returned v (Toy.World [0; 0; 0; 0] [0; 0; 0; 0] 1 4 [0; 0; 0; 0])
    /\ same_value (NInt 1) v.
Proof.
  assert (He : In (entry_named "glGenLists") Gl_cpp)
    by (apply (entry_named_In _ (entry_named "glGenLists")); reflexivity).
  assert (Ht : typed (params_of (entry_named "glGenLists")) [VScalar jint 3])
    by (apply typedb_typed; reflexivity).
  destruct (C1_entry_point_refines_native_call Toy.world Toy.native Toy.NewStringUTF
              (fun s => eq_refl) _ He _ Toy.initial Ht)
    as [t [vs [Hc [_ Hret]]]].
  vm_compute in Hc. injection Hc as <- <-.
  apply Hret.
  - reflexivity.
  - exists 1. reflexivity.
Defined.

Lemma C2_witness :
  run Toy.world Toy.faulting Toy.NewStringUTF (entry_named "glGenLists")
    [VScalar jint 1] Toy.initial
  = ([Invoke (Linked "glGenLists") [VScalar jint 1]],
     Undefined "access violation" Toy.initial).
Proof.
  apply (proj2 (C2_fault_reaches_closing_brace Toy.world Toy.faulting Toy.NewStringUTF
                  (entry_named "glGenLists")
                  (entry_named_In "glGenLists" (entry_named "glGenLists") eq_refl)
                  [VScalar jint 1] Toy.initial
                  (typedb_typed (params_of (entry_named "glGenLists"))
                     [VScalar jint 1] eq_refl))).
  - reflexivity.
  - reflexivity.
Defined.

Lemma C3_witness :
  snd (run Toy.world Toy.native Toy.NewStringUTF (entry_named "glIsEnabled")
         [VScalar jint 2929] Toy.initial)
  = Returned (JBoolean JNI_TRUE) Toy.initial.
Proof.
  apply (proj1 (proj2
    (proj2 (C3_return_mapping Toy.world Toy.native Toy.NewStringUTF
              (fun s => eq_refl) (entry_named "glIsEnabled")
              (entry_named_In "glIsEnabled" (entry_named "glIsEnabled") eq_refl))
       [VScalar jint 2929] Toy.initial (Linked "glIsEnabled") [VScalar jint 2929]
       (NInt GL_TRUE) Toy.initial
       (typedb_typed (params_of (entry_named "glIsEnabled")) [VScalar jint 2929] eq_refl)
       eq_refl eq_refl))
    (or_intror (or_introl eq_refl)) GL_TRUE eq_refl).
Defined.

Lemma C4_witness :
  fst (run Toy.world Toy.native Toy.NewStringUTF (entry_named "glBitmap")
         [VScalar jint 8; VScalar jint 8; VScalar jfloat 0; VScalar jfloat 0;
          VScalar jfloat Toy.one_f; VScalar jfloat 0; VRef 5] Toy.initial)
  = [Invoke (Linked "glBitmap")
       [VScalar jint 8; VScalar jint 8; VScalar jfloat 0; VScalar jfloat 0;
        VScalar jfloat Toy.one_f; VScalar jfloat 0; VView JubyteArray 5]].
Proof.
  exact (proj1 (C4_arguments_forwarded_positionally
                  Toy.world Toy.native Toy.NewStringUTF
                  (entry_named "glBitmap")
                  (entry_named_In "glBitmap" (entry_named "glBitmap") eq_refl)
                  eq_refl
                  [VScalar jint 8; VScalar jint 8; VScalar jfloat 0; VScalar jfloat 0;
                   VScalar jfloat Toy.one_f; VScalar jfloat 0; VRef 5] Toy.initial
                  (typedb_typed (e_params (entry_named "glBitmap"))
                     [VScalar jint 8; VScalar jint 8; VScalar jfloat 0; VScalar jfloat 0;
                      VScalar jfloat Toy.one_f; VScalar jfloat 0; VRef 5] eq_refl))).
Defined.

Lemma C5_witness :
  fst (run Toy.world Toy.native Toy.NewStringUTF (entry_named "glBlendColor")
         [VScalar jlong 4096; VScalar jfloat Toy.one_f; VScalar jfloat 0;
          VScalar jfloat 0; VScalar jfloat Toy.one_f] Toy.initial)
  = [Invoke (Address 4096 "PFNGLBLENDCOLORPROC")
       [VScalar jfloat Toy.one_f; VScalar jfloat 0; VScalar jfloat 0;
        VScalar jfloat Toy.one_f]].
Proof.
  exact (proj2 (C5_extension_dispatch Toy.world Toy.native Toy.NewStringUTF
                  (entry_named "glBlendColor")
                  (entry_named_In "glBlendColor" (entry_named "glBlendColor") eq_refl)
                  eq_refl)
           4096
           [VScalar jfloat Toy.one_f; VScalar jfloat 0; VScalar jfloat 0;
            VScalar jfloat Toy.one_f] Toy.initial eq_refl
           (typedb_typed (e_params (entry_named "glBlendColor"))
              [VScalar jfloat Toy.one_f; VScalar jfloat 0; VScalar jfloat 0;
               VScalar jfloat Toy.one_f] eq_refl)).
Defined.



Lemma C8_witness :
  scoped (map p_name (params_of (entry_named "glLoadIdentity")))
         (e_body (entry_named "glLoadIdentity")) = true.
Proof.
  exact (proj1 (proj1 C8_entry_points_are_stateless_leaves
                  (entry_named "glLoadIdentity")
                  (entry_named_In "glLoadIdentity" (entry_named "glLoadIdentity")
                     eq_refl))).
Defined.

Lemma C9_witness :
  run Toy.world Toy.native Toy.NewStringUTF (entry_named "glGetString")
    [VScalar c_int Toy.GL_VENDOR] Toy.initial
  = ([Invoke (Linked "glGetString") [VScalar c_int Toy.GL_VENDOR]],
     Returned (JString "Toy") Toy.initial).
Proof.
  exact (proj1 (proj1 C9_glGetString_passes_pointer_unchecked
                  Toy.world Toy.native Toy.NewStringUTF Toy.GL_VENDOR Toy.initial
                  (Some "Toy") Toy.initial eq_refl eq_refl)).
Defined.

Lemma C10_witness :
  fst (run Toy.world Toy.native Toy.NewStringUTF (entry_named "glDepthMask")
         [VScalar jbyte (-1)] Toy.initial)
  = [Invoke (Linked "glDepthMask") [VScalar jbyte (-1)]].
Proof.
  exact (proj1 (proj2 (C10_boolean_bytes_forwarded_as_received "glDepthMask"
                         (or_intror (or_introl eq_refl))))
           Toy.world Toy.native Toy.NewStringUTF [VScalar jbyte (-1)] Toy.initial
           (typedb_typed (e_params (entry_named "glDepthMask"))
              [VScalar jbyte (-1)] eq_refl)).
Defined.

(** ** Runs on the small library *)

(** Setting the clear colour to opaque red and clearing the colour buffer
    leaves the colour buffer red, as the two native calls do. *)
Example clear_to_red :
  world_at_end Toy.world Toy.native Toy.NewStringUTF
    [(entry_named "glClearColor",
      [VScalar jfloat Toy.one_f; VScalar jfloat 0; VScalar jfloat 0;
       VScalar jfloat Toy.one_f]);
     (entry_named "glClear", [VScalar jint Toy.GL_COLOR_BUFFER_BIT])]
    Toy.initial
  = Toy.World [Toy.one_f; 0; 0; Toy.one_f] [Toy.one_f; 0; 0; Toy.one_f] 1 1 [0; 0; 0; 0].
Proof. vm_compute. reflexivity. Qed.

(** A faulting pixel transfer surfaces as one runtime fault and the call
    after it runs as if nothing had happened. *)
Example fault_then_call :
  map snd
    (session Toy.world Toy.native Toy.NewStringUTF
       [(entry_named "glReadPixels__IIIIII_3S",
         [VScalar jint 0; VScalar jint 0; VScalar jint 2; VScalar jint 2;
          VScalar jint 6408; VScalar jint 5123; VRef 11]);
        (entry_named "glGenLists", [VScalar jint 2])]
       Toy.initial)
  = [Thrown "access violation" Toy.initial;
     Returned (JInt 1) (Toy.World [0; 0; 0; 0] [0; 0; 0; 0] 1 3 [0; 0; 0; 0])].
Proof. vm_compute. reflexivity. Qed.

(** An argument outside the range of its declared type is not a call the
    JVM can make. *)
Example ill_typed_call :
  Toy.call "glClear" [VScalar jint (2 ^ 31)] Toy.initial = ([], Stuck).
Proof. vm_compute. reflexivity. Qed.

(** An extension entry point calls whatever its handle says, also address
    zero. *)
Example null_handle :
  Toy.call "glBlendColor"
    [VScalar jlong 0; VScalar jfloat 0; VScalar jfloat 0; VScalar jfloat 0;
     VScalar jfloat 0] Toy.initial
  = ([Invoke (Address 0 "PFNGLBLENDCOLORPROC")
        [VScalar jfloat 0; VScalar jfloat 0; VScalar jfloat 0; VScalar jfloat 0]],
     Thrown "bad address" Toy.initial).
Proof. vm_compute. reflexivity. Qed.

(** The symbols of the extension entry points. *)
Example extension_symbols :
  map symbol (filter is_extension Gl_cpp) =
    ["Java_edu_mines_jves_opengl_Gl_nglBlendColor";
     "Java_edu_mines_jves_opengl_Gl_nglBlendEquation";
     "Java_edu_mines_jves_opengl_Gl_nglDrawRangeElements__IIIII_3B";
     "Java_edu_mines_jves_opengl_Gl_nglDrawRangeElements__IIIII_3I";
     "Java_edu_mines_jves_opengl_Gl_nglDrawRangeElements__IIIII_3S"].
Proof. vm_compute. reflexivity. Qed.

(** The suffix of an extension entry point describes the parameters written
    after the macro; the [jlong pfunc] that the macro adds has no letter in
    it. *)
Example extension_suffix :
  map (fun e => (suffix e,
                 fold_right (fun p acc => (scalar_code (p_type p) ++ acc)%string) ""
                            (params_of e)))
      (overloads "glDrawRangeElements")
  = [("IIIII_3B", "JIIIII"); ("IIIII_3I", "JIIIII"); ("IIIII_3S", "JIIIII")].
Proof. vm_compute. reflexivity. Qed.

Example table_size : List.length Gl_cpp = 346%nat.
Proof. vm_compute. reflexivity. Qed.

(** ** Further properties of the table and of calls *)

Lemma Gl_cpp_variants_wired_alike : forallb variants_wired_alike Gl_cpp = true.
Proof. vm_compute. reflexivity. Qed.

Lemma Gl_cpp_family_ok : forallb family_ok Gl_cpp = true.
Proof. vm_compute. reflexivity. Qed.

Lemma Gl_cpp_views_ok : forallb views_ok Gl_cpp = true.
Proof. vm_compute. reflexivity. Qed.

Lemma Gl_cpp_buffers_ok : forallb buffers_ok Gl_cpp = true.
Proof. vm_compute. reflexivity. Qed.

Lemma Gl_cpp_leaves_error_flag : forallb leaves_error_flag Gl_cpp = true.
Proof. vm_compute. reflexivity. Qed.

Lemma overloads_spec f e : In e (overloads f) -> In e Gl_cpp /\ native_name e = f.
Proof.
  unfold overloads. generalize Gl_cpp. intros tbl H.
  apply filter_In in H as [He Hn]. apply String.eqb_eq in Hn. auto.
Qed.

Lemma forward_names body ps1 : forall ps2 args,
  map p_name ps1 = map p_name ps2 ->
  forward body ps1 args = forward body ps2 args.
Proof.
  induction ps1 as [|p ps1 IH]; intros [|q ps2] args H; simpl in H; try discriminate.
  - reflexivity.
  - injection H as Hn Hrest. destruct args as [|v args]; simpl; [reflexivity|].
    unfold marshal. rewrite Hn, (IH ps2 args Hrest). reflexivity.
Qed.

Lemma same_wiring_spec a b :
  same_wiring a b = true ->
  e_decl a = e_decl b /\ map p_name (e_params a) = map p_name (e_params b) /\
  e_body a = e_body b /\ native_name a = native_name b.
Proof.
  unfold same_wiring. intros H.
  apply andb_true_iff in H as [H Hn]. apply andb_true_iff in H as [H Hb].
  apply andb_true_iff in H as [Hd Hp].
  destruct (decl_eq_dec (e_decl a) (e_decl b)); [|discriminate].
  destruct (list_eq_dec string_dec _ _); [|discriminate].
  destruct (list_eq_dec stmt_eq_dec _ _); [|discriminate].
  apply String.eqb_eq in Hn. auto.
Qed.

(** X1.  Entry points named after the same OpenGL function (the _3B, _3I and
    _3S variants) do the same thing: called with the same arguments in the
    same world, they make the same native invocation and end alike. *)
Theorem X1_variants_behave_alike
    (World : Type) (native : target -> list value -> World -> nresult World)
    (NewStringUTF : option string -> jresult) :
  forall f a b, In a (overloads f) -> In b (overloads f) ->
  forall args w,
    typed (params_of a) args -> typed (params_of b) args ->
    run World native NewStringUTF a args w = run World native NewStringUTF b args w.
Proof.
  intros f a b Ha Hb args w Hta Htb.
  apply overloads_spec in Ha as [Ha Hfa]. apply overloads_spec in Hb as [Hb Hfb].
  pose proof (proj1 (forallb_forall _ _) Gl_cpp_variants_wired_alike a Ha) as Hw.
  unfold variants_wired_alike in Hw.
  pose proof (proj1 (forallb_forall _ _) Hw b Hb) as Hab. cbv beta in Hab.
  rewrite Hfa, Hfb, String.eqb_refl in Hab.
  apply same_wiring_spec in Hab as [Hd [Hp [Hbody Hn]]].
  destruct (run_forwards World native NewStringUTF a args w
              (Gl_cpp_In_forwards a Ha) Hta) as [t [vs [Hc Hrun]]].
  destruct (run_forwards World native NewStringUTF b args w
              (Gl_cpp_In_forwards b Hb) Htb) as [t' [vs' [Hc' Hrun']]].
  rewrite Hrun, Hrun'.
  assert (Heq : native_call a args = native_call b args).
  { unfold native_call, is_extension, proc_type. rewrite Hd, Hn, Hbody.
    destruct (e_decl b);
      try (now rewrite (forward_names (e_body b) _ _ args Hp)).
    destruct args as [|[t0 z|h|cls h] rest]; try reflexivity.
    destruct t0; try reflexivity.
    now rewrite (forward_names (e_body b) _ _ rest Hp). }
  rewrite Heq, Hc' in Hc. injection Hc as <- <-.
  unfold deliver, return_type. rewrite Hd, Hbody. reflexivity.
Qed.

Lemma In_family base n c vector :
  In base component_bases -> In n component_counts ->
  In (base, (n, (c, vector))) family_members.
Proof.
  intros Hb Hn. unfold family_members.
  apply in_prod; [exact Hb|]. apply in_prod; [exact Hn|].
  apply in_prod.
  - destruct c; simpl; tauto.
  - destruct vector; simpl; tauto.
Qed.

Lemma view_class_locals body s :
  view_class body s =
    option_map (fun l => fst (fst l))
      (find (fun l => String.eqb (snd l) s) (locals_of body)).
Proof.
  induction body as [|st rest IH]; simpl; [reflexivity|].
  destruct st as [cls x src|c|e]; simpl; try exact IH.
  destruct (String.eqb src s); [reflexivity | exact IH].
Qed.

Lemma repeat_types_length ps t n :
  map p_type ps = repeat t n -> List.length ps = n.
Proof.
  intros H. rewrite <- (length_map p_type ps), H. apply repeat_length.
Qed.

(** X2.  In the families glColor, glVertex, glNormal, glTexCoord,
    glRasterPos and glEvalCoord, the name says what the function takes.  A
    function named <base><n><letter> has exactly n scalar parameters of the
    letter's type and invokes the OpenGL function of that same name on the n
    values it receives; a function named <base><n><letter>v has one array
    parameter of the letter's type and invokes the OpenGL function of that
    name on a view of that array, of the class of the letter's type. *)
Theorem X2_component_families
    (World : Type) (native : target -> list value -> World -> nresult World)
    (NewStringUTF : option string -> jresult) :
  forall e base n c,
    In e Gl_cpp -> In base component_bases -> In n component_counts ->
    (e_name e = component_name base n c false ->
       map p_type (e_params e) = repeat (scalar_of c) n /\
       forall args w, typed (e_params e) args ->
         List.length args = n /\
         fst (run World native NewStringUTF e args w) = [Invoke (Linked (e_name e)) args]) /\
    (e_name e = component_name base n c true ->
       exists x,
         e_params e = [Param (array_of c) x] /\
         forall h w,
           fst (run World native NewStringUTF e [VRef h] w) =
             [Invoke (Linked (e_name e)) [VView (class_of c) h]]).
Proof.
  intros e base n c He Hb Hn.
  pose proof (proj1 (forallb_forall _ _) Gl_cpp_family_ok e He) as Hfam.
  unfold family_ok in Hfam. split; intros Hname.
  - pose proof (proj1 (forallb_forall _ _) Hfam _ (In_family base n c false Hb Hn)) as H.
    cbv beta iota in H. rewrite Hname, String.eqb_refl in H.
    unfold component_shape in H.
    apply andb_true_iff in H as [H Hsh]. apply andb_true_iff in H as [Hx Hnn].
    apply negb_true_iff in Hx. apply String.eqb_eq in Hnn.
    apply andb_true_iff in Hsh as [Hty Hl].
    destruct (list_eq_dec jtype_eq_dec _ _) as [Hty'|]; [|discriminate].
    destruct (locals_of (e_body e)) eqn:Hloc; [|discriminate].
    split; [exact Hty'|]. intros args w Ht. split.
    + rewrite <- (typed_length _ _ Ht). now apply (repeat_types_length _ (scalar_of c)).
    + rewrite <- Hnn.
      exact (run_plain World native NewStringUTF e args w
               (Gl_cpp_In_forwards e He) Hx Hloc Ht).
  - pose proof (proj1 (forallb_forall _ _) Hfam _ (In_family base n c true Hb Hn)) as H.
    cbv beta iota in H. rewrite Hname, String.eqb_refl in H.
    unfold component_shape in H.
    apply andb_true_iff in H as [H Hsh]. apply andb_true_iff in H as [Hx Hnn].
    apply negb_true_iff in Hx. apply String.eqb_eq in Hnn.
    destruct (e_params e) as [|[t x] [|q ps]] eqn:Hps; try discriminate.
    destruct (locals_of (e_body e)) as [|[[cls y] src] [|l ls]] eqn:Hloc;
      try discriminate.
    apply andb_true_iff in Hsh as [Hsh Hsrc]. apply andb_true_iff in Hsh as [Hty Hcls].
    simpl in Hty, Hsrc.
    destruct (jtype_eq_dec t (array_of c)) as [->|]; [|discriminate].
    destruct (wrapper_eq_dec cls (class_of c)) as [->|]; [|discriminate].
    apply String.eqb_eq in Hsrc. subst src.
    exists x. split; [reflexivity|]. intros h w.
    assert (Ht : typed (params_of e) [VRef h]).
    { rewrite (params_of_direct e Hx), Hps. constructor; [|constructor].
      destruct c; reflexivity. }
    destruct (run_forwards World native NewStringUTF e [VRef h] w
                (Gl_cpp_In_forwards e He) Ht) as [tg [vs [Hc Hrun]]].
    rewrite Hrun. unfold native_call in Hc. rewrite Hx, Hps in Hc.
    simpl in Hc. unfold marshal in Hc. rewrite view_class_locals, Hloc in Hc.
    simpl in Hc. rewrite String.eqb_refl in Hc. simpl in Hc.
    injection Hc as <- <-. rewrite Hnn. reflexivity.
Qed.

Lemma view_fits_reference t cls : view_fits t cls = true -> is_reference t = true.
Proof. destruct t, cls; simpl; intros H; try discriminate; reflexivity. Qed.

Lemma view_fits_width t cls w :
  view_fits t cls = true -> view_width cls = Some w -> is_array_view cls = true ->
  array_width t = Some w.
Proof. destruct t, cls; simpl; intros Hf Hw Ha; try discriminate; exact Hw. Qed.

(** X3.  Over every array or buffer parameter a body declares exactly one
    view, of a class that fits the parameter's type (a typed array view has
    the element width of the managed array; float and double arrays are
    viewed as such); over a scalar parameter it declares none.  Every view is
    over a parameter of its function and is named as that parameter without
    the leading j. *)
Theorem X3_views_fit_parameters :
  forall e, In e Gl_cpp ->
    (forall p, In p (e_params e) -> is_reference (p_type p) = true ->
       exists cls,
         views_over (e_body e) (p_name p) = [cls] /\
         view_fits (p_type p) cls = true /\
         (forall w, view_width cls = Some w -> is_array_view cls = true ->
                    array_width (p_type p) = Some w)) /\
    (forall p, In p (e_params e) -> is_reference (p_type p) = false ->
       views_over (e_body e) (p_name p) = []) /\
    (forall cls x src, In (cls, x, src) (locals_of (e_body e)) ->
       src = ("j" ++ x)%string /\ exists p, In p (e_params e) /\ p_name p = src).
Proof.
  intros e He.
  pose proof (proj1 (forallb_forall _ _) Gl_cpp_views_ok e He) as H.
  unfold views_ok in H. apply andb_true_iff in H as [Hp Hl].
  split; [|split].
  - intros p Hin Hr. pose proof (proj1 (forallb_forall _ _) Hp p Hin) as H.
    cbv beta in H.
    destruct (views_over (e_body e) (p_name p)) as [|cls [|cls' rest]]; try discriminate.
    + rewrite Hr in H. discriminate.
    + exists cls. split; [reflexivity|]. split; [exact H|].
      intros w Hw Ha. exact (view_fits_width _ _ _ H Hw Ha).
  - intros p Hin Hr. pose proof (proj1 (forallb_forall _ _) Hp p Hin) as H.
    cbv beta in H.
    destruct (views_over (e_body e) (p_name p)) as [|cls [|cls' rest]]; try discriminate.
    + reflexivity.
    + apply view_fits_reference in H. congruence.
  - intros cls x src Hin. pose proof (proj1 (forallb_forall _ _) Hl _ Hin) as H.
    cbv beta iota in H. apply andb_true_iff in H as [Hex Hj].
    apply String.eqb_eq in Hj. split; [exact Hj|].
    apply existsb_exists in Hex as [p [Hpin Hn]]. apply String.eqb_eq in Hn. eauto.
Qed.

(** X4.  The entry points that take a direct buffer are exactly
    glColorPointer, glEdgeFlagPointer, glFeedbackBuffer, glIndexPointer,
    glInterleavedArrays, glNormalPointer, glSelectBuffer, glTexCoordPointer
    and glVertexPointer.  Every entry point whose name ends in Pointer takes
    integers followed by one buffer, and views that buffer as untyped
    memory. *)
Theorem X4_direct_buffers :
  forall e, In e Gl_cpp ->
    ((exists p, In p (e_params e) /\ p_type p = jobject) <->
     In (e_name e) buffer_functions) /\
    (ends_with "Pointer" (e_name e) = true ->
       exists before p,
         e_params e = before ++ [p] /\ p_type p = jobject /\
         Forall (fun q => p_type q = jint) before /\
         view_class (e_body e) (p_name p) = Some JvoidBuffer).
Proof.
  intros e He.
  pose proof (proj1 (forallb_forall _ _) Gl_cpp_buffers_ok e He) as H.
  unfold buffers_ok in H. apply andb_true_iff in H as [Hb Hp].
  apply Bool.eqb_prop in Hb. split.
  - split.
    + intros [p [Hin Hty]]. apply existsb_eqb_In. rewrite <- Hb.
      unfold takes_buffer. apply existsb_exists. exists p. split; [exact Hin|].
      destruct (jtype_eq_dec (p_type p) jobject); [reflexivity | contradiction].
    + intros Hin. apply In_existsb_eqb in Hin. rewrite <- Hb in Hin.
      unfold takes_buffer in Hin. apply existsb_exists in Hin as [p [Hpin Hty]].
      exists p. split; [exact Hpin|].
      destruct (jtype_eq_dec (p_type p) jobject); [assumption | discriminate].
  - intros Hend. rewrite Hend in Hp. unfold pointer_shape in Hp.
    destruct (rev (e_params e)) as [|p before] eqn:Hrev; [discriminate|].
    apply andb_true_iff in Hp as [Hp Hv]. apply andb_true_iff in Hp as [Hty Hints].
    exists (rev before), p.
    split; [|split; [|split]].
    + rewrite <- (rev_involutive (e_params e)), Hrev. reflexivity.
    + destruct (jtype_eq_dec (p_type p) jobject); [assumption | discriminate].
    + apply Forall_rev. apply Forall_forall. intros q Hq.
      pose proof (proj1 (forallb_forall _ _) Hints q Hq) as Hq'. cbv beta in Hq'.
      destruct (jtype_eq_dec (p_type q) jint); [assumption | discriminate].
    + destruct (view_class (e_body e) (p_name p)) as [[]|]; try discriminate.
      reflexivity.
Qed.

(** X5.  A call ends with a pending runtime fault exactly when the entry
    point is declared void and its native call faulted; it ends undefined
    exactly when the entry point is declared to return a value and its
    native call faulted; either way with the description and the world of
    that fault.  Without a native fault neither happens: the binding raises
    nothing of its own. *)
Theorem X5_faults_only_from_native_call
    (World : Type) (native : target -> list value -> World -> nresult World)
    (NewStringUTF : option string -> jresult) :
  forall e, In e Gl_cpp ->
  forall args w, typed (params_of e) args ->
  forall message w',
    (snd (run World native NewStringUTF e args w) = Thrown message w' <->
       return_type e = None /\
       exists t vs, native_call e args = Some (t, vs) /\
                    native t vs w = NFaults message w') /\
    (snd (run World native NewStringUTF e args w) = Undefined message w' <->
       return_type e <> None /\
       exists t vs, native_call e args = Some (t, vs) /\
                    native t vs w = NFaults message w').
Proof.
  intros e He args w Ht message w'.
  destruct (run_forwards World native NewStringUTF e args w
              (Gl_cpp_In_forwards e He) Ht) as [t [vs [Hc Hrun]]].
  rewrite Hrun. cbn [snd]. unfold deliver. split; split.
  - intros H. destruct (native t vs w) as [r w1|what w1] eqn:Hn.
    + destruct (return_expr (e_body e)); [|discriminate].
      destruct (convert NewStringUTF (return_type e) e0 r); discriminate.
    + destruct (return_type e); [discriminate|]. injection H as -> ->.
      split; [reflexivity|]. exists t, vs. split; [exact Hc | exact Hn].
  - intros [Hrt [t' [vs' [Hc' Hn]]]]. rewrite Hc in Hc'. injection Hc' as <- <-.
    now rewrite Hn, Hrt.
  - intros H. destruct (native t vs w) as [r w1|what w1] eqn:Hn.
    + destruct (return_expr (e_body e)); [|discriminate].
      destruct (convert NewStringUTF (return_type e) e0 r); discriminate.
    + destruct (return_type e); [|discriminate]. injection H as -> ->.
      split; [discriminate|]. exists t, vs. split; [exact Hc | exact Hn].
  - intros [Hrt [t' [vs' [Hc' Hn]]]]. rewrite Hc in Hc'. injection Hc' as <- <-.
    rewrite Hn. destruct (return_type e); [reflexivity | contradiction].
Qed.

Lemma void_run
    (World : Type) (native : target -> list value -> World -> nresult World)
    (NewStringUTF : option string -> jresult) e args w :
  In e Gl_cpp -> return_type e = None -> typed (params_of e) args ->
  exists t vs,
    native_call e args = Some (t, vs) /\
    snd (run World native NewStringUTF e args w) =
      match native t vs w with
      | NReturns _ w' => Returned JVoid w'
      | NFaults message w' => Thrown message w'
      end.
Proof.
  intros He Hrt Ht.
  destruct (run_forwards World native NewStringUTF e args w
              (Gl_cpp_In_forwards e He) Ht) as [t [vs [Hc Hrun]]].
  exists t, vs. split; [exact Hc|]. rewrite Hrun. cbn [snd]. unfold deliver.
  pose proof (proj1 (forallb_forall _ _) Gl_cpp_returns_well e He) as Hw.
  unfold returns_well in Hw. rewrite Hrt in Hw.
  destruct (return_expr (e_body e)); [discriminate|]. now rewrite Hrt.
Qed.

(** X6.  An entry point declared void, called with well-typed arguments,
    always comes back: with nothing, in the world its native call left,
    whatever that call handed back; or with the fault of that call.  It is
    never left without an outcome. *)
Theorem X6_void_entry_points_return_nothing
    (World : Type) (native : target -> list value -> World -> nresult World)
    (NewStringUTF : option string -> jresult) :
  forall e, In e Gl_cpp -> return_type e = None ->
  forall args w, typed (params_of e) args ->
  exists t vs,
    native_call e args = Some (t, vs) /\
    snd (run World native NewStringUTF e args w) =
      match native t vs w with
      | NReturns _ w' => Returned JVoid w'
      | NFaults message w' => Thrown message w'
      end.
Proof.
  intros e He Hrt args w Ht.
  exact (void_run World native NewStringUTF e args w He Hrt Ht).
Qed.

Lemma signed_32_range z : in_signed 32 (signed 32 z) = true.
Proof.
  unfold in_signed, signed. apply andb_true_iff.
  change (2 ^ 32) with 4294967296. change (2 ^ (32 - 1)) with 2147483648.
  rewrite Z.leb_le, Z.ltb_lt. Z.div_mod_to_equations. lia.
Qed.

(** X7.  What an entry point returns fits its declared return type, whatever
    the native library hands back: an integer entry point returns a number
    in the range of jint, a boolean entry point returns JNI_TRUE or
    JNI_FALSE and nothing else, a void entry point returns nothing. *)
Theorem X7_results_fit_their_type
    (World : Type) (native : target -> list value -> World -> nresult World)
    (NewStringUTF : option string -> jresult) :
  forall e, In e Gl_cpp ->
  forall args w v w', typed (params_of e) args ->
    snd (run World native NewStringUTF e args w) = Returned v w' ->
    (return_type e = Some jint -> exists z, v = JInt z /\ in_signed 32 z = true) /\
    (return_type e = Some jboolean ->
       v = JBoolean JNI_TRUE \/ v = JBoolean JNI_FALSE) /\
    (return_type e = None -> v = JVoid).
Proof.
  intros e He args w v w' Ht.
  destruct (run_forwards World native NewStringUTF e args w
              (Gl_cpp_In_forwards e He) Ht) as [t [vs [Hc Hrun]]].
  rewrite Hrun. cbn [snd]. unfold deliver.
  pose proof (proj1 (forallb_forall _ _) Gl_cpp_returns_well e He) as Hw.
  unfold returns_well in Hw. intros H.
  destruct (native t vs w) as [r w1|what w1];
    [|destruct (return_type e); discriminate].
  repeat split; intros Hrt; rewrite Hrt in *.
  - destruct (return_expr (e_body e)) as [[c|c|c]|]; try discriminate.
    destruct r as [|z|s]; simpl in H; try discriminate.
    injection H as <- <-. eexists. split; [reflexivity | apply signed_32_range].
  - destruct (return_expr (e_body e)) as [[c|c|c]|]; try discriminate.
    destruct r as [|z|s]; simpl in H; try discriminate.
    injection H as <- <-. destruct (z =? GL_TRUE); auto.
  - destruct (return_expr (e_body e)); [discriminate|]. now injection H as <- <-.
Qed.

(** X8.  A sequence of calls of void entry points leaves the world that the
    native calls behind them leave when made one after another without the
    binding, faults included. *)
Theorem X8_void_session_is_native_sequence
    (World : Type) (native : target -> list value -> World -> nresult World)
    (NewStringUTF : option string -> jresult) :
  forall calls,
    Forall (fun c => In (fst c) Gl_cpp /\ return_type (fst c) = None /\
                     typed (params_of (fst c)) (snd c)) calls ->
    forall w,
      world_at_end World native NewStringUTF calls w =
      native_sequence World native calls w.
Proof.
  induction 1 as [|[e args] calls [He [Hrt Ht]] _ IH]; intros w; simpl in *.
  - reflexivity.
  - destruct (void_run World native NewStringUTF e args w He Hrt Ht)
      as [t [vs [Hc Hrun]]].
    rewrite Hrun, Hc. destruct (native t vs w) as [r w1|what w1]; simpl; apply IH.
Qed.

(** X9.  No entry point other than glGetError invokes glGetError: the error
    flag of the library is read only when the caller asks for it. *)
Theorem X9_error_flag_left_alone
    (World : Type) (native : target -> list value -> World -> nresult World)
    (NewStringUTF : option string -> jresult) :
  forall e, In e Gl_cpp -> e_name e <> "glGetError" ->
  forall args w, typed (params_of e) args ->
  forall vs,
    ~ In (Invoke (Linked "glGetError") vs)
         (fst (run World native NewStringUTF e args w)).
Proof.
  intros e He Hne args w Ht vs Hin.
  destruct (run_forwards World native NewStringUTF e args w
              (Gl_cpp_In_forwards e He) Ht) as [t [vs' [Hc Hrun]]].
  rewrite Hrun in Hin. cbn [fst] in Hin. destruct Hin as [Heq|[]].
  injection Heq as -> ->.
  pose proof (proj1 (forallb_forall _ _) Gl_cpp_leaves_error_flag e He) as Hl.
  unfold leaves_error_flag in Hl. unfold native_call in Hc.
  destruct (is_extension e).
  - destruct args as [|[t0 z|h|cls h] rest]; try discriminate.
    destruct t0; discriminate.
  - injection Hc as Hn _. rewrite Hn, String.eqb_refl in Hl.
    rewrite orb_false_r in Hl. apply String.eqb_eq in Hl. contradiction.
Qed.

(** ** The further properties at concrete calls *)

Lemma X1_witness :
  run Toy.world Toy.native Toy.NewStringUTF (entry_named "glDrawPixels__IIII_3B")
    [VScalar jint 2; VScalar jint 2; VScalar jint 6408; VScalar jint 5121; VRef 3]
    Toy.initial
  = run Toy.world Toy.native Toy.NewStringUTF (entry_named "glDrawPixels__IIII_3S")
      [VScalar jint 2; VScalar jint 2; VScalar jint 6408; VScalar jint 5121; VRef 3]
      Toy.initial.
Proof.
  apply (X1_variants_behave_alike Toy.world Toy.native Toy.NewStringUTF "glDrawPixels").
  - vm_compute. left. reflexivity.
  - vm_compute. right. right. left. reflexivity.
  - apply typedb_typed. reflexivity.
  - apply typedb_typed. reflexivity.
Defined.

Lemma X2_witness :
  fst (run Toy.world Toy.native Toy.NewStringUTF (entry_named "glVertex3f")
         [VScalar jfloat Toy.one_f; VScalar jfloat 0; VScalar jfloat Toy.one_f]
         Toy.initial)
  = [Invoke (Linked "glVertex3f")
       [VScalar jfloat Toy.one_f; VScalar jfloat 0; VScalar jfloat Toy.one_f]].
Proof.
  assert (He : In (entry_named "glVertex3f") Gl_cpp)
    by (apply (entry_named_In _ (entry_named "glVertex3f")); reflexivity).
  assert (Hb : In "glVertex" component_bases) by (simpl; tauto).
  assert (Hn : In 3%nat component_counts) by (simpl; tauto).
  assert (Ht : typed (e_params (entry_named "glVertex3f"))
                 [VScalar jfloat Toy.one_f; VScalar jfloat 0; VScalar jfloat Toy.one_f])
    by (apply typedb_typed; reflexivity).
  exact (proj2 (proj2 (proj1 (X2_component_families
                                Toy.world Toy.native Toy.NewStringUTF
                                (entry_named "glVertex3f") "glVertex" 3 CFloat He Hb Hn)
                         eq_refl)
                  _ Toy.initial Ht)).
Defined.

Lemma X3_witness :
  exists cls,
    views_over (e_body (entry_named "glPrioritizeTextures")) "jtextures" = [cls] /\
    view_fits jintArray cls = true /\
    (forall w, view_width cls = Some w -> is_array_view cls = true ->
               array_width jintArray = Some w).
Proof.
  assert (He : In (entry_named "glPrioritizeTextures") Gl_cpp)
    by (apply (entry_named_In _ (entry_named "glPrioritizeTextures")); reflexivity).
  assert (Hp : In (Param jintArray "jtextures")
                  (e_params (entry_named "glPrioritizeTextures")))
    by (vm_compute; right; left; reflexivity).
  exact (proj1 (X3_views_fit_parameters _ He) (Param jintArray "jtextures") Hp eq_refl).
Defined.

Lemma X4_witness :
  exists before p,
    e_params (entry_named "glVertexPointer") = before ++ [p] /\
    p_type p = jobject /\
    Forall (fun q => p_type q = jint) before /\
    view_class (e_body (entry_named "glVertexPointer")) (p_name p) = Some JvoidBuffer.
Proof.
  assert (He : In (entry_named "glVertexPointer") Gl_cpp)
    by (apply (entry_named_In _ (entry_named "glVertexPointer")); reflexivity).
  exact (proj2 (X4_direct_buffers _ He) eq_refl).
Defined.

Lemma X5_witness :
  snd (run Toy.world Toy.native Toy.NewStringUTF (entry_named "glReadPixels__IIIIII_3I")
         [VScalar jint 0; VScalar jint 0; VScalar jint 1; VScalar jint 1;
          VScalar jint 6408; VScalar jint 5125; VRef 9] Toy.initial)
  = Thrown "access violation" Toy.initial.
Proof.
  assert (He : In (entry_named "glReadPixels__IIIIII_3I") Gl_cpp)
    by (apply (entry_named_In _ (entry_named "glReadPixels__IIIIII_3I")); reflexivity).
  assert (Ht : typed (params_of (entry_named "glReadPixels__IIIIII_3I"))
                 [VScalar jint 0; VScalar jint 0; VScalar jint 1; VScalar jint 1;
                  VScalar jint 6408; VScalar jint 5125; VRef 9])
    by (apply typedb_typed; reflexivity).
  apply (proj2 (proj1 (X5_faults_only_from_native_call
                         Toy.world Toy.native Toy.NewStringUTF
                         _ He _ Toy.initial Ht "access violation" Toy.initial))).
  split; [reflexivity|].
  exists (Linked "glReadPixels"),
         [VScalar jint 0; VScalar jint 0; VScalar jint 1; VScalar jint 1;
          VScalar jint 6408; VScalar jint 5125; VView JvoidArray 9].
  split; reflexivity.
Defined.

Lemma X6_witness :
  exists t vs,
    native_call (entry_named "glClear") [VScalar jint 16384] = Some (t, vs) /\
    snd (run Toy.world Toy.native Toy.NewStringUTF (entry_named "glClear")
           [VScalar jint 16384] Toy.initial) =
      match Toy.native t vs Toy.initial with
      | NReturns _ w' => Returned JVoid w'
      | NFaults message w' => Thrown message w'
      end.
Proof.
  assert (He : In (entry_named "glClear") Gl_cpp)
    by (apply (entry_named_In _ (entry_named "glClear")); reflexivity).
  assert (Ht : typed (params_of (entry_named "glClear")) [VScalar jint 16384])
    by (apply typedb_typed; reflexivity).
  exact (X6_void_entry_points_return_nothing Toy.world Toy.native Toy.NewStringUTF
           _ He eq_refl _ Toy.initial Ht).
Defined.

Lemma X7_witness :
  exists z, JInt 1 = JInt z /\ in_signed 32 z = true.
Proof.
  assert (He : In (entry_named "glGenLists") Gl_cpp)
    by (apply (entry_named_In _ (entry_named "glGenLists")); reflexivity).
  assert (Ht : typed (params_of (entry_named "glGenLists")) [VScalar jint 3])
    by (apply typedb_typed; reflexivity).
  exact (proj1 (X7_results_fit_their_type Toy.world Toy.native Toy.NewStringUTF
                  _ He [VScalar jint 3] Toy.initial (JInt 1)
                  (Toy.World [0; 0; 0; 0] [0; 0; 0; 0] 1 4 [0; 0; 0; 0]) Ht eq_refl)
           eq_refl).
Defined.

Lemma X8_witness :
  world_at_end Toy.world Toy.native Toy.NewStringUTF
    [(entry_named "glClearColor",
      [VScalar jfloat Toy.one_f; VScalar jfloat 0; VScalar jfloat 0;
       VScalar jfloat Toy.one_f]);
     (entry_named "glClear", [VScalar jint Toy.GL_COLOR_BUFFER_BIT])]
    Toy.initial
  = native_sequence Toy.world Toy.native
      [(entry_named "glClearColor",
        [VScalar jfloat Toy.one_f; VScalar jfloat 0; VScalar jfloat 0;
         VScalar jfloat Toy.one_f]);
       (entry_named "glClear", [VScalar jint Toy.GL_COLOR_BUFFER_BIT])]
      Toy.initial.
Proof.
  apply (X8_void_session_is_native_sequence Toy.world Toy.native Toy.NewStringUTF).
  constructor; [|constructor; [|constructor]]; cbn [fst snd].
  - split; [apply (entry_named_In _ (entry_named "glClearColor")); reflexivity|].
    split; [reflexivity | apply typedb_typed; reflexivity].
  - split; [apply (entry_named_In _ (entry_named "glClear")); reflexivity|].
    split; [reflexivity | apply typedb_typed; reflexivity].
Defined.

Lemma X9_witness :
  ~ In (Invoke (Linked "glGetError") [])
       (fst (run Toy.world Toy.native Toy.NewStringUTF (entry_named "glFlush") []
               Toy.initial)).
Proof.
  assert (He : In (entry_named "glFlush") Gl_cpp)
    by (apply (entry_named_In _ (entry_named "glFlush")); reflexivity).
  assert (Ht : typed (params_of (entry_named "glFlush")) [])
    by (apply typedb_typed; reflexivity).
  assert (Hne : e_name (entry_named "glFlush") <> "glGetError")
    by (vm_compute; discriminate).
  exact (X9_error_flag_left_alone Toy.world Toy.native Toy.NewStringUTF
           _ He Hne [] Toy.initial Ht []).
Defined.

Lemma Gl_cpp_unlinkable : forallb unlinkable declared_natives = true.
Proof. vm_compute. reflexivity. Qed.

(** X10.  For none of the native methods that the source lists is either
    name that JNI derives from the declaration among the exported symbols.
    The entry points written for the three nglDrawRangeElements methods are
    exported under the method name followed by the descriptor of the
    parameters after pfunc: the J of long pfunc is not in their suffix. *)
Theorem X10_listed_methods_not_exported_by_their_jni_names :
  forall d, In d declared_natives ->
    ~ In (jni_long_name d) (map symbol Gl_cpp) /\
    ~ In (jni_short_name d) (map symbol Gl_cpp) /\
    (n_name d = "nglDrawRangeElements" ->
       In (jni_short_name d ++ "__" ++ descriptor (tl (n_params d)))%string
          (map symbol Gl_cpp)).
Proof.
  intros d Hin.
  pose proof (proj1 (forallb_forall _ _) Gl_cpp_unlinkable d Hin) as H.
  unfold unlinkable in H.
  apply andb_true_iff in H as [H Hd]. apply andb_true_iff in H as [Hl Hs].
  apply negb_true_iff in Hl. apply negb_true_iff in Hs.
  split; [|split].
  - intros Hc. apply In_existsb_eqb in Hc. congruence.
  - intros Hc. apply In_existsb_eqb in Hc. congruence.
  - intros Hn. rewrite Hn, String.eqb_refl in Hd. now apply existsb_eqb_In.
Qed.

Lemma X10_witness :
  ~ In "Java_edu_mines_jves_opengl_Gl_nglDrawRangeElements__JIIIII_3B"
       (map symbol Gl_cpp) /\
  In "Java_edu_mines_jves_opengl_Gl_nglDrawRangeElements__IIIII_3B"
     (map symbol Gl_cpp).
Proof.
  assert (Hin : In (NativeDecl "nglDrawRangeElements"
                      [Param jlong "pfunc"; Param jint "mode"; Param jint "start";
                       Param jint "end"; Param jint "count"; Param jint "type";
                       Param jbyteArray "indices"]) declared_natives)
    by (vm_compute; left; reflexivity).
  destruct (X10_listed_methods_not_exported_by_their_jni_names _ Hin)
    as [Hlong [_ Hsym]].
  split; [exact Hlong | exact (Hsym eq_refl)].
Defined.
